(** * MAGICTales: the audio-emotion core of [app.py]

    A shallow embedding of the feature-extraction / classification path of
    the Flask application ([convert_audio_to_wav], [extract_features],
    [update_emotion_analytics], [analyze_saved_file], [_read_json_safe],
    [_write_json_safe]) together with the statements of the specification
    that concern it.

    Conventions.
    - A numpy 2-D array is a list of rows; a row lists the frames of one
      coefficient channel.  [shape0] is the number of rows and [shape1] the
      length of the first row, which is the number of columns of every row
      of a rectangular array.
    - A number is an extended rational: a finite value, a signed infinity
      or NaN.  The entries of a feature matrix are float32 numbers, and
      [np.mean] adds and divides them in float32, with the IEEE operations
      of the standard library: the mean is a float32, rounded, and not
      the exact mean ([exact_mean]).  The lines that turn the mean into an
      index are evaluated on its value, and also with the binary64
      operations ([b64_fallback_index]): on a mean that is a float32 the
      product by 100 is not rounded and both evaluations agree.
    - Functions with effects live in a state-and-exception monad over a
      [world]: the upload storage, the JSON stores and the outcome of the
      system calls the code guards with [try].
    - librosa and pydub are outside the repository: their entry points are
      the fields of the class [Libraries], and a statement holds for every
      instance unless it says what it asks of one. *)

From Stdlib Require Import Ascii String QArith Qround Qabs SpecFloat Sorted.
From stdpp Require Import gmap strings list fin_maps.

Local Open Scope Z_scope.

(** ** Constants of the module (lines 29-36) *)

Definition SR : Z := 22050.
Definition N_MFCC : nat := 40.
Definition MAX_PAD_LEN : nat := 174.

Definition EMOTION_LABELS : list string :=
  ["neutral"; "calm"; "happy"; "sad"; "angry"; "fear"; "disgust"; "surprise"]%string.

(** ** Python floats *)

Inductive pyfloat : Type :=
| PyFin (q : Q)
| PyInf (negative : bool)
| PyNaN.

Definition Qneg_b (q : Q) : bool := Qnum q <? 0.
Definition Qzero_b (q : Q) : bool := Qnum q =? 0.

(** The operations with exact results.  The sum serves the exact mean of
    the specification; the product and the absolute value serve line 184,
    where nothing is rounded on a mean that is a float32
    ([b64_fallback_index_exact]). *)
Definition float_add (a b : pyfloat) : pyfloat :=
  match a, b with
  | PyNaN, _ | _, PyNaN => PyNaN
  | PyFin x, PyFin y => PyFin (x + y)
  | PyInf s, PyFin _ | PyFin _, PyInf s => PyInf s
  | PyInf s, PyInf t => if Bool.eqb s t then PyInf s else PyNaN
  end.

Definition float_mul (a b : pyfloat) : pyfloat :=
  match a, b with
  | PyNaN, _ | _, PyNaN => PyNaN
  | PyFin x, PyFin y => PyFin (x * y)
  | PyInf s, PyFin y | PyFin y, PyInf s =>
      if Qzero_b y then PyNaN else PyInf (xorb s (Qneg_b y))
  | PyInf s, PyInf t => PyInf (xorb s t)
  end.

(** [abs(x)] on a float. *)
Definition float_abs (a : pyfloat) : pyfloat :=
  match a with
  | PyFin x => PyFin (Qabs x)
  | PyInf _ => PyInf false
  | PyNaN => PyNaN
  end.

(** An exact sum divided by the number of its terms; with no term the
    mean is NaN. *)
Definition float_div_count (a : pyfloat) (n : nat) : pyfloat :=
  match n with
  | O => PyNaN
  | S _ =>
      match a with
      | PyFin x => PyFin (x / inject_Z (Z.of_nat n))
      | other => other
      end
  end.

Definition is_finite (a : pyfloat) : bool :=
  match a with PyFin _ => true | _ => false end.

(** ** numpy's float32 *)

(** The entries of the feature matrix are float32 numbers, and numpy adds
    and divides them as such: every result is rounded to the nearest
    float32, an overflow gives an infinity. *)
Definition f32_add : spec_float -> spec_float -> spec_float := SFadd 24 128.
Definition f32_div : spec_float -> spec_float -> spec_float := SFdiv 24 128.

(** A float32 zero, of either sign. *)
Definition f32_is_zero (x : spec_float) : Prop := exists s, x = S754_zero s.

(** The rational a finite float stands for. *)
Definition float_value (s : bool) (m : positive) (e : Z) : Q :=
  if 0 <=? e then inject_Z (cond_Zopp s (Zpos m * 2 ^ e))
  else Qmake (cond_Zopp s (Zpos m)) (Z.to_pos (2 ^ (- e))).

(** An integer as a float. *)
Definition float_of_Z (z : Z) : spec_float :=
  match z with
  | Z0 => S754_zero false
  | Zpos p => S754_finite false p 0
  | Zneg p => S754_finite true p 0
  end.

(** The float32 that holds an entry: the entry itself when it is a float32
    number, the nearest one otherwise. *)
Definition float32_of_Q (q : Q) : spec_float :=
  f32_div (float_of_Z (Qnum q)) (float_of_Z (Zpos (Qden q))).

Definition float32_of_pyfloat (a : pyfloat) : spec_float :=
  match a with
  | PyFin q => float32_of_Q q
  | PyInf s => S754_infinity s
  | PyNaN => S754_nan
  end.

(** The number a float32 is, the sign of a zero dropped. *)
Definition pyfloat_of_float (x : spec_float) : pyfloat :=
  match x with
  | S754_zero _ => PyFin 0
  | S754_finite s m e => PyFin (float_value s m e)
  | S754_infinity s => PyInf s
  | S754_nan => PyNaN
  end.

(** ** Exceptions and results *)

Inductive exn : Type :=
| ValueError (msg : string)
| OverflowError (msg : string)
| IndexError (msg : string)
| ImportError (msg : string)
| OSError (msg : string)
| LibraryError (msg : string).

Inductive result (A : Type) : Type :=
| Ok (a : A)
| Raise (e : exn).
Arguments Ok {A} a.
Arguments Raise {A} e.

(** [int(x)] on a float truncates toward zero; it raises on NaN and on an
    infinity. *)
Definition Qtrunc (q : Q) : Z := Z.quot (Qnum q) (Zpos (Qden q)).

Definition py_int (a : pyfloat) : result Z :=
  match a with
  | PyFin q => Ok (Qtrunc q)
  | PyInf _ => Raise (OverflowError "cannot convert float infinity to integer")
  | PyNaN => Raise (ValueError "cannot convert float NaN to integer")
  end.

(** [xs[i]] on a Python list, for an index that the caller computed as a
    non-negative integer or as a negative one counting from the end. *)
Definition py_getitem {A : Type} (xs : list A) (i : Z) : result A :=
  let j := if i <? 0 then i + Z.of_nat (length xs) else i in
  if j <? 0 then Raise (IndexError "list index out of range")
  else match xs !! Z.to_nat j with
       | Some x => Ok x
       | None => Raise (IndexError "list index out of range")
       end.

(** ** Feature matrices *)

Abbreviation matrix := (list (list pyfloat)).

Definition fzero : pyfloat := PyFin 0.

Definition shape0 (m : matrix) : nat := length m.
Definition shape1 (m : matrix) : nat := length (hd [] m).

(** Every row has [n] entries. *)
Definition rectangular (n : nat) (m : matrix) : Prop :=
  Forall (fun row => length row = n) m.

(** Entry at row [i], column [j]. *)
Definition entry (m : matrix) (i j : nat) : option pyfloat :=
  m !! i ≫= fun row => row !! j.

(** [np.pad(m, pad_width=((0,0),(0,pad_width)), mode='constant')]: no row is
    added, every row gets [pad_width] zeros on its right. *)
Definition np_pad_right (m : matrix) (pad_width : nat) : matrix :=
  (fun row => row ++ replicate pad_width fzero) <$> m.

(** [m[:, :k]]: the first [k] columns. *)
Definition slice_cols (m : matrix) (k : nat) : matrix :=
  take k <$> m.

(** Lines 115-119 of [extract_features]. *)
Definition fit_frames (mfcc : matrix) (max_pad_len : nat) : matrix :=
  if (shape1 mfcc <? max_pad_len)%nat then
    let pad_width := (max_pad_len - shape1 mfcc)%nat in
    np_pad_right mfcc pad_width
  else
    slice_cols mfcc max_pad_len.

Definition np_size (m : matrix) : nat := length (concat m).

(** The mean as the specification words it: the sum of all entries divided
    by their number, in exact arithmetic. *)
Definition exact_sum (m : matrix) : pyfloat :=
  foldr float_add fzero (concat m).

Definition exact_mean (m : matrix) : pyfloat :=
  float_div_count (exact_sum m) (np_size m).

(** [np.mean(m)] on a float32 array adds the entries in float32 and divides
    the sum by their number, in float32 again.  The additions are numpy's
    pairwise summation over the entries row after row: fewer than 8 of
    them one after the other; up to 128 of them in eight running sums, one
    for every eighth entry, which are then added in pairs, the entries
    left over after the last full group of eight one after the other; more
    than 128 of them as the sum of two parts, the first of half the
    length, cut down to a multiple of eight.  This is the order for an
    array stored row after row, as [np.pad] returns it. *)
Fixpoint chunks8 (a : list spec_float) : list (list spec_float) :=
  match a with
  | a0 :: a1 :: a2 :: a3 :: a4 :: a5 :: a6 :: a7 :: rest =>
      [a0; a1; a2; a3; a4; a5; a6; a7] :: chunks8 rest
  | _ => []
  end.

Definition sum_in_order (res : spec_float) (a : list spec_float) : spec_float :=
  fold_left f32_add a res.

Definition sum_lanes (r : list spec_float) : spec_float :=
  match r with
  | [r0; r1; r2; r3; r4; r5; r6; r7] =>
      f32_add (f32_add (f32_add r0 r1) (f32_add r2 r3))
              (f32_add (f32_add r4 r5) (f32_add r6 r7))
  | _ => S754_nan
  end.

Definition block_sum (a : list spec_float) : spec_float :=
  let n := length a in
  let full := (n - n mod 8)%nat in
  match chunks8 (take full a) with
  | r :: groups =>
      let r := fold_left (zip_with f32_add) groups r in
      sum_in_order (sum_lanes r) (drop full a)
  | [] => sum_in_order (S754_zero true) a
  end.

(** The recursion halves the list, so a fuel of its length is never used
    up ([pairwise_sum_fuel] below). *)
Fixpoint pairwise_sum (fuel : nat) (a : list spec_float) : spec_float :=
  let n := length a in
  if (n <? 8)%nat then sum_in_order (S754_zero true) a
  else if (n <=? 128)%nat then block_sum a
  else match fuel with
       | O => block_sum a
       | S fuel' =>
           let n2 := (n / 2 - (n / 2) mod 8)%nat in
           f32_add (pairwise_sum fuel' (take n2 a)) (pairwise_sum fuel' (drop n2 a))
       end.

(** The float32 that [np.mean(m)] returns; the mean of an empty array is
    NaN. *)
Definition np_mean32 (m : matrix) : spec_float :=
  let a := float32_of_pyfloat <$> concat m in
  f32_div (pairwise_sum (length a) a) (float_of_Z (Z.of_nat (np_size m))).

Definition np_mean (m : matrix) : pyfloat := pyfloat_of_float (np_mean32 m).

(** ** The fallback classifier (lines 183-185 of [analyze_saved_file]) *)

Definition hundred : pyfloat := PyFin 100.

Definition fallback_index (mfcc : matrix) : result Z :=
  let mean_val := np_mean mfcc in
  match py_int (float_abs (float_mul mean_val hundred)) with
  | Ok n => Ok (n mod Z.of_nat (length EMOTION_LABELS))
  | Raise e => Raise e
  end.

Definition fallback_emotion (mfcc : matrix) : result string :=
  match fallback_index mfcc with
  | Ok idx => py_getitem EMOTION_LABELS idx
  | Raise e => Raise e
  end.

(** The index as the specification words it: the floor of the absolute
    value of a hundred times the mean, reduced modulo 8. *)
Definition spec_index (mean : Q) : Z := Qfloor (Qabs (mean * 100)) mod 8.

(** ** The same lines in IEEE binary64 *)

(** [x * y] on Python floats. *)
Definition b64_mul : spec_float -> spec_float -> spec_float := SFmul 53 1024.

(** The float [100]: 25 * 2^48 * 2^-46. *)
Definition b64_hundred : spec_float := S754_finite false 7036874417766400 (-46).

(** [float(x)] for a numpy float32 [x]: the same value with a mantissa of
    53 bits. *)
Definition float_of_float32 (x : spec_float) : spec_float :=
  match x with
  | S754_finite s m e =>
      let a := 53 - Zpos (digits2_pos m) in
      S754_finite s (Z.to_pos (Zpos m * 2 ^ a)) (e - a)
  | other => other
  end.

(** The floor of [a * 2^e], for a non-negative integer [a]. *)
Definition scaled_floor (a e : Z) : Z :=
  if 0 <=? e then a * 2 ^ e else a / 2 ^ (- e).

(** [int(x)] on a binary64. *)
Definition b64_int (x : spec_float) : result Z :=
  match x with
  | S754_zero _ => Ok 0
  | S754_finite s m e => Ok (cond_Zopp s (scaled_floor (Zpos m) e))
  | S754_infinity _ => Raise (OverflowError "cannot convert float infinity to integer")
  | S754_nan => Raise (ValueError "cannot convert float NaN to integer")
  end.

(** Line 184 on a binary64 [mean_val]. *)
Definition b64_fallback_index (mean_val : spec_float) : result Z :=
  match b64_int (SFabs (b64_mul mean_val b64_hundred)) with
  | Ok n => Ok (n mod Z.of_nat (length EMOTION_LABELS))
  | Raise e => Raise e
  end.

(** ** Path strings *)

Local Open Scope string_scope.

Definition ascii_lower (c : ascii) : ascii :=
  let n := nat_of_ascii c in
  if ((65 <=? n) && (n <=? 90))%nat then ascii_of_nat (n + 32) else c.

(** [s.lower()], on the ASCII letters. *)
Fixpoint lower (s : string) : string :=
  match s with
  | EmptyString => EmptyString
  | String c s' => String (ascii_lower c) (lower s')
  end.

Definition is_dot (c : ascii) : bool := bool_decide (c = "."%char).

(** [s.split('.')]. *)
Fixpoint split_dot (s : string) : list string :=
  match s with
  | EmptyString => [EmptyString]
  | String c s' =>
      if is_dot c then EmptyString :: split_dot s'
      else match split_dot s' with
           | h :: t => String c h :: t
           | [] => [String c EmptyString]
           end
  end.

(** [s.split('.')[-1]]. *)
Definition split_last (s : string) : string := List.last (split_dot s) EmptyString.

(** ['.'.join(parts)]. *)
Fixpoint join_dot (parts : list string) : string :=
  match parts with
  | [] => EmptyString
  | [p] => p
  | p :: rest => p ++ "." ++ join_dot rest
  end.

(** [s.rsplit('.', 1)[0]]: what precedes the last dot, or all of [s] when
    it has no dot. *)
Definition rsplit1_head (s : string) : string :=
  match split_dot s with
  | [_] => s
  | parts => join_dot (removelast parts)
  end.

(** [os.path.join(a, b)] for a relative [b]. *)
Definition os_path_join (a b : string) : string :=
  match a with
  | EmptyString => b
  | _ => if bool_decide (List.last (list_ascii_of_string a) "/"%char = "/"%char)
         then a ++ b else a ++ "/" ++ b
  end.

(** ** The world *)

(** Parsed content of a JSON store.  The stores of this development hold a
    counter per label; anything [json.load] rejects is [JGarbage]. *)
Inductive json_doc : Type :=
| JCounts (counts : gmap string Z)
| JGarbage.

(** How a write to a JSON store can fail: [open(path, 'w')] raises and the
    file is untouched, or [json.dump] raises after [open] truncated it. *)
Inductive write_failure : Type :=
| OpenFails
| DumpFails.

Record world : Type := mkWorld {
  uploads : gmap string string;          (* audio files by path, as bytes *)
  json_files : gmap string json_doc;     (* JSON stores by path *)
  pydub_installed : bool;                (* does [from pydub import AudioSegment] succeed *)
  remove_denied : gset string;           (* paths on which [os.remove] raises *)
  write_failures : gmap string write_failure  (* JSON paths whose write fails *)
}.

Definition set_uploads (f : gmap string string -> gmap string string) (w : world) : world :=
  mkWorld (f (uploads w)) (json_files w) (pydub_installed w) (remove_denied w) (write_failures w).

Definition set_json_files (f : gmap string json_doc -> gmap string json_doc) (w : world) : world :=
  mkWorld (uploads w) (f (json_files w)) (pydub_installed w) (remove_denied w) (write_failures w).

(** ** The monad of effects: state passing, with exceptions that keep the
    state reached when they were raised *)

Definition M (A : Type) : Type := world -> result A * world.

Definition ret {A : Type} (a : A) : M A := fun w => (Ok a, w).

Definition raise {A : Type} (e : exn) : M A := fun w => (Raise e, w).

Definition bind {A B : Type} (m : M A) (k : A -> M B) : M B :=
  fun w => match m w with
           | (Ok a, w') => k a w'
           | (Raise e, w') => (Raise e, w')
           end.

(** [try: body except Exception as e: handler e]. *)
Definition try_except {A : Type} (body : M A) (handler : exn -> M A) : M A :=
  fun w => match body w with
           | (Ok a, w') => (Ok a, w')
           | (Raise e, w') => handler e w'
           end.

Definition lift {A : Type} (r : result A) : M A := fun w => (r, w).

Declare Scope py_scope.
Delimit Scope py_scope with py.
Notation "'do' x <- m ;; k" := (bind m (fun x => k))
  (at level 10, x name, m at level 99, k at level 200) : py_scope.
Notation "'run' m ;; k" := (bind m (fun _ => k))
  (at level 10, m at level 99, k at level 200) : py_scope.
Local Open Scope py_scope.

(** ** System calls *)

Definition os_path_exists (p : string) : M bool :=
  fun w => (Ok (bool_decide (is_Some (uploads w !! p))), w).

Definition os_remove (p : string) : M unit :=
  fun w => match uploads w !! p with
           | None => (Raise (OSError "No such file or directory"), w)
           | Some _ =>
               if bool_decide (p ∈ remove_denied w)
               then (Raise (OSError "Permission denied"), w)
               else (Ok tt, set_uploads (delete p) w)
           end.

Definition read_file (p : string) : M string :=
  fun w => match uploads w !! p with
           | Some c => (Ok c, w)
           | None => (Raise (OSError "No such file or directory"), w)
           end.

Definition write_file (p : string) (c : string) : M unit :=
  fun w => (Ok tt, set_uploads (insert p c) w).

Definition import_pydub : M unit :=
  fun w => if pydub_installed w then (Ok tt, w)
           else (Raise (ImportError "No module named 'pydub'"), w).

(** ** JSON stores (lines 428-441) *)

(** [with open(path, 'r', encoding='utf-8') as f: return json.load(f)]. *)
Definition json_load_file (path : string) : M (gmap string Z) :=
  fun w => match json_files w !! path with
           | Some (JCounts counts) => (Ok counts, w)
           | Some JGarbage => (Raise (ValueError "Expecting value"), w)
           | None => (Raise (OSError "No such file or directory"), w)
           end.

(** [with open(path, 'w', encoding='utf-8') as f: json.dump(data, f, ...)]. *)
Definition json_dump_file (path : string) (data : gmap string Z) : M unit :=
  fun w => match write_failures w !! path with
           | None => (Ok tt, set_json_files (insert path (JCounts data)) w)
           | Some OpenFails => (Raise (OSError "Permission denied"), w)
           | Some DumpFails =>
               (Raise (OSError "No space left on device"),
                set_json_files (insert path JGarbage) w)
           end.

Definition _read_json_safe (path : string) (default_value : gmap string Z)
    : M (gmap string Z) :=
  try_except (json_load_file path) (fun _ => ret default_value).

Definition _write_json_safe (path : string) (data : gmap string Z) : M bool :=
  try_except
    (run json_dump_file path data ;;
     ret true)
    (fun _ => ret false).

(** ** The libraries the code calls *)

Class Libraries : Type := {
  (** pydub's audio segments *)
  segment : Type;
  (** [AudioSegment.from_file] on the bytes of a file, with the format the
      caller names, if any *)
  AudioSegment_from_bytes : string -> option string -> result segment;
  (** the bytes [AudioSegment.export(_, format="wav")] produces *)
  AudioSegment_to_wav : segment -> result string;
  (** [librosa.load] on the bytes of a file, at the sample rate asked for *)
  librosa_decode : string -> Z -> result (list pyfloat);
  (** [librosa.feature.mfcc(y=, sr=, n_mfcc=)] *)
  librosa_feature_mfcc : list pyfloat -> Z -> nat -> matrix
}.

(** ** The application code *)

Section App.

Context `{Libraries}.

(** The global [model] (lines 49-60): [None], or the trained network
    followed by [torch.argmax(output, dim=1).item()]. *)
Variable model : option (matrix -> Z).

(** [os.path.dirname(__file__)]. *)
Variable base_dir : string.

Definition AudioSegment_from_file (path : string) (format : option string) : M segment :=
  do c <- read_file path ;;
  lift (AudioSegment_from_bytes c format).

Definition AudioSegment_export (audio : segment) (path : string) : M unit :=
  do c <- lift (AudioSegment_to_wav audio) ;;
  write_file path c.

(** [librosa.load(file_path, sr=sr)]; the sample rate it returns next to
    the samples is [sr]. *)
Definition librosa_load (file_path : string) (sr : Z) : M (list pyfloat * Z) :=
  do c <- read_file file_path ;;
  do audio <- lift (librosa_decode c sr) ;;
  ret (audio, sr).

(** Lines 65-91. *)
Definition convert_audio_to_wav (audio_path : string) : M (option string) :=
  try_except
    (run import_pydub ;;
     let wav_path := rsplit1_head audio_path ++ "_converted.wav" in
     let file_ext := split_last (lower audio_path) in
     do audio <-
       (if bool_decide (file_ext = "webm") then
          AudioSegment_from_file audio_path (Some "webm")
        else if bool_decide (file_ext = "mp4") then
          AudioSegment_from_file audio_path (Some "mp4")
        else if bool_decide (file_ext = "ogg") then
          AudioSegment_from_file audio_path (Some "ogg")
        else
          AudioSegment_from_file audio_path None) ;;
     run AudioSegment_export audio wav_path ;;
     ret (Some wav_path))
    (fun e => match e with
              | ImportError _ => ret None
              | _ => ret None
              end).

(** Lines 99-104: which file [librosa.load] will read.  Nothing here
    raises: [convert_audio_to_wav] catches every exception. *)
Definition choose_source (file_path : string) : M string :=
  let file_ext := split_last (lower file_path) in
  if bool_decide (file_ext ∈ ["webm"; "mp4"; "ogg"]) then
    do converted_path <- convert_audio_to_wav file_path ;;
    match converted_path with
    | Some p =>
        do present <- os_path_exists p ;;
        if negb (bool_decide (p = "")) && present then ret p else ret file_path
    | None => ret file_path
    end
  else ret file_path.

(** Lines 124-129 and 135-139: remove the converted file, if one is in
    use; a failing removal is passed over. *)
Definition cleanup_converted (file_path original_path : string) : M unit :=
  do present <- os_path_exists file_path ;;
  if negb (bool_decide (file_path = original_path)) && present then
    try_except (os_remove file_path) (fun _ => ret tt)
  else ret tt.

(** Lines 106-119. *)
Definition load_and_fit (file_path : string) (sr : Z) (n_mfcc max_pad_len : nat) : M matrix :=
  do loaded <- librosa_load file_path sr ;;
  let '(audio, sample_rate) := loaded in
  if bool_decide (length audio = 0%nat) then
    raise (ValueError "Audio file is empty or could not be loaded")
  else
    let mfcc := librosa_feature_mfcc audio sample_rate n_mfcc in
    ret (fit_frames mfcc max_pad_len).

(** Lines 93-140.  The local [file_path] is assigned once, before anything
    in the [try] block can raise, so the handler sees the value chosen by
    [choose_source]. *)
Definition extract_features (file_path : string) (sr : Z) (n_mfcc max_pad_len : nat) : M matrix :=
  let original_path := file_path in
  do file_path <- choose_source original_path ;;
  try_except
    (do mfcc <- load_and_fit file_path sr n_mfcc max_pad_len ;;
     run cleanup_converted file_path original_path ;;
     ret mfcc)
    (fun e =>
       run cleanup_converted file_path original_path ;;
       raise e).

(** Lines 142-153. *)
Definition emotion_path : string := os_path_join base_dir "emotion_analytics.json".

Definition increment (emotion : string) (emotion_counts : gmap string Z) : gmap string Z :=
  let current_count := default 0 (emotion_counts !! emotion) in
  <[emotion := current_count + 1]> emotion_counts.

Definition update_emotion_analytics (emotion : string) : M unit :=
  do emotion_counts <- _read_json_safe emotion_path ∅ ;;
  let emotion_counts := increment emotion emotion_counts in
  run _write_json_safe emotion_path emotion_counts ;;
  ret tt.

(** Lines 174-185: the trained model when there is one, the fallback
    otherwise. *)
Definition predict (mfcc : matrix) : result string :=
  match model with
  | Some net =>
      let pred := net mfcc in
      py_getitem EMOTION_LABELS pred
  | None =>
      fallback_emotion mfcc
  end.

(** Lines 168-197. *)
Definition analyze_saved_file (filepath : string) : M string :=
  try_except
    (do mfcc <- extract_features filepath SR N_MFCC MAX_PAD_LEN ;;
     do emotion <- lift (predict mfcc) ;;
     run update_emotion_analytics emotion ;;
     ret emotion)
    (fun e => raise e).

End App.

(** * More of [app.py]

    A Python [str] is a Rocq string with one [ascii] per character, which
    covers the strings whose characters are below U+0100.  Paths are POSIX
    paths. *)

(** ** Names of uploads (lines 29-30 and 62-63) *)

Definition UPLOAD_FOLDER : string := "uploads".

(** A set in the source; only membership is used. *)
Definition ALLOWED_EXTENSIONS : list string :=
  ["wav"; "mp3"; "ogg"; "flac"; "webm"; "m4a"; "mp4"].

(** ['.' in s]. *)
Definition contains_dot (s : string) : bool :=
  existsb is_dot (list_ascii_of_string s).

(** [s.rsplit('.', 1)]: one part when [s] has no dot, two parts otherwise. *)
Definition rsplit1 (s : string) : list string :=
  match split_dot s with
  | [_] => [s]
  | parts => [join_dot (removelast parts); List.last parts EmptyString]
  end.

(** Lines 62-63.  [and] evaluates the index expression only when the name
    has a dot. *)
Definition allowed_file (filename : string) : result bool :=
  if contains_dot filename then
    match py_getitem (rsplit1 filename) 1 with
    | Ok ext => Ok (bool_decide (lower ext ∈ ALLOWED_EXTENSIONS))
    | Raise e => Raise e
    end
  else Ok false.

(** [os.path.join(a, b)]: an absolute [b] replaces [a]. *)
Definition posix_join (a b : string) : string :=
  match b with
  | String "/"%char _ => b
  | _ => os_path_join a b
  end.

(** ** Story analytics (lines 155-166) and the dashboard figures (lines 524-543) *)

Section Counters.

Variable base_dir : string.

Definition story_path : string := os_path_join base_dir "story_analytics.json".

Definition update_story_analytics (emotion : string) : M unit :=
  do story_counts <- _read_json_safe story_path ∅ ;;
  let story_counts := increment emotion story_counts in
  run _write_json_safe story_path story_counts ;;
  ret tt.

End Counters.

(** [sum(int(v) for v in emotion_counts.values())]. *)
Definition total_emotions (emotion_counts : gmap string Z) : Z :=
  map_fold (fun _ v acc => (v + acc)%Z) 0%Z emotion_counts.

(** [max(items, key=key)] and [min(items, key=key)] on a non-empty sequence
    given by its first item and the rest: the first item with the greatest,
    or the smallest, key. *)
Fixpoint py_max_by {A : Type} (key : A -> Z) (best : A) (rest : list A) : A :=
  match rest with
  | [] => best
  | x :: rest' => py_max_by key (if (key best <? key x)%Z then x else best) rest'
  end.

Fixpoint py_min_by {A : Type} (key : A -> Z) (best : A) (rest : list A) : A :=
  match rest with
  | [] => best
  | x :: rest' => py_min_by key (if (key x <? key best)%Z then x else best) rest'
  end.

(** Lines 527-543: [most_detected] and [least_detected] from
    [emotion_counts.items()]. *)
Definition most_detected (items : list (string * Z)) : string * Z :=
  match items with
  | [] => ("—", 0%Z)
  | item :: rest => py_max_by snd item rest
  end.

Definition least_detected (items : list (string * Z)) : string * Z :=
  match items with
  | [] => ("—", 0%Z)
  | item :: rest => py_min_by snd item rest
  end.

(** ** Password rules (lines 443-454) *)

Definition is_upper (c : ascii) : bool :=
  let n := nat_of_ascii c in ((65 <=? n) && (n <=? 90))%nat.

Definition is_lower (c : ascii) : bool :=
  let n := nat_of_ascii c in ((97 <=? n) && (n <=? 122))%nat.

(** What [\d] matches, and what [int] reads as a digit, among the
    characters below U+0100, which are the characters of the strings here:
    0 to 9.  On Python strings with other characters both also take the
    decimal digits of other scripts, which [[^A-Za-z0-9]] matches as well. *)
Definition is_digit (c : ascii) : bool :=
  let n := nat_of_ascii c in ((48 <=? n) && (n <=? 57))%nat.

(** The class [[^A-Za-z0-9]]. *)
Definition is_special (c : ascii) : bool := negb (is_upper c || is_lower c || is_digit c).

(** [re.search(r'[...]', s)] for a one-character class, as a truth value. *)
Definition re_search (class : ascii -> bool) (s : string) : bool :=
  existsb class (list_ascii_of_string s).

Definition validate_password_strength (password : string) : bool * option string :=
  if (String.length password <? 8)%nat then
    (false, Some "Password must be at least 8 characters.")
  else if negb (re_search is_upper password) then
    (false, Some "Password must include an uppercase letter.")
  else if negb (re_search is_lower password) then
    (false, Some "Password must include a lowercase letter.")
  else if negb (re_search is_digit password) then
    (false, Some "Password must include a number.")
  else if negb (re_search is_special password) then
    (false, Some "Password must include a special character.")
  else (true, None).

(** ** Requests, sessions and responses *)

(** An uploaded file as Werkzeug hands it over. *)
Record FileStorage : Type := mkFile {
  fs_filename : option string;
  fs_stream : string
}.

Record Request : Type := mkRequest {
  req_method : string;
  req_files : gmap string FileStorage;
  req_form : gmap string string
}.

(** What a view returns: a dictionary with a status, a rendered template
    with the keyword arguments it was given, a redirect to an endpoint,
    with the user name in its address where it has one, or a text with a
    status. *)
Inductive Response : Type :=
| JsonResponse (body : list (string * string)) (status : Z)
| Rendered (template : string) (context : list (string * option string))
| Redirect (endpoint : string)
| RedirectUser (endpoint : string) (username : string)
| Text (body : string) (status : Z).

(** The truth value of an optional string: [None] and [''] are false. *)
Definition truthy (o : option string) : bool :=
  match o with
  | Some s => negb (bool_decide (s = EmptyString))
  | None => false
  end.

(** [str(e)]. *)
Definition exn_str (e : exn) : string :=
  match e with
  | ValueError msg | OverflowError msg | IndexError msg
  | ImportError msg | OSError msg | LibraryError msg => msg
  end.

(** Lines 345-368: the offline story. *)
Definition fallback_story (emotion : string) : string :=
  "Once upon a time, in a realm where emotions painted the " ++
  "very fabric of reality, there lived a " ++
  emotion ++
  " traveler whose heart carried the weight of countless " ++
  "unspoken words. This wanderer, whose name was whispered " ++
  "only by the wind, had journeyed through valleys of doubt " ++
  "and mountains of uncertainty, seeking a place where their " ++
  emotion ++
  " spirit could find true belonging. One fateful evening, as " ++
  "the stars began their ancient dance across the velvet sky, " ++
  "the traveler stumbled upon a hidden gateway adorned with " ++
  "symbols that seemed to pulse with living light. Beyond this " ++
  "mystical portal lay the enchanted land of Magictales, a " ++
  "realm where every feeling, no matter how complex or " ++
  "contradictory, was celebrated as a precious gift from the " ++
  "universe itself. As the " ++
  emotion ++
  " wanderer stepped through the threshold, they felt their " ++
  "heart begin to resonate with the very essence of this " ++
  "magical world, as if the land itself recognized the depth " ++
  "of their emotional journey. The trees whispered ancient " ++
  "wisdom in languages that spoke directly to the soul, while " ++
  "rivers sang melodies that seemed to understand the unspoken " ++
  "yearnings of the heart. Guided by their " ++
  emotion ++
  " nature, the traveler discovered that this realm held no " ++
  "judgment, only acceptance and the promise of transformation " ++
  "through emotional authenticity. Each step forward revealed " ++
  "new wonders: flowers that bloomed in response to genuine " ++
  "feelings, crystals that amplified the power of honest " ++
  "expression, and creatures that offered companionship " ++
  "without demanding the traveler to be anything other than " ++
  "their true, " ++
  emotion ++
  " self. In this sacred space, the wanderer learned that their " ++
  emotion ++
  " heart was not a burden to carry, but a compass that would " ++
  "guide them toward their ultimate destiny. And so, with " ++
  "courage born from self-acceptance and kindness that flowed " ++
  "from emotional honesty, the once-lost traveler found not " ++
  "just a path, but a purpose that would illuminate their " ++
  "journey toward a happily-ever-after written in the stars " ++
  "themselves.".

(** ** The views that analyse an upload or tell a story (lines 288-373) *)

Section Views.

Context `{Libraries}.
Variable model : option (matrix -> Z).
Variable base_dir : string.

(** [FileStorage.save(path)]. *)
Variable FileStorage_save : FileStorage -> string -> M unit.

(** [", ".join(ALLOWED_EXTENSIONS)], in the order the set happens to have. *)
Variable allowed_listing : string.

(** The optional import of line 22 and the key of line 39. *)
Variable generate_story_with_groq : option (string -> string -> result string).
Variable GROQ_API_KEY : option string.

(** Lines 288-311.  The session is Flask's session dictionary. *)
Definition dashboard (request : Request) (session : gmap string string)
    : M (Response * gmap string string) :=
  if negb (bool_decide (is_Some (session !! "user"))) then
    ret (Redirect "login", session)
  else if bool_decide (req_method request = "POST") then
    match req_files request !! "file" with
    | None =>
        ret (Rendered "dashboard.html" [("error", Some "No file part")], session)
    | Some file =>
        if bool_decide (fs_filename file = Some EmptyString) then
          ret (Rendered "dashboard.html" [("error", Some "No selected file")], session)
        else
          do allowed <-
            (if truthy (fs_filename file)
             then lift (allowed_file (default EmptyString (fs_filename file)))
             else ret false) ;;
          if (allowed : bool) then
            let filepath :=
              posix_join UPLOAD_FOLDER (default EmptyString (fs_filename file)) in
            run FileStorage_save file filepath ;;
            try_except
              (do emotion <- analyze_saved_file model base_dir filepath ;;
               let session := <["last_emotion" := emotion]> session in
               ret (Rendered "dashboard.html" [("emotion", Some emotion)], session))
              (fun e =>
                 ret (Rendered "dashboard.html"
                        [("error", Some ("Error processing file: " ++ exn_str e))],
                      session))
          else
            ret (Rendered "dashboard.html" [("error", Some "Invalid file type")], session)
    end
  else
    let last_emotion := session !! "last_emotion" in
    let session := delete "last_emotion" session in
    ret (Rendered "dashboard.html" [("emotion", last_emotion)], session).

(** Lines 313-331. *)
Definition api_analyze (request : Request) (session : gmap string string)
    : M (Response * gmap string string) :=
  if negb (bool_decide (is_Some (session !! "user"))) then
    ret (JsonResponse [("error", "Unauthorized")] 401, session)
  else
    match req_files request !! "file" with
    | None => ret (JsonResponse [("error", "No file part")] 400, session)
    | Some file =>
        let filename :=
          if truthy (fs_filename file) then default EmptyString (fs_filename file)
          else "recording.wav" in
        do allowed <- lift (allowed_file filename) ;;
        if negb allowed then
          ret (JsonResponse
                 [("error", "Invalid file type: " ++ filename ++ ". Allowed: "
                            ++ allowed_listing)] 400,
               session)
        else
          try_except
            (let filepath := posix_join UPLOAD_FOLDER filename in
             run FileStorage_save file filepath ;;
             do emotion <- analyze_saved_file model base_dir filepath ;;
             let session := <["last_emotion" := emotion]> session in
             ret (JsonResponse [("emotion", emotion)] 200, session))
            (fun e => ret (JsonResponse [("error", exn_str e)] 500, session))
    end.

(** Lines 333-373. *)
Definition story (request : Request) (session : gmap string string)
    : M (Response * gmap string string) :=
  if negb (bool_decide (is_Some (session !! "user"))) then
    ret (Redirect "login", session)
  else
    let emotion := session !! "last_emotion" in
    do story <-
      (if truthy emotion then
         let emotion := default EmptyString emotion in
         try_except
           (do story <-
              (match generate_story_with_groq with
               | Some generate =>
                   if truthy GROQ_API_KEY
                   then lift (generate emotion (default EmptyString GROQ_API_KEY))
                   else ret (fallback_story emotion)
               | None => ret (fallback_story emotion)
               end) ;;
            run update_story_analytics base_dir emotion ;;
            ret (Some story))
           (fun e => ret (Some ("Could not generate story: " ++ exn_str e)))
       else ret None) ;;
    ret (Rendered "story.html" [("emotion", emotion); ("story", story)], session).

End Views.

(** ** User accounts (lines 203-240, 412-425, 687-716, 754-779) *)

(** The values the code stores in a user record or a token record. *)
Inductive jvalue : Type :=
| JNull
| JBool (b : bool)
| JString (s : string)
| JStrings (items : list string).

#[global] Instance jvalue_eq_dec : EqDecision jvalue.
Proof. solve_decision. Defined.

(** [user_data.json] and [password_reset_tokens.json]: what [json.load]
    gives for each, [None] when the file is missing or cannot be parsed,
    and how writing each fails, if it does. *)
Record accounts : Type := mkAccounts {
  users_doc : option (gmap string (gmap string jvalue));
  users_write : option write_failure;
  tokens_doc : option (gmap string (gmap string jvalue));
  tokens_write : option write_failure
}.

(** [_read_json_safe(users_path, {})] and [_write_json_safe(users_path, _)]. *)
Definition read_users (a : accounts) : gmap string (gmap string jvalue) :=
  default ∅ (users_doc a).

Definition write_users (users : gmap string (gmap string jvalue)) (a : accounts)
    : bool * accounts :=
  match users_write a with
  | None => (true, mkAccounts (Some users) (users_write a) (tokens_doc a) (tokens_write a))
  | Some OpenFails => (false, a)
  | Some DumpFails => (false, mkAccounts None (users_write a) (tokens_doc a) (tokens_write a))
  end.

(** The same for [tokens_path]. *)
Definition read_tokens (a : accounts) : gmap string (gmap string jvalue) :=
  default ∅ (tokens_doc a).

Definition write_tokens (tokens : gmap string (gmap string jvalue)) (a : accounts)
    : bool * accounts :=
  match tokens_write a with
  | None => (true, mkAccounts (users_doc a) (users_write a) (Some tokens) (tokens_write a))
  | Some OpenFails => (false, a)
  | Some DumpFails => (false, mkAccounts (users_doc a) (users_write a) None (tokens_write a))
  end.

(** [c.isspace()] for a character below U+0100. *)
Definition is_space (c : ascii) : bool :=
  let n := nat_of_ascii c in
  ((9 <=? n) && (n <=? 13) || (28 <=? n) && (n <=? 32) || (n =? 133) || (n =? 160))%nat.

Fixpoint lstrip_chars (l : list ascii) : list ascii :=
  match l with
  | c :: l' => if is_space c then lstrip_chars l' else l
  | [] => []
  end.

(** [s.strip()]. *)
Definition strip (s : string) : string :=
  string_of_list_ascii
    (rev (lstrip_chars (rev (lstrip_chars (list_ascii_of_string s))))).

(** The record [register] stores (lines 706-713). *)
Definition new_user (email password : string) : gmap string jvalue :=
  {[ "email" := JString email; "password" := JString password;
     "emotions" := JStrings []; "profile_pic" := JNull;
     "status" := JString "Offline"; "is_logged_in" := JBool false ]}.

(** Lines 687-716. *)
Definition register (request : Request) (a : accounts) : Response * accounts :=
  if bool_decide (req_method request = "POST") then
    let username := req_form request !! "username" in
    let email := req_form request !! "email" in
    let password := req_form request !! "password" in
    if negb (truthy username) || negb (truthy email) || negb (truthy password) then
      (Rendered "register.html" [("error", Some "Please fill out all fields.")], a)
    else
      let username := default EmptyString username in
      let email := default EmptyString email in
      let password := default EmptyString password in
      let users := read_users a in
      if bool_decide (is_Some (users !! username)) then
        (Rendered "register.html"
           [("error", Some "Username already exists. Please choose another.")], a)
      else
        let '(ok, err) := validate_password_strength password in
        if negb ok then (Rendered "register.html" [("error", err)], a)
        else
          let users := <[username := new_user email password]> users in
          let '(_, a) := write_users users a in
          (Redirect "login", a)
  else (Rendered "register.html" [("error", None)], a).

(** Lines 203-240. *)
Definition login (request : Request) (session : gmap string string) (a : accounts)
    : Response * gmap string string * accounts :=
  if bool_decide (req_method request = "POST") then
    let username := req_form request !! "username" in
    let password := req_form request !! "password" in
    if negb (truthy username) || negb (truthy password) then
      (Rendered "login.html"
         [("error", Some "Please enter both username and password.")], session, a)
    else
      let username := default EmptyString username in
      let password := default EmptyString password in
      if bool_decide (lower (strip username) = "admin")
         && bool_decide (password = "admin123") then
        let session := delete "user" session in
        let session := <["admin" := "admin"]> session in
        (Redirect "admin_dashboard", session, a)
      else
        let users := read_users a in
        match users !! username with
        | None =>
            (Rendered "login.html"
               [("error", Some "User not found. Please register first.")], session, a)
        | Some user_info =>
            if bool_decide (user_info = ∅) then
              (Rendered "login.html"
                 [("error", Some "User not found. Please register first.")], session, a)
            else
              match user_info !! "password" with
              | None | Some JNull =>
                  (Rendered "login.html"
                     [("error",
                       Some "This account has no password set. Please register again.")],
                   session, a)
              | Some stored_pw =>
                  if negb (bool_decide (stored_pw = JString password)) then
                    (Rendered "login.html" [("error", Some "Incorrect password.")],
                     session, a)
                  else
                    let user_info := <["status" := JString "Online"]> user_info in
                    let user_info := <["is_logged_in" := JBool true]> user_info in
                    let users := <[username := user_info]> users in
                    let '(_, a) := write_users users a in
                    let session := delete "admin" session in
                    let session := <["user" := username]> session in
                    (Redirect "dashboard", session, a)
              end
        end
  else (Rendered "login.html" [("error", None)], session, a).

(** Lines 412-425. *)
Definition logout (session : gmap string string) (a : accounts)
    : Response * gmap string string * accounts :=
  match session !! "user" with
  | Some username =>
      let users := read_users a in
      let a :=
        match users !! username with
        | Some user_info =>
            let user_info := <["status" := JString "Offline"]> user_info in
            let user_info := <["is_logged_in" := JBool false]> user_info in
            let users := <[username := user_info]> users in
            (write_users users a).2
        | None => a
        end in
      (Redirect "index", delete "user" session, a)
  | None => (Redirect "index", session, a)
  end.

(** Lines 754-779.  The name under which the token was issued is a string
    in the token record; without one the subscript raises, and a list
    there cannot be looked up in the users. *)
Definition reset_password (token : string) (request : Request) (a : accounts)
    : result (Response * accounts) :=
  let tokens := read_tokens a in
  match tokens !! token with
  | None => Ok (Text "Invalid or expired token." 400, a)
  | Some token_info =>
      if bool_decide (token_info = ∅) then Ok (Text "Invalid or expired token." 400, a)
      else if bool_decide (req_method request = "POST") then
        let new_pw := req_form request !! "password" in
        let '(ok, err) :=
          validate_password_strength
            (if truthy new_pw then default EmptyString new_pw else EmptyString) in
        if negb ok then Ok (Rendered "reset_password.html" [("error", err); ("message", None)], a)
        else
          let users := read_users a in
          match token_info !! "username" with
          | Some (JString username) =>
              match users !! username with
              | Some user_info =>
                  let user_info :=
                    <["password" := JString (default EmptyString new_pw)]> user_info in
                  let users := <[username := user_info]> users in
                  let '(_, a) := write_users users a in
                  let tokens := delete token tokens in
                  let '(_, a) := write_tokens tokens a in
                  Ok (Redirect "login", a)
              | None =>
                  Ok (Rendered "reset_password.html" [("error", None); ("message", None)], a)
              end
          | Some (JStrings _) => Raise (LibraryError "TypeError: unhashable type: 'list'")
          | Some _ =>
              Ok (Rendered "reset_password.html" [("error", None); ("message", None)], a)
          | None => Raise (LibraryError "KeyError: 'username'")
          end
      else Ok (Rendered "reset_password.html" [("error", None); ("message", None)], a)
  end.

(** ** The admin's views of the accounts (lines 486-508 and 624-638) *)

(** Lines 486-489: [None] lets the view go on. *)
Definition _require_admin (session : gmap string string) : option Response :=
  if bool_decide (is_Some (session !! "admin")) then None else Some (Redirect "login").

(** Lines 492-503. *)
Definition admin_login (request : Request) (session : gmap string string)
    : Response * gmap string string :=
  if bool_decide (req_method request = "POST") then
    let username := req_form request !! "username" in
    let password := req_form request !! "password" in
    if truthy username && truthy password
       && bool_decide (lower (strip (default EmptyString username)) = "admin")
       && bool_decide (default EmptyString password = "admin123") then
      let session := delete "user" session in
      let session := <["admin" := "admin"]> session in
      (Redirect "admin_dashboard", session)
    else (Rendered "admin_login.html" [("error", Some "Invalid admin credentials.")], session)
  else (Rendered "admin_login.html" [("error", None)], session).

(** Lines 505-508. *)
Definition admin_logout (session : gmap string string) : Response * gmap string string :=
  (Redirect "index", delete "admin" session).

(** Lines 624-638; the route takes POST requests only. *)
Definition admin_update_user (username : string) (request : Request)
    (session : gmap string string) (a : accounts) : Response * accounts :=
  match _require_admin session with
  | Some guard => (guard, a)
  | None =>
      let users := read_users a in
      let user_info :=
        default {[ "emotions" := JStrings []; "profile_pic" := JNull ]} (users !! username) in
      let bio :=
        match req_form request !! "bio" with
        | Some bio => JString bio
        | None => default (JString EmptyString) (user_info !! "bio")
        end in
      let user_info := <["bio" := bio]> user_info in
      let status :=
        match req_form request !! "status" with
        | Some status => JString status
        | None => default (JString "Active") (user_info !! "status")
        end in
      let user_info := <["status" := status]> user_info in
      let users := <[username := user_info]> users in
      let '(_, a) := write_users users a in
      (RedirectUser "admin_edit_user" username, a)
  end.

(** ** Feedback (lines 375-410 and 650-668) *)

(** What [feedback] appends to [feedback_data.json], and the reply the
    admin attaches.  The file is taken to hold items of this shape, each
    with an integer [id]. *)
Record Reply : Type := mkReply {
  reply_admin : string;
  reply_text : option string;
  reply_timestamp : string
}.

Record FeedbackItem : Type := mkItem {
  item_id : Z;
  item_user : string;
  item_rating : Z;
  item_feedback : string;
  item_timestamp : string;
  item_admin_reply : option Reply
}.

(** [feedback_data.json]: what [json.load] gives, [None] when the file is
    missing or cannot be parsed, and how writing it fails, if it does. *)
Record feedback_store : Type := mkFeedback {
  feedback_doc : option (list FeedbackItem);
  feedback_write : option write_failure
}.

(** [_read_json_safe(feedback_path, [])] and [_write_json_safe(feedback_path, _)]. *)
Definition read_feedback (s : feedback_store) : list FeedbackItem :=
  default [] (feedback_doc s).

Definition write_feedback (items : list FeedbackItem) (s : feedback_store)
    : bool * feedback_store :=
  match feedback_write s with
  | None => (true, mkFeedback (Some items) (feedback_write s))
  | Some OpenFails => (false, s)
  | Some DumpFails => (false, mkFeedback None (feedback_write s))
  end.

(** The white space [int] skips around a number, for a character below
    U+0100: unlike [str.isspace], not U+001C to U+001F. *)
Definition is_int_space (c : ascii) : bool :=
  let n := nat_of_ascii c in
  ((9 <=? n) && (n <=? 13) || (n =? 32) || (n =? 133) || (n =? 160))%nat.

Fixpoint skip_int_spaces (l : list ascii) : list ascii :=
  match l with
  | c :: l' => if is_int_space c then skip_int_spaces l' else l
  | [] => []
  end.

Definition digit_value (c : ascii) : Z := Z.of_nat (nat_of_ascii c) - 48.

(** The digits of a decimal number, single underscores allowed between
    them: the value, how many digits there were, and what follows; [None]
    for two underscores in a row or one at the end. *)
Fixpoint scan_digits (l : list ascii) (prev_underscore : bool) (value : Z) (digits : nat)
    : option (Z * nat * list ascii) :=
  match l with
  | c :: l' =>
      if is_digit c then scan_digits l' false (10 * value + digit_value c)%Z (S digits)
      else if bool_decide (c = "_"%char) then
        if prev_underscore then None else scan_digits l' true value digits
      else if prev_underscore then None else Some (value, digits, l)
  | [] => if prev_underscore then None else Some (value, digits, l)
  end.

(** [int(s)] for a string; [None] stands for [ValueError].  Numbers of
    more than 4300 digits are refused, as Python does by default. *)
Definition py_int_of_str (s : string) : option Z :=
  let l := skip_int_spaces (list_ascii_of_string s) in
  let '(negative, l) :=
    match l with
    | "+"%char :: l' => (false, l')
    | "-"%char :: l' => (true, l')
    | _ => (false, l)
    end in
  match l with
  | "_"%char :: _ => None
  | _ =>
      match scan_digits l false 0%Z 0%nat with
      | Some (value, digits, rest) =>
          if (digits =? 0)%nat || (4300 <? digits)%nat then None
          else match skip_int_spaces rest with
               | [] => Some (if negative then (- value)%Z else value)
               | _ => None
               end
      | None => None
      end
  end.

(** [sorted(items, key=lambda x: x.get('timestamp', ''), reverse=True)]:
    greatest key first, items of equal key in the order they had. *)
Fixpoint insert_by_timestamp (x : FeedbackItem) (l : list FeedbackItem) : list FeedbackItem :=
  match l with
  | y :: l' =>
      if String.ltb (item_timestamp y) (item_timestamp x) then x :: y :: l'
      else y :: insert_by_timestamp x l'
  | [] => [x]
  end.

Definition sorted_newest_first (items : list FeedbackItem) : list FeedbackItem :=
  fold_left (fun sorted x => insert_by_timestamp x sorted) items [].

(** [x] may be shown before [y]: its timestamp is not the smaller one. *)
Definition not_older (x y : FeedbackItem) : Prop :=
  String.ltb (item_timestamp x) (item_timestamp y) = false.

(** What the feedback view answers: a redirect, or [feedback.html] with
    its arguments, [None] for one that is not passed. *)
Inductive FeedbackResponse : Type :=
| FeedbackRedirect (endpoint : string)
| FeedbackPage (error : option string) (success : bool) (feedback : list FeedbackItem)
    (current_user : option string).

(** Lines 375-410; [now] is [datetime.now().strftime('%Y-%m-%d %H:%M:%S')]. *)
Definition feedback (now : string) (request : Request) (session : gmap string string)
    (s : feedback_store) : FeedbackResponse * feedback_store :=
  match session !! "user" with
  | None => (FeedbackRedirect "login", s)
  | Some user =>
      let all_feedback := read_feedback s in
      if bool_decide (req_method request = "POST") then
        let rating := req_form request !! "rating" in
        let text := req_form request !! "feedback" in
        let rating_int :=
          match rating with
          | Some rating => default 0%Z (py_int_of_str rating)
          | None => 0%Z
          end in
        if (rating_int <? 1)%Z || (5 <? rating_int)%Z || negb (truthy text) then
          let user_items := filter (fun f => item_user f = user) all_feedback in
          (FeedbackPage (Some "Please provide rating 1-5 and feedback text.") false
             user_items None, s)
        else
          let new_id :=
            match all_feedback with
            | first :: rest => (item_id (py_max_by item_id first rest) + 1)%Z
            | [] => 1%Z
            end in
          let all_feedback :=
            (all_feedback
             ++ [mkItem new_id user rating_int (default EmptyString text) now None])%list in
          let '(_, s) := write_feedback all_feedback s in
          (FeedbackPage None true (sorted_newest_first all_feedback) (Some user), s)
      else (FeedbackPage None false (sorted_newest_first all_feedback) (Some user), s)
  end.

(** The loop of lines 659-666: the first item with this id gets the reply. *)
Fixpoint reply_to_first (feedback_id : Z) (reply : Reply) (items : list FeedbackItem)
    : list FeedbackItem :=
  match items with
  | item :: rest =>
      if bool_decide (item_id item = feedback_id) then
        mkItem (item_id item) (item_user item) (item_rating item) (item_feedback item)
          (item_timestamp item) (Some reply) :: rest
      else item :: reply_to_first feedback_id reply rest
  | [] => []
  end.

(** Lines 650-668; the route takes POST requests only. *)
Definition admin_reply_feedback (now : string) (feedback_id : Z) (request : Request)
    (session : gmap string string) (s : feedback_store) : Response * feedback_store :=
  match _require_admin session with
  | Some guard => (guard, s)
  | None =>
      let feedback := read_feedback s in
      let reply_text := req_form request !! "reply" in
      let feedback := reply_to_first feedback_id (mkReply "admin" reply_text now) feedback in
      let '(_, s) := write_feedback feedback s in
      (Redirect "admin_feedback", s)
  end.

(** ** A small instance of the libraries and some worlds, to run the code on *)

Definition sample_of_byte (c : ascii) : pyfloat :=
  PyFin (inject_Z (Z.of_nat (nat_of_ascii c))).

(** A decoder that reads one sample per byte and rejects a file that
    starts with an exclamation mark; a front end that repeats the samples
    on every coefficient row; a converter that keeps the bytes. *)
Definition toy_libraries : Libraries := {|
  segment := string;
  AudioSegment_from_bytes := fun c _ => Ok c;
  AudioSegment_to_wav := fun c => Ok c;
  librosa_decode := fun c _ =>
    match c with
    | String "!"%char _ => Raise (LibraryError "unknown format")
    | _ => Ok (sample_of_byte <$> list_ascii_of_string c)
    end;
  librosa_feature_mfcc := fun y _ n_mfcc => replicate n_mfcc y
|}.

Definition world_of (files : gmap string string) (pydub : bool) (denied : gset string)
    (failures : gmap string write_failure) : world :=
  mkWorld files ∅ pydub denied failures.

(** Is every entry a finite zero? *)
Definition float_is_zero (a : pyfloat) : bool :=
  match a with PyFin q => Qzero_b q | _ => false end.

Definition all_zero (m : matrix) : bool := forallb (forallb float_is_zero) m.

(** A three-sample clip in several containers and worlds. *)
Definition w_wav : world :=
  world_of {[ "uploads/clip.wav" := "abd" ]} true ∅ ∅.

Definition w_wav_copy : world :=
  world_of {[ "uploads/copy.wav" := "abd"; "uploads/other.wav" := "xyz" ]} false ∅ ∅.

Definition w_ogg : world :=
  world_of {[ "uploads/clip.ogg" := "abd" ]} true ∅ ∅.

Definition w_ogg_no_pydub : world :=
  world_of {[ "uploads/clip.ogg" := "abd" ]} false ∅ ∅.

Definition w_ogg_locked : world :=
  world_of {[ "uploads/clip.ogg" := "abd" ]} true {[ "uploads/clip_converted.wav" ]} ∅.

(** A clip of two hundred samples. *)
Definition long_clip : string := string_of_list_ascii (replicate 200 "a"%char).

Definition w_long : world :=
  world_of {[ "uploads/long.wav" := long_clip ]} true ∅ ∅.

Definition w_empty : world :=
  world_of {[ "uploads/empty.wav" := "" ]} true ∅ ∅.

Definition w_readonly : world :=
  world_of {[ "uploads/clip.wav" := "abd" ]} true ∅
           {[ "app/emotion_analytics.json" := OpenFails ]}.

(** Requests, sessions and stores to run the views on. *)
Definition get_request : Request := mkRequest "GET" ∅ ∅.

Definition upload_request : Request :=
  mkRequest "POST" {[ "file" := mkFile (Some "clip.wav") "abd" ]} ∅.

Definition ann_session : gmap string string := {[ "user" := "ann" ]}.

Definition admin_session : gmap string string := {[ "admin" := "admin" ]}.

(** A [save] that writes the stream under the path. *)
Definition save_to_disk (f : FileStorage) (path : string) : M unit :=
  write_file path (fs_stream f).

Definition w_no_uploads : world := world_of ∅ true ∅ ∅.

Definition signup_request : Request :=
  mkRequest "POST" ∅
    {[ "username" := "ann"; "email" := "ann@example.org"; "password" := "Secret#2024" ]}.

Definition login_request : Request :=
  mkRequest "POST" ∅ {[ "username" := "ann"; "password" := "Secret#2024" ]}.

Definition no_accounts : accounts := mkAccounts None None None None.

Definition readonly_accounts : accounts := mkAccounts None (Some OpenFails) None None.

(** One user, with a reset token issued to her. *)
Definition ann_accounts : accounts :=
  mkAccounts (Some {[ "ann" := new_user "ann@example.org" "Secret#2024" ]}) None
    (Some {[ "t0" := {[ "username" := JString "ann"; "email" := JString "ann@example.org";
                        "created_at" := JString "2024-01-01T10:00:00" ]} ]}) None.

Definition new_password_request : Request :=
  mkRequest "POST" ∅ {[ "password" := "Better#2025" ]}.

Definition bob_login_request : Request :=
  mkRequest "POST" ∅ {[ "username" := "bob"; "password" := "Secret#2024" ]}.

Definition bob_signup_request : Request :=
  mkRequest "POST" ∅
    {[ "username" := "bob"; "email" := "bob@example.org"; "password" := "Secret#2024" ]}.

Definition bob_status_request : Request :=
  mkRequest "POST" ∅ {[ "status" := "Suspended" ]}.

(** Two pieces of feedback, and a third being sent. *)
Definition two_feedback : feedback_store :=
  mkFeedback
    (Some [mkItem 1 "bob" 4 "Nice stories" "2024-01-01 10:00:00" None;
           mkItem 4 "ann" 2 "Too slow" "2024-01-03 09:30:00" None]) None.

Definition feedback_request : Request :=
  mkRequest "POST" ∅ {[ "rating" := " 5"; "feedback" := "Better now" ]}.

Definition reply_request : Request :=
  mkRequest "POST" ∅ {[ "reply" := "Thank you" ]}.

(** Four float32 entries with the mean 0.28125. *)
Definition quarters : matrix :=
  [[PyFin (1 # 2); PyFin (1 # 4)]; [PyFin (1 # 8); PyFin (1 # 4)]].

(** A matrix of 40 rows and 174 columns whose only entry that is not zero
    is 15964569 * 2^-15, the float32 number below 487.2. *)
Definition one_entry_matrix : matrix :=
  (PyFin (15964569 # 32768) :: replicate 173 fzero) :: replicate 39 (replicate 174 fzero).

(** ** Notions used to state what the code does *)

(** The name [convert_audio_to_wav] gives to the file it writes. *)
Definition wav_path_of (audio_path : string) : string :=
  rsplit1_head audio_path ++ "_converted.wav".

(** The world [cleanup_converted] leaves. *)
Definition after_cleanup (file_path original_path : string) (w : world) : world :=
  if negb (bool_decide (file_path = original_path))
     && bool_decide (is_Some (uploads w !! file_path))
     && negb (bool_decide (file_path ∈ remove_denied w))
  then set_uploads (delete file_path) w
  else w.

(** [convert_audio_to_wav] once the format handed to pydub is settled. *)
Definition convert_with `{Libraries} (audio_path : string) (fmt : option string)
    : M (option string) :=
  try_except
    (run import_pydub ;;
     let wav_path := rsplit1_head audio_path ++ "_converted.wav" in
     do audio <- AudioSegment_from_file audio_path fmt ;;
     run AudioSegment_export audio wav_path ;;
     ret (Some wav_path))
    (fun e => match e with
              | ImportError _ => ret None
              | _ => ret None
              end).

(** The world [update_emotion_analytics] leaves, given the path of its store. *)
Definition after_record (path : string) (counts : gmap string Z) (w : world) : world :=
  match write_failures w !! path with
  | None => set_json_files (insert path (JCounts counts)) w
  | Some OpenFails => w
  | Some DumpFails => set_json_files (insert path JGarbage) w
  end.

(** What [_read_json_safe path {}] returns in a world. *)
Definition stored_counts (path : string) (w : world) : gmap string Z :=
  match json_files w !! path with
  | Some (JCounts counts) => counts
  | _ => ∅
  end.

(** Two worlds that differ in the upload storage only. *)
Definition same_but_uploads (w w' : world) : Prop :=
  json_files w' = json_files w /\ pydub_installed w' = pydub_installed w
  /\ remove_denied w' = remove_denied w /\ write_failures w' = write_failures w.

(** * Properties *)

(** ** Arithmetic of the fallback index *)

Lemma Qtrunc_Qabs (q : Q) : Qtrunc (Qabs q) = Qfloor (Qabs q).
Proof.
  destruct q as [n d]. unfold Qtrunc, Qfloor, Qabs. simpl.
  apply Z.quot_div_nonneg; lia.
Qed.

Lemma length_EMOTION_LABELS : length EMOTION_LABELS = 8%nat.
Proof. reflexivity. Qed.

Lemma fallback_index_finite (mfcc : matrix) (mean : Q) :
  np_mean mfcc = PyFin mean ->
  fallback_index mfcc = Ok (spec_index mean).
Proof.
  intros Hmean. unfold fallback_index, spec_index. rewrite Hmean.
  cbn [hundred float_mul float_abs py_int].
  rewrite Qtrunc_Qabs, length_EMOTION_LABELS. reflexivity.
Qed.

Lemma spec_index_range (mean : Q) : 0 <= spec_index mean < 8.
Proof. unfold spec_index. apply Z.mod_pos_bound. lia. Qed.

Lemma py_getitem_labels (idx : Z) :
  0 <= idx < 8 ->
  exists label, py_getitem EMOTION_LABELS idx = Ok label
                /\ EMOTION_LABELS !! Z.to_nat idx = Some label
                /\ label ∈ EMOTION_LABELS.
Proof.
  intros Hidx.
  assert (Hcases : idx = 0 \/ idx = 1 \/ idx = 2 \/ idx = 3 \/ idx = 4 \/ idx = 5
                   \/ idx = 6 \/ idx = 7) by lia.
  destruct Hcases as [->|[->|[->|[->|[->|[->|[->| ->]]]]]]];
    (eexists; split; [reflexivity | split; [reflexivity |]]);
    unfold EMOTION_LABELS;
    repeat first [apply list_elem_of_here | apply list_elem_of_further].
Qed.

(** ** Binary64: a float32 times one hundred is not rounded *)

Lemma digits2_pos_bounds (p : positive) :
  2 ^ (Zpos (digits2_pos p) - 1) <= Zpos p < 2 ^ Zpos (digits2_pos p).
Proof.
  induction p as [p IH|p IH|]; simpl digits2_pos.
  - rewrite Pos2Z.inj_succ.
    replace (Z.succ (Zpos (digits2_pos p)) - 1) with (Z.succ (Zpos (digits2_pos p) - 1)) by lia.
    rewrite !Z.pow_succ_r by lia. lia.
  - rewrite Pos2Z.inj_succ.
    replace (Z.succ (Zpos (digits2_pos p)) - 1) with (Z.succ (Zpos (digits2_pos p) - 1)) by lia.
    rewrite !Z.pow_succ_r by lia. lia.
  - simpl. lia.
Qed.

Lemma digits2_pos_unique (p : positive) (d : Z) :
  2 ^ (d - 1) <= Zpos p < 2 ^ d -> Zpos (digits2_pos p) = d.
Proof.
  intros [Hlo Hhi]. pose proof (digits2_pos_bounds p) as [Hlo' Hhi'].
  assert (Hd : 0 < d).
  { destruct (Z.lt_ge_cases 0 d) as [|Hle]; [done |].
    assert (2 ^ d <= 2 ^ 0) by (apply Z.pow_le_mono_r; lia). simpl in *. lia. }
  destruct (Z.lt_trichotomy (Zpos (digits2_pos p)) d) as [Hlt|[Heq|Hgt]]; [| done |].
  - assert (2 ^ Zpos (digits2_pos p) <= 2 ^ (d - 1)) by (apply Z.pow_le_mono_r; lia). lia.
  - assert (2 ^ d <= 2 ^ (Zpos (digits2_pos p) - 1)) by (apply Z.pow_le_mono_r; lia). lia.
Qed.

Lemma iter_pos_nat {A : Type} (f : A -> A) (p : positive) (x : A) :
  SpecFloat.iter_pos f p x = Nat.iter (Pos.to_nat p) f x.
Proof.
  revert x. induction p as [p IH|p IH|]; intros x; cbn [SpecFloat.iter_pos].
  - rewrite !IH, Pos2Nat.inj_xI, Nat.iter_succ_r.
    replace (2 * Pos.to_nat p)%nat with (Pos.to_nat p + Pos.to_nat p)%nat by lia.
    by rewrite Nat.iter_add.
  - rewrite !IH, Pos2Nat.inj_xO.
    replace (2 * Pos.to_nat p)%nat with (Pos.to_nat p + Pos.to_nat p)%nat by lia.
    by rewrite Nat.iter_add.
  - reflexivity.
Qed.

Lemma shr_1_even (x : Z) :
  0 <= x -> shr_1 (Build_shr_record (2 * x) false false) = Build_shr_record x false false.
Proof. intros Hx. destruct x as [|p|p]; [reflexivity | reflexivity | lia]. Qed.

Lemma iter_shr_1_exact (n : nat) (x : Z) :
  0 <= x ->
  Nat.iter n shr_1 (Build_shr_record (x * 2 ^ Z.of_nat n) false false)
  = Build_shr_record x false false.
Proof.
  revert x. induction n as [|n IH]; intros x Hx.
  - simpl. by rewrite Z.mul_1_r.
  - rewrite Nat.iter_succ_r.
    rewrite Nat2Z.inj_succ, Z.pow_succ_r by lia.
    replace (x * (2 * 2 ^ Z.of_nat n)) with (2 * (x * 2 ^ Z.of_nat n)) by lia.
    rewrite shr_1_even by (apply Z.mul_nonneg_nonneg; [lia | apply Z.pow_nonneg; lia]).
    by apply IH.
Qed.

Lemma shr_exact (x e n : Z) :
  0 <= x -> 0 <= n ->
  shr (Build_shr_record (x * 2 ^ n) false false) e n
  = (Build_shr_record x false false, e + n).
Proof.
  intros Hx Hn. destruct n as [|p|p]; [| | lia].
  - simpl. by rewrite Z.mul_1_r, Z.add_0_r.
  - unfold shr. rewrite iter_pos_nat.
    rewrite <- (positive_nat_Z p) at 1. by rewrite iter_shr_1_exact.
Qed.

Lemma Zdigits2_unique (x d : Z) :
  0 < x -> 2 ^ (d - 1) <= x < 2 ^ d -> Zdigits2 x = d.
Proof.
  intros Hx Hd. destruct x as [|p|p]; [lia | | lia].
  simpl. by apply digits2_pos_unique.
Qed.

Lemma binary64_round_exact (s : bool) (m : positive) (e n : Z) :
  Zpos (digits2_pos m) = 53 -> 0 <= n -> -1074 <= e -> e + n <= 971 ->
  binary_round_aux 53 1024 s (Zpos m * 2 ^ n) e loc_Exact = S754_finite s m (e + n).
Proof.
  intros Hdigits Hn Hlo Hhi.
  pose proof (digits2_pos_bounds m) as Hm. rewrite Hdigits in Hm.
  assert (Hpow : 0 < 2 ^ n) by (apply Z.pow_pos_nonneg; lia).
  assert (Hshifted : Zdigits2 (Zpos m * 2 ^ n) = 53 + n).
  { apply Zdigits2_unique; [lia |].
    replace (53 + n - 1) with (52 + n) by lia.
    rewrite !Z.pow_add_r by lia. nia. }
  unfold binary_round_aux, shr_fexp. rewrite Hshifted.
  unfold fexp, emin. simpl shr_record_of_loc.
  replace (Z.max (53 + n + e - 53) (3 - 1024 - 53) - e) with n by lia.
  rewrite shr_exact by lia. simpl loc_of_shr_record. simpl shr_m.
  unfold round_nearest_even. simpl Zdigits2. rewrite Hdigits.
  replace (Z.max (53 + (e + n) - 53) (3 - 1024 - 53) - (e + n)) with 0 by lia.
  cbn [shr shr_m].
  rewrite (proj2 (Z.leb_le (e + n) (1024 - 53))) by lia.
  reflexivity.
Qed.

(** A finite float32 times one hundred, in binary64: no rounding occurs. *)
Lemma b64_mul_hundred_exact (s : bool) (m : positive) (e : Z) :
  bounded 24 128 m e = true ->
  exists m' k,
    b64_mul (float_of_float32 (S754_finite s m e)) b64_hundred
    = S754_finite s m' (e + 2 - k)
    /\ 0 <= k
    /\ Zpos m' = 25 * Zpos m * 2 ^ k
    /\ bounded 53 1024 m' (e + 2 - k) = true.
Proof.
  unfold bounded, canonical_mantissa, fexp, emin.
  intros Hb. apply andb_prop in Hb as [Hcanon Hmax].
  apply Z.eqb_eq in Hcanon. apply Z.leb_le in Hmax.
  pose proof (digits2_pos_bounds m) as Hm.
  set (d := Zpos (digits2_pos m)) in *.
  assert (Hd : 1 <= d <= 24) by (unfold d; lia).
  assert (He : -149 <= e <= 104) by lia.
  set (Y := 2 ^ (48 - d)).
  assert (HY : 0 < Y) by (apply Z.pow_pos_nonneg; lia).
  assert (HXY : 2 ^ (d - 1) * Y = 2 ^ 47).
  { unfold Y. rewrite <- Z.pow_add_r by lia. f_equal. lia. }
  assert (HdY : 2 ^ d * Y = 2 ^ 48).
  { unfold Y. rewrite <- Z.pow_add_r by lia. f_equal. lia. }
  change (2 ^ 47) with 140737488355328 in HXY.
  change (2 ^ 48) with 281474976710656 in HdY.
  (* the product of the two mantissas *)
  unfold b64_mul, b64_hundred, float_of_float32, SFmul. fold d.
  rewrite xorb_false_r.
  assert (Hmx : Zpos (Z.to_pos (Zpos m * 2 ^ (53 - d))) = Zpos m * 32 * Y).
  { rewrite Z2Pos.id by (apply Z.mul_pos_pos; [lia | apply Z.pow_pos_nonneg; lia]).
    replace (53 - d) with (5 + (48 - d)) by lia.
    rewrite Z.pow_add_r by lia. fold Y. change (2 ^ 5) with 32. lia. }
  rewrite Pos2Z.inj_mul, Hmx.
  destruct (Z.lt_ge_cases (25 * Zpos m) (16 * 2 ^ d)) as [Hsmall|Hlarge].
  - (* 105 digits: 52 are shifted out *)
    exists (Z.to_pos (25 * Zpos m * (2 * Y))), (49 - d).
    assert (Hpos : Zpos (Z.to_pos (25 * Zpos m * (2 * Y))) = 25 * Zpos m * (2 * Y))
      by (apply Z2Pos.id; nia).
    assert (Hdig : Zpos (digits2_pos (Z.to_pos (25 * Zpos m * (2 * Y)))) = 53).
    { apply digits2_pos_unique. rewrite Hpos.
      change (2 ^ (53 - 1)) with 4503599627370496.
      change (2 ^ 53) with 9007199254740992. nia. }
    replace (Zpos m * 32 * Y * 7036874417766400)
      with (Zpos (Z.to_pos (25 * Zpos m * (2 * Y))) * 2 ^ 52)
      by (rewrite Hpos; change (2 ^ 52) with 4503599627370496; lia).
    rewrite binary64_round_exact by lia.
    split; [f_equal; lia |].
    split; [lia |].
    split.
    + rewrite Hpos. replace (49 - d) with (1 + (48 - d)) by lia.
      rewrite Z.pow_add_r by lia. fold Y. reflexivity.
    + rewrite Hdig. apply andb_true_intro. split; [apply Z.eqb_eq | apply Z.leb_le]; lia.
  - (* 106 digits: 53 are shifted out *)
    exists (Z.to_pos (25 * Zpos m * Y)), (48 - d).
    assert (Hpos : Zpos (Z.to_pos (25 * Zpos m * Y)) = 25 * Zpos m * Y)
      by (apply Z2Pos.id; nia).
    assert (Hdig : Zpos (digits2_pos (Z.to_pos (25 * Zpos m * Y))) = 53).
    { apply digits2_pos_unique. rewrite Hpos.
      change (2 ^ (53 - 1)) with 4503599627370496.
      change (2 ^ 53) with 9007199254740992. nia. }
    replace (Zpos m * 32 * Y * 7036874417766400)
      with (Zpos (Z.to_pos (25 * Zpos m * Y)) * 2 ^ 53)
      by (rewrite Hpos; change (2 ^ 53) with 9007199254740992; lia).
    rewrite binary64_round_exact by lia.
    split; [f_equal; lia |].
    split; [lia |].
    split.
    + rewrite Hpos. reflexivity.
    + rewrite Hdig. apply andb_true_intro. split; [apply Z.eqb_eq | apply Z.leb_le]; lia.
Qed.

Lemma scaled_floor_shift (a e k : Z) :
  0 <= k -> scaled_floor (a * 2 ^ k) (e - k) = scaled_floor a e.
Proof.
  intros Hk. unfold scaled_floor.
  destruct (Z.leb_spec 0 (e - k)) as [Hek|Hek]; destruct (Z.leb_spec 0 e) as [He|He];
    try lia.
  - rewrite <- Z.mul_assoc, <- Z.pow_add_r by lia. do 2 f_equal. lia.
  - replace k with (e + (k - e)) at 1 by lia.
    rewrite Z.pow_add_r by lia. replace (- (e - k)) with (k - e) by lia.
    rewrite Z.mul_assoc. apply Z.div_mul.
    apply Z.pow_nonzero; lia.
  - replace (- (e - k)) with (k + - e) by lia.
    rewrite Z.pow_add_r by lia.
    rewrite (Z.mul_comm a), Z.div_mul_cancel_l; [reflexivity | |];
      apply Z.pow_nonzero; lia.
Qed.

Lemma spec_index_float_value (s : bool) (m : positive) (e : Z) :
  spec_index (float_value s m e) = scaled_floor (100 * Zpos m) e mod 8.
Proof.
  unfold spec_index, float_value, scaled_floor. f_equal.
  destruct (Z.leb_spec 0 e) as [He|He].
  - unfold Qfloor, Qabs, Qmult, inject_Z. simpl Qnum. simpl Qden.
    rewrite Z.div_1_r.
    assert (0 <= Zpos m * 2 ^ e) by (apply Z.mul_nonneg_nonneg; [lia | apply Z.pow_nonneg; lia]).
    destruct s; simpl cond_Zopp; lia.
  - unfold Qfloor, Qabs, Qmult. simpl Qnum. simpl Qden.
    rewrite Pos.mul_1_r, Z2Pos.id by (apply Z.pow_pos_nonneg; lia).
    f_equal. destruct s; simpl cond_Zopp; lia.
Qed.

Lemma b64_fallback_index_exact (s : bool) (m : positive) (e : Z) :
  bounded 24 128 m e = true ->
  b64_fallback_index (float_of_float32 (S754_finite s m e))
  = Ok (spec_index (float_value s m e)).
Proof.
  intros Hb. destruct (b64_mul_hundred_exact s m e Hb) as (m' & k & Hmul & Hk & Hm' & _).
  unfold b64_fallback_index. rewrite Hmul. cbn [SFabs b64_int cond_Zopp].
  rewrite Hm', length_EMOTION_LABELS, spec_index_float_value.
  do 2 f_equal. change (Z.of_nat 8) with 8.
  replace (e + 2 - k) with ((e + 2) - k) by lia.
  rewrite scaled_floor_shift by lia.
  replace (100 * Zpos m) with (25 * Zpos m * 2 ^ 2) by (change (2 ^ 2) with 4; lia).
  replace e with ((e + 2) - 2) at 2 by lia.
  by rewrite scaled_floor_shift by lia.
Qed.

(** The float32 hypothesis matters: the binary64 nearest to 0.03 is not a
    float32, its product by 100 rounds up to 3.0, and the index is 3, while
    the floor of a hundred times its value is 2.  The mean of a float32
    matrix is a float32 and cannot be that number. *)
Example b64_product_rounds_beyond_float32 :
  bounded 53 1024 8646911284551352 (-58) = true
  /\ bounded 24 128 8646911284551352 (-58) = false
  /\ b64_mul (S754_finite false 8646911284551352 (-58)) b64_hundred
     = S754_finite false 6755399441055744 (-51)
  /\ b64_fallback_index (S754_finite false 8646911284551352 (-58)) = Ok 3
  /\ spec_index (float_value false 8646911284551352 (-58)) = 2.
Proof. repeat split; vm_compute; reflexivity. Qed.

(** ** Sums of zeros *)

Lemma float_is_zero_inv (a : pyfloat) :
  float_is_zero a = true -> exists q, a = PyFin q /\ Qnum q = 0.
Proof.
  destruct a as [q| |]; simpl; try discriminate.
  unfold Qzero_b. intros Hq. exists q. split; [reflexivity | lia].
Qed.

Lemma forallb_concat {A : Type} (f : A -> bool) (ls : list (list A)) :
  forallb (forallb f) ls = true -> forallb f (concat ls) = true.
Proof.
  induction ls as [|l ls IH]; simpl; [reflexivity |].
  intros Hall. apply andb_prop in Hall as [Hl Hls].
  rewrite forallb_app, Hl. simpl. auto.
Qed.

Lemma f32_add_zeros (x y : spec_float) :
  f32_is_zero x -> f32_is_zero y -> f32_is_zero (f32_add x y).
Proof. intros [s ->] [t ->]. destruct s, t; by eexists. Qed.

Lemma sum_in_order_zeros (res : spec_float) (a : list spec_float) :
  f32_is_zero res -> Forall f32_is_zero a -> f32_is_zero (sum_in_order res a).
Proof.
  unfold sum_in_order. intros Hres Ha. revert res Hres.
  induction Ha as [|x a Hx _ IH]; intros res Hres; simpl; [exact Hres |].
  apply IH. by apply f32_add_zeros.
Qed.

Lemma chunks8_zeros (a : list spec_float) :
  Forall f32_is_zero a -> Forall (Forall f32_is_zero) (chunks8 a).
Proof.
  assert (Hgen : forall n a, (length a <= n)%nat -> Forall f32_is_zero a ->
                             Forall (Forall f32_is_zero) (chunks8 a)).
  { clear a. induction n as [|n IH]; intros a Hn Ha.
    - destruct a; [constructor | simpl in Hn; lia].
    - do 8 (destruct a as [|? a]; [constructor |]).
      cbn [chunks8].
      do 8 (apply Forall_cons in Ha as [? Ha]).
      constructor; [by repeat constructor |].
      apply IH; [simpl in Hn; lia | exact Ha]. }
  by apply (Hgen (length a)).
Qed.

Lemma zip_with_zeros (r g : list spec_float) :
  Forall f32_is_zero r -> Forall f32_is_zero g ->
  Forall f32_is_zero (zip_with f32_add r g).
Proof.
  intros Hr. revert g. induction Hr as [|x r Hx _ IH]; intros g Hg; [constructor |].
  destruct Hg as [|y g Hy Hg]; [constructor |]. simpl.
  constructor; [by apply f32_add_zeros | by apply IH].
Qed.

Lemma sum_lanes_zeros (r : list spec_float) :
  length r = 8%nat -> Forall f32_is_zero r -> f32_is_zero (sum_lanes r).
Proof.
  intros Hlen Hr. do 8 (destruct r as [|? r]; [discriminate |]).
  destruct r; [| discriminate]. cbn [sum_lanes].
  do 8 (apply Forall_cons in Hr as [? Hr]).
  by repeat apply f32_add_zeros.
Qed.

Lemma length_chunks8 (a : list spec_float) :
  Forall (fun r => length r = 8%nat) (chunks8 a).
Proof.
  assert (Hgen : forall n a, (length a <= n)%nat ->
                             Forall (fun r => length r = 8%nat) (chunks8 a)).
  { clear a. induction n as [|n IH]; intros a Hn.
    - destruct a; [constructor | simpl in Hn; lia].
    - do 8 (destruct a as [|? a]; [constructor |]).
      cbn [chunks8]. constructor; [reflexivity |].
      apply IH. simpl in Hn. lia. }
  by apply (Hgen (length a)).
Qed.

Lemma block_sum_zeros (a : list spec_float) :
  Forall f32_is_zero a -> f32_is_zero (block_sum a).
Proof.
  intros Ha. unfold block_sum.
  set (full := (length a - length a mod 8)%nat).
  pose proof (chunks8_zeros (take full a) (Forall_take _ _ _ Ha)) as Hchunks.
  pose proof (length_chunks8 (take full a)) as Hlengths.
  destruct (chunks8 (take full a)) as [|r groups].
  - apply sum_in_order_zeros; [by eexists | exact Ha].
  - apply Forall_cons in Hchunks as [Hr Hgroups].
    apply Forall_cons in Hlengths as [Hlen Hlens].
    apply sum_in_order_zeros; [| by apply Forall_drop].
    assert (Hfold : forall r, length r = 8%nat -> Forall f32_is_zero r ->
              length (fold_left (zip_with f32_add) groups r) = 8%nat
              /\ Forall f32_is_zero (fold_left (zip_with f32_add) groups r)).
    { clear Hr Hlen r. induction groups as [|g groups IH]; intros r Hlen Hr; [done |].
      apply Forall_cons in Hgroups as [Hg Hgroups].
      apply Forall_cons in Hlens as [Hglen Hlens]. simpl.
      apply IH; [done | done | | by apply zip_with_zeros].
      rewrite length_zip_with. lia. }
    destruct (Hfold r Hlen Hr) as [Hlen' Hr']. by apply sum_lanes_zeros.
Qed.

Lemma pairwise_sum_zeros (fuel : nat) (a : list spec_float) :
  Forall f32_is_zero a -> f32_is_zero (pairwise_sum fuel a).
Proof.
  revert a. induction fuel as [|fuel IH]; intros a Ha; simpl.
  - destruct (length a <? 8)%nat; [apply sum_in_order_zeros; [by eexists | done] |].
    destruct (length a <=? 128)%nat; by apply block_sum_zeros.
  - destruct (length a <? 8)%nat; [apply sum_in_order_zeros; [by eexists | done] |].
    destruct (length a <=? 128)%nat; [by apply block_sum_zeros |].
    apply f32_add_zeros; apply IH; [by apply Forall_take | by apply Forall_drop].
Qed.

(** The recursion of [pairwise_sum] never runs out of a fuel that is at
    least the length of the list. *)
Lemma pairwise_sum_fuel (fuel : nat) (a : list spec_float) :
  (length a <= fuel)%nat -> pairwise_sum fuel a = pairwise_sum (length a) a.
Proof.
  assert (Hgen : forall f1 f2 a, (length a <= f1)%nat -> (length a <= f2)%nat ->
                                 pairwise_sum f1 a = pairwise_sum f2 a).
  { clear fuel a. induction f1 as [|f1 IH]; intros f2 a H1 H2.
    - destruct a; [| simpl in H1; lia]. by destruct f2.
    - destruct f2 as [|f2]; [destruct a; [done | simpl in H2; lia] |].
      cbn [pairwise_sum].
      destruct (length a <? 8)%nat eqn:H8; [done |].
      destruct (length a <=? 128)%nat eqn:H128; [done |].
      apply Nat.leb_gt in H128.
      assert (Hcut : (0 < length a / 2 - (length a / 2) mod 8 < length a)%nat).
      { pose proof (Nat.mod_upper_bound (length a / 2) 8).
        pose proof (Nat.div_mod (length a) 2). 
        pose proof (Nat.mod_upper_bound (length a) 2). lia. }
      f_equal; apply IH; rewrite ?length_take, ?length_drop; lia. }
  intros Hfuel. by apply Hgen.
Qed.

Lemma float32_of_zero (a : pyfloat) :
  float_is_zero a = true -> f32_is_zero (float32_of_pyfloat a).
Proof.
  intros Ha. destruct (float_is_zero_inv a Ha) as ([n d] & -> & Hn).
  simpl in Hn. subst n. by eexists.
Qed.

Lemma np_mean_all_zero (m : matrix) :
  np_size m <> 0%nat -> all_zero m = true ->
  exists q, np_mean m = PyFin q /\ Qnum q = 0.
Proof.
  intros Hsize Hzero. unfold np_mean, np_mean32.
  set (a := float32_of_pyfloat <$> concat m).
  assert (Ha : Forall f32_is_zero a).
  { subst a. apply Forall_fmap, Forall_forall. intros x Hx. apply float32_of_zero.
    pose proof (forallb_concat _ _ Hzero) as Hall.
    rewrite forallb_forall in Hall. apply Hall. by apply list_elem_of_In. }
  destruct (pairwise_sum_zeros (length a) a Ha) as [s ->].
  destruct (Z.of_nat (np_size m)) as [|n|n] eqn:Hn; [lia | | lia].
  exists 0%Q. split; reflexivity.
Qed.

Lemma spec_index_zero (q : Q) : Qnum q = 0 -> spec_index q = 0.
Proof.
  destruct q as [a b]. simpl. intros ->. reflexivity.
Qed.

(** ** Padding and truncation *)

Lemma shape1_rectangular (n : nat) (m : matrix) :
  rectangular n m -> m <> [] -> shape1 m = n.
Proof.
  intros Hrect Hne. destruct m as [|row rows]; [congruence |].
  unfold shape1. simpl. by inversion Hrect.
Qed.

Lemma fit_frames_pad (n k : nat) (m : matrix) :
  rectangular n m -> (n < k)%nat ->
  fit_frames m k = np_pad_right m (k - n).
Proof.
  intros Hrect Hlt. destruct m as [|row rows].
  - unfold fit_frames, shape1. simpl.
    destruct (0 <? k)%nat; reflexivity.
  - unfold fit_frames. rewrite (shape1_rectangular n) by done.
    apply Nat.ltb_lt in Hlt. by rewrite Hlt.
Qed.

Lemma fit_frames_slice (n k : nat) (m : matrix) :
  rectangular n m -> (k <= n)%nat ->
  fit_frames m k = slice_cols m k.
Proof.
  intros Hrect Hle. destruct m as [|row rows].
  - unfold fit_frames, shape1. simpl.
    destruct (0 <? k)%nat; reflexivity.
  - unfold fit_frames. rewrite (shape1_rectangular n) by done.
    apply Nat.ltb_ge in Hle. by rewrite Hle.
Qed.

Lemma np_pad_right_rectangular (n pad : nat) (m : matrix) :
  rectangular n m -> rectangular (n + pad) (np_pad_right m pad).
Proof.
  unfold rectangular, np_pad_right. intros Hrect.
  apply Forall_fmap. eapply Forall_impl; [exact Hrect |].
  intros row Hrow. simpl. by rewrite length_app, length_replicate, Hrow.
Qed.

Lemma slice_cols_rectangular (n k : nat) (m : matrix) :
  rectangular n m -> (k <= n)%nat -> rectangular k (slice_cols m k).
Proof.
  unfold rectangular, slice_cols. intros Hrect Hle.
  apply Forall_fmap. eapply Forall_impl; [exact Hrect |].
  intros row Hrow. simpl in *. rewrite length_take. lia.
Qed.

Lemma fit_frames_rectangular (n k : nat) (m : matrix) :
  rectangular n m -> rectangular k (fit_frames m k).
Proof.
  intros Hrect. destruct (decide (n < k)%nat) as [Hlt|Hge].
  - rewrite (fit_frames_pad n) by done.
    replace k with (n + (k - n))%nat at 1 by lia.
    by apply np_pad_right_rectangular.
  - assert (Hle : (k <= n)%nat) by lia.
    rewrite (fit_frames_slice n) by done.
    by apply (slice_cols_rectangular n).
Qed.

Lemma fit_frames_shape0 (k : nat) (m : matrix) :
  shape0 (fit_frames m k) = shape0 m.
Proof.
  unfold fit_frames, shape0, np_pad_right, slice_cols.
  destruct (shape1 m <? k)%nat; apply length_fmap.
Qed.

Lemma entry_np_pad_right_old (n pad : nat) (m : matrix) (i j : nat) :
  rectangular n m -> (j < n)%nat ->
  entry (np_pad_right m pad) i j = entry m i j.
Proof.
  intros Hrect Hj. unfold entry, np_pad_right. rewrite list_lookup_fmap.
  destruct (m !! i) as [row|] eqn:Hrow; simpl; [| reflexivity].
  apply lookup_app_l.
  pose proof (proj1 (Forall_lookup _ _) Hrect i row Hrow) as Hlen.
  simpl in Hlen. lia.
Qed.

Lemma entry_np_pad_right_new (n pad : nat) (m : matrix) (i j : nat) :
  rectangular n m -> (i < shape0 m)%nat -> (n <= j < n + pad)%nat ->
  entry (np_pad_right m pad) i j = Some fzero.
Proof.
  intros Hrect Hi Hj. unfold entry, np_pad_right. rewrite list_lookup_fmap.
  destruct (lookup_lt_is_Some_2 m i Hi) as [row Hrow]. rewrite Hrow. simpl.
  pose proof (proj1 (Forall_lookup _ _) Hrect i row Hrow) as Hlen.
  simpl in Hlen. rewrite lookup_app_r by lia.
  apply lookup_replicate_2. lia.
Qed.

Lemma entry_slice_cols (k : nat) (m : matrix) (i j : nat) :
  (j < k)%nat -> entry (slice_cols m k) i j = entry m i j.
Proof.
  intros Hj. unfold entry, slice_cols. rewrite list_lookup_fmap.
  destruct (m !! i) as [row|]; simpl; [| reflexivity].
  by apply lookup_take_lt.
Qed.

Lemma entry_slice_cols_beyond (k : nat) (m : matrix) (i j : nat) :
  (k <= j)%nat -> entry (slice_cols m k) i j = None.
Proof.
  intros Hj. unfold entry, slice_cols. rewrite list_lookup_fmap.
  destruct (m !! i) as [row|]; simpl; [| reflexivity].
  by apply lookup_take_ge.
Qed.

(** ** Path strings *)

Lemma split_dot_nonempty (s : string) : split_dot s <> [].
Proof.
  destruct s as [|c s]; simpl; [discriminate |].
  destruct (is_dot c); [discriminate |].
  destruct (split_dot s); discriminate.
Qed.

Lemma join_split_dot (s : string) : join_dot (split_dot s) = s.
Proof.
  induction s as [|c s IH]; simpl; [reflexivity |].
  pose proof (split_dot_nonempty s) as Hne.
  destruct (is_dot c) eqn:Hc.
  - apply bool_decide_eq_true in Hc. subst c.
    destruct (split_dot s) as [|h t]; [congruence |].
    change (join_dot (EmptyString :: h :: t)) with ("." ++ join_dot (h :: t)).
    by rewrite IH.
  - destruct (split_dot s) as [|h t]; [congruence |].
    destruct t as [|h' t]; simpl in *; by rewrite <- IH.
Qed.

Lemma append_cons (ch : ascii) (a b : string) :
  String ch a ++ b = String ch (a ++ b).
Proof. reflexivity. Qed.

Lemma append_assoc3 (a b c : string) : a ++ (b ++ c) = (a ++ b) ++ c.
Proof.
  induction a as [|ch a IH]; [reflexivity |].
  by rewrite !append_cons, IH.
Qed.

Lemma join_dot_snoc (parts : list string) :
  (2 <= length parts)%nat ->
  join_dot parts = join_dot (removelast parts) ++ "." ++ List.last parts EmptyString.
Proof.
  induction parts as [|a parts IH]; simpl; [lia |].
  intros Hlen. destruct parts as [|b parts]; [simpl in Hlen; lia |].
  destruct parts as [|c parts].
  - reflexivity.
  - change (join_dot (a :: b :: c :: parts))
      with (a ++ "." ++ join_dot (b :: c :: parts)).
    rewrite IH by (simpl; lia).
    change (removelast (a :: b :: c :: parts))
      with (a :: removelast (b :: c :: parts)).
    change (List.last (a :: b :: c :: parts) EmptyString)
      with (List.last (b :: c :: parts) EmptyString).
    remember (removelast (b :: c :: parts)) as front eqn:Hfront.
    assert (Hfne : front <> []).
    { subst front. simpl. destruct parts; discriminate. }
    destruct front as [|f front]; [congruence |].
    change (join_dot (a :: f :: front)) with (a ++ "." ++ join_dot (f :: front)).
    rewrite <- append_assoc3. reflexivity.
Qed.

Lemma append_cancel_l (a b c : string) : a ++ b = a ++ c -> b = c.
Proof.
  induction a as [|ch a IH]; [auto |].
  rewrite !append_cons. intros Heq. injection Heq. exact IH.
Qed.

Lemma append_not_self (a b : string) : b <> EmptyString -> a ++ b <> a.
Proof.
  intros Hb Heq. apply Hb.
  apply (append_cancel_l a). rewrite Heq.
  clear. induction a as [|ch a IH]; [reflexivity |].
  by rewrite append_cons, <- IH.
Qed.

Lemma wav_path_of_fresh (p : string) : wav_path_of p <> p.
Proof.
  unfold wav_path_of, rsplit1_head.
  pose proof (join_split_dot p) as Hjoin.
  pose proof (split_dot_nonempty p) as Hne.
  destruct (split_dot p) as [|a parts] eqn:Hsplit; [congruence |].
  destruct parts as [|b parts].
  - by apply append_not_self.
  - rewrite join_dot_snoc in Hjoin by (simpl; lia).
    intros Heq. rewrite <- Hjoin in Heq.
    apply append_cancel_l in Heq. discriminate.
Qed.

Lemma wav_path_of_not_empty (p : string) : wav_path_of p <> EmptyString.
Proof.
  unfold wav_path_of. destruct (rsplit1_head p); discriminate.
Qed.

(** ** The effectful code *)

Lemma same_but_uploads_refl (w : world) : same_but_uploads w w.
Proof. by repeat split. Qed.

Lemma same_but_uploads_set (f : gmap string string -> gmap string string) (w : world) :
  same_but_uploads w (set_uploads f w).
Proof. by repeat split. Qed.

Lemma same_but_uploads_trans (w1 w2 w3 : world) :
  same_but_uploads w1 w2 -> same_but_uploads w2 w3 -> same_but_uploads w1 w3.
Proof.
  unfold same_but_uploads. intros (?&?&?&?) (?&?&?&?). repeat split; congruence.
Qed.

Lemma try_except_reraise {A : Type} (body : M A) (w : world) :
  try_except body (fun e => raise e) w = body w.
Proof.
  unfold try_except, raise. by destruct (body w) as [[a|e] w'].
Qed.

Section Facts.

Context `{Libraries}.
Variable model : option (matrix -> Z).
Variable base_dir : string.

Lemma load_and_fit_world (f : string) (sr : Z) (n k : nat) (w : world) :
  (load_and_fit f sr n k w).2 = w.
Proof.
  unfold load_and_fit, librosa_load, read_file, bind, lift, ret, raise.
  destruct (uploads w !! f) as [c|]; [| reflexivity].
  destruct (librosa_decode c sr) as [audio|e]; [| reflexivity].
  by case_bool_decide.
Qed.

Lemma load_and_fit_nonempty (f : string) (sr : Z) (n k : nat) (w : world)
    (audio : list pyfloat) :
  librosa_load f sr w = (Ok (audio, sr), w) -> audio <> [] ->
  load_and_fit f sr n k w = (Ok (fit_frames (librosa_feature_mfcc audio sr n) k), w).
Proof.
  intros Hload Hne. unfold load_and_fit, bind. rewrite Hload.
  rewrite bool_decide_eq_false_2; [reflexivity |].
  by destruct audio.
Qed.

Lemma load_and_fit_empty (f : string) (sr : Z) (n k : nat) (w : world) :
  librosa_load f sr w = (Ok ([], sr), w) ->
  load_and_fit f sr n k w
  = (Raise (ValueError "Audio file is empty or could not be loaded"), w).
Proof.
  intros Hload. unfold load_and_fit, bind. by rewrite Hload.
Qed.

Lemma load_and_fit_ok_inv (f : string) (sr : Z) (n k : nat) (w w' : world)
    (m : matrix) :
  load_and_fit f sr n k w = (Ok m, w') ->
  exists audio, librosa_load f sr w = (Ok (audio, sr), w) /\ audio <> []
                /\ m = fit_frames (librosa_feature_mfcc audio sr n) k.
Proof.
  unfold load_and_fit, librosa_load, read_file, bind, lift, ret, raise.
  destruct (uploads w !! f) as [c|]; [| discriminate].
  destruct (librosa_decode c sr) as [audio|e]; [| discriminate].
  case_bool_decide as Hlen; [discriminate |].
  intros [= <- <-]. exists audio. split; [reflexivity |].
  split; [| reflexivity]. intros ->. by apply Hlen.
Qed.

Lemma convert_audio_to_wav_format (p : string) :
  exists fmt, convert_audio_to_wav p = convert_with p fmt.
Proof.
  unfold convert_audio_to_wav, convert_with.
  repeat case_bool_decide; eexists; reflexivity.
Qed.

Lemma convert_with_cases (p : string) (fmt : option string) (w : world) :
  convert_with p fmt w = (Ok None, w)
  \/ pydub_installed w = true
     /\ exists c, convert_with p fmt w
                  = (Ok (Some (wav_path_of p)), set_uploads (insert (wav_path_of p) c) w).
Proof.
  unfold convert_with, try_except, bind, import_pydub.
  destruct (pydub_installed w) eqn:Hpydub; [| by left].
  unfold AudioSegment_from_file, AudioSegment_export, read_file, write_file,
    bind, lift, ret.
  destruct (uploads w !! p) as [c|]; [| by left].
  destruct (AudioSegment_from_bytes c fmt) as [audio|e]; [| left; by destruct e].
  destruct (AudioSegment_to_wav audio) as [c'|e]; [| left; by destruct e].
  right. split; [reflexivity |]. by exists c'.
Qed.

Lemma convert_audio_to_wav_cases (p : string) (w : world) :
  convert_audio_to_wav p w = (Ok None, w)
  \/ pydub_installed w = true
     /\ exists c, convert_audio_to_wav p w
                  = (Ok (Some (wav_path_of p)), set_uploads (insert (wav_path_of p) c) w).
Proof.
  destruct (convert_audio_to_wav_format p) as [fmt ->].
  apply convert_with_cases.
Qed.

Lemma convert_audio_to_wav_no_pydub (p : string) (w : world) :
  pydub_installed w = false -> convert_audio_to_wav p w = (Ok None, w).
Proof.
  intros Hno. destruct (convert_audio_to_wav_cases p w) as [Hnone|[Hyes _]];
    [exact Hnone | congruence].
Qed.

Lemma choose_source_cases (p : string) (w : world) :
  choose_source p w = (Ok p, w)
  \/ pydub_installed w = true
     /\ exists c, choose_source p w
                  = (Ok (wav_path_of p), set_uploads (insert (wav_path_of p) c) w).
Proof.
  unfold choose_source. case_bool_decide as Hext; [| by left].
  unfold bind.
  destruct (convert_audio_to_wav_cases p w) as [->|[Hpydub [c ->]]]; [by left |].
  right. split; [exact Hpydub |]. exists c.
  unfold os_path_exists, ret. simpl.
  rewrite lookup_insert_eq.
  rewrite bool_decide_eq_false_2 by apply wav_path_of_not_empty.
  rewrite bool_decide_eq_true_2 by eauto. reflexivity.
Qed.

Lemma choose_source_no_pydub (p : string) (w : world) :
  pydub_installed w = false -> choose_source p w = (Ok p, w).
Proof.
  intros Hno. destruct (choose_source_cases p w) as [Hsame|[Hyes _]];
    [exact Hsame | congruence].
Qed.

Lemma choose_source_frame (p src : string) (w w1 : world) :
  choose_source p w = (Ok src, w1) -> same_but_uploads w w1.
Proof.
  destruct (choose_source_cases p w) as [->|[_ [c ->]]]; intros [= <- <-].
  - apply same_but_uploads_refl.
  - apply same_but_uploads_set.
Qed.

Lemma cleanup_converted_run (f o : string) (w : world) :
  cleanup_converted f o w = (Ok tt, after_cleanup f o w).
Proof.
  unfold cleanup_converted, after_cleanup, bind, os_path_exists, try_except,
    os_remove, ret.
  case_bool_decide as Hsame; simpl; [reflexivity |].
  case_bool_decide as Hpresent; simpl; [| reflexivity].
  destruct Hpresent as [c ->].
  by case_bool_decide.
Qed.

Lemma after_cleanup_frame (f o : string) (w : world) :
  same_but_uploads w (after_cleanup f o w).
Proof.
  unfold after_cleanup.
  destruct (_ && _ && _); [apply same_but_uploads_set | apply same_but_uploads_refl].
Qed.

Lemma after_cleanup_same (p : string) (w : world) : after_cleanup p p w = w.
Proof.
  unfold after_cleanup. by rewrite bool_decide_eq_true_2.
Qed.

(** [extract_features] is [load_and_fit] on the chosen file, followed by
    the cleanup, whether [load_and_fit] returns or raises. *)
Lemma extract_features_run (p src : string) (sr : Z) (n k : nat) (w w1 : world) :
  choose_source p w = (Ok src, w1) ->
  extract_features p sr n k w
  = ((load_and_fit src sr n k w1).1, after_cleanup src p w1).
Proof.
  intros Hsrc. unfold extract_features, bind. rewrite Hsrc.
  unfold try_except, bind.
  pose proof (load_and_fit_world src sr n k w1) as Hw.
  destruct (load_and_fit src sr n k w1) as [[m|e] w1']; simpl in *; subst w1';
    rewrite cleanup_converted_run; reflexivity.
Qed.

Lemma extract_features_frame (p : string) (sr : Z) (n k : nat) (w : world) :
  same_but_uploads w (extract_features p sr n k w).2.
Proof.
  destruct (choose_source_cases p w) as [Hsrc|[_ [c Hsrc]]];
    rewrite (extract_features_run _ _ _ _ _ _ _ Hsrc); simpl.
  - apply after_cleanup_frame.
  - eapply same_but_uploads_trans;
      [apply same_but_uploads_set | apply after_cleanup_frame].
Qed.

(** *** Analytics *)

Local Abbreviation emotion_path := (emotion_path base_dir).
Local Abbreviation update_emotion_analytics := (update_emotion_analytics base_dir).
Local Abbreviation analyze_saved_file := (analyze_saved_file model base_dir).

Lemma update_emotion_analytics_run (emotion : string) (w : world) :
  update_emotion_analytics emotion w
  = (Ok tt, after_record emotion_path
              (increment emotion (stored_counts emotion_path w)) w).
Proof.
  unfold update_emotion_analytics, after_record, bind, _read_json_safe,
    _write_json_safe, try_except, bind, json_load_file, json_dump_file,
    stored_counts, ret.
  destruct (json_files w !! emotion_path) as [[counts|]|];
    destruct (write_failures w !! emotion_path) as [[|]|]; reflexivity.
Qed.

Lemma increment_same (emotion : string) (counts : gmap string Z) :
  increment emotion counts !! emotion = Some (default 0 (counts !! emotion) + 1).
Proof. unfold increment. apply lookup_insert_eq. Qed.

Lemma increment_other (emotion other : string) (counts : gmap string Z) :
  other <> emotion -> increment emotion counts !! other = counts !! other.
Proof. intros Hne. unfold increment. by apply lookup_insert_ne. Qed.

Lemma increment_changes (emotion : string) (counts : gmap string Z) :
  increment emotion counts <> counts.
Proof.
  intros Heq. pose proof (increment_same emotion counts) as Hsame.
  rewrite Heq in Hsame. destruct (counts !! emotion) as [c|]; simpl in Hsame.
  - injection Hsame. lia.
  - discriminate.
Qed.

Lemma after_record_stored (counts : gmap string Z) (w : world) :
  write_failures w !! emotion_path = None ->
  stored_counts emotion_path (after_record emotion_path counts w) = counts
  /\ write_failures (after_record emotion_path counts w) = write_failures w.
Proof.
  intros Hok. unfold after_record, stored_counts. rewrite Hok. simpl.
  by rewrite lookup_insert_eq.
Qed.

Lemma analyze_saved_file_run (p : string) (w : world) :
  analyze_saved_file p w
  = match extract_features p SR N_MFCC MAX_PAD_LEN w with
    | (Ok mfcc, w1) =>
        match predict model mfcc with
        | Ok emotion =>
            (Ok emotion,
             after_record emotion_path
               (increment emotion (stored_counts emotion_path w1)) w1)
        | Raise e => (Raise e, w1)
        end
    | (Raise e, w1) => (Raise e, w1)
    end.
Proof.
  unfold analyze_saved_file. rewrite try_except_reraise. unfold bind, lift.
  destruct (extract_features p SR N_MFCC MAX_PAD_LEN w) as [[mfcc|e] w1];
    [| reflexivity].
  destruct (predict model mfcc) as [emotion|e]; [| reflexivity].
  by rewrite update_emotion_analytics_run.
Qed.

(** *** The feature matrix *)

(** C1. For a clip that decodes to a non-empty waveform, [extract_features]
    returns a matrix of exactly 40 coefficient rows by 174 frames, whatever
    the number [t] of frames librosa computes for the clip, that is,
    whatever the clip's duration.  What is asked of librosa is its
    contract: [mfcc] yields [n_mfcc] rows of [t] frames each. *)
Theorem extract_features_shape (p src : string) (w w1 : world) (audio : list pyfloat)
    (t : nat) :
  choose_source p w = (Ok src, w1) ->
  librosa_load src SR w1 = (Ok (audio, SR), w1) ->
  audio <> [] ->
  shape0 (librosa_feature_mfcc audio SR N_MFCC) = N_MFCC ->
  rectangular t (librosa_feature_mfcc audio SR N_MFCC) ->
  exists m w2, extract_features p SR N_MFCC MAX_PAD_LEN w = (Ok m, w2)
               /\ shape0 m = 40%nat /\ shape1 m = 174%nat /\ rectangular 174 m.
Proof.
  intros Hsrc Hload Hne Hrows Hrect.
  rewrite (extract_features_run _ _ _ _ _ _ _ Hsrc).
  rewrite (load_and_fit_nonempty _ _ _ _ _ _ Hload Hne). simpl.
  assert (Hshape0 : shape0 (fit_frames (librosa_feature_mfcc audio SR N_MFCC) MAX_PAD_LEN)
                    = 40%nat)
    by (by rewrite fit_frames_shape0, Hrows).
  assert (Hfit : rectangular 174 (fit_frames (librosa_feature_mfcc audio SR N_MFCC) MAX_PAD_LEN))
    by apply (fit_frames_rectangular t _ _ Hrect).
  eexists _, _. split; [reflexivity |]. split; [exact Hshape0 |].
  split; [| exact Hfit].
  apply shape1_rectangular; [exact Hfit |].
  intros Hnil. rewrite Hnil in Hshape0. discriminate.
Qed.

(** C3. Let [n] be the natural frame count of the clip's coefficient matrix.
    If [n < 174] the matrix returned is the natural one with zero frames
    appended on the right: columns below [n] are the natural ones and
    columns [n] to 173 are zero.  If [n >= 174] it is the first 174 columns
    of the natural matrix. *)
Theorem extract_features_pads_or_takes_prefix (p src : string) (w w1 : world)
    (audio : list pyfloat) (n : nat) :
  choose_source p w = (Ok src, w1) ->
  librosa_load src SR w1 = (Ok (audio, SR), w1) ->
  audio <> [] ->
  rectangular n (librosa_feature_mfcc audio SR N_MFCC) ->
  let natural := librosa_feature_mfcc audio SR N_MFCC in
  exists m w2,
    extract_features p SR N_MFCC MAX_PAD_LEN w = (Ok m, w2)
    /\ ((n < 174)%nat ->
        m = (fun row => (row ++ replicate (174 - n) fzero)%list) <$> natural
        /\ (forall i j, (j < n)%nat -> entry m i j = entry natural i j)
        /\ (forall i j, (i < shape0 natural)%nat -> (n <= j < 174)%nat ->
                        entry m i j = Some fzero))
    /\ ((174 <= n)%nat ->
        m = take 174 <$> natural
        /\ (forall i j, (j < 174)%nat -> entry m i j = entry natural i j)
        /\ (forall i j, (174 <= j)%nat -> entry m i j = None)).
Proof.
  intros Hsrc Hload Hne Hrect natural.
  rewrite (extract_features_run _ _ _ _ _ _ _ Hsrc).
  rewrite (load_and_fit_nonempty _ _ _ _ _ _ Hload Hne). simpl.
  fold natural. eexists _, _. split; [reflexivity |]. split.
  - intros Hlt. rewrite (fit_frames_pad n) by done.
    change (MAX_PAD_LEN - n)%nat with (174 - n)%nat.
    split; [reflexivity |]. split.
    + intros i j Hj. by apply (entry_np_pad_right_old n).
    + intros i j Hi Hj. apply (entry_np_pad_right_new n); [done | done | lia].
  - intros Hge. rewrite (fit_frames_slice n) by done.
    split; [reflexivity |]. split.
    + intros i j Hj. by apply entry_slice_cols.
    + intros i j Hj. by apply entry_slice_cols_beyond.
Qed.

(** C4. When the file decodes to zero samples, [extract_features] raises the
    empty-audio [ValueError] and returns no matrix; [analyze_saved_file]
    lets the same exception through, whichever classifier is in use,
    returns no label and records nothing. *)
Theorem empty_audio_raises (p src : string) (w w1 : world) :
  choose_source p w = (Ok src, w1) ->
  librosa_load src SR w1 = (Ok ([], SR), w1) ->
  exists w2,
    extract_features p SR N_MFCC MAX_PAD_LEN w
    = (Raise (ValueError "Audio file is empty or could not be loaded"), w2)
    /\ analyze_saved_file p w
       = (Raise (ValueError "Audio file is empty or could not be loaded"), w2)
    /\ json_files w2 = json_files w.
Proof.
  intros Hsrc Hload.
  pose proof (extract_features_frame p SR N_MFCC MAX_PAD_LEN w) as (Hjson & _).
  rewrite analyze_saved_file_run.
  rewrite (extract_features_run _ _ _ _ _ _ _ Hsrc) in *.
  rewrite (load_and_fit_empty _ _ _ _ _ Hload) in *. simpl in *.
  eexists. split; [reflexivity |]. split; [reflexivity | exact Hjson].
Qed.

(** *** Analytics and clean-up *)

(** C5. [update_emotion_analytics] hands to the writer the mapping it read
    with the label's entry raised by one, or set to 1 when the label was
    absent, and every other entry as it was; when the store can be written
    that mapping is what the store holds afterwards.  Starting from an
    empty counter, recording happy three times and sad once leaves exactly
    happy: 3, sad: 1. *)
Theorem record_increments (emotion : string) (w : world) :
  let counts := stored_counts emotion_path w in
  exists counts',
    _read_json_safe emotion_path ∅ w = (Ok counts, w)
    /\ update_emotion_analytics emotion w
       = (run _write_json_safe emotion_path counts' ;; ret tt) w
    /\ counts' !! emotion = Some (default 0 (counts !! emotion) + 1)
    /\ (forall other, other <> emotion -> counts' !! other = counts !! other)
    /\ (write_failures w !! emotion_path = None ->
        exists w',
          update_emotion_analytics emotion w = (Ok tt, w')
          /\ json_files w' !! emotion_path = Some (JCounts counts')
          /\ _read_json_safe emotion_path ∅ w' = (Ok counts', w')
          /\ (counts = ∅ ->
              let record label v := (update_emotion_analytics label v).2 in
              stored_counts emotion_path
                (record "sad" (record "happy" (record "happy" (record "happy" w))))
              = {[ "happy" := 3; "sad" := 1 ]})).
Proof.
  intros counts. exists (increment emotion counts).
  split.
  { unfold _read_json_safe, try_except, json_load_file, counts, stored_counts.
    by destruct (json_files w !! emotion_path) as [[c|]|]. }
  split.
  { unfold update_emotion_analytics, bind, _read_json_safe, try_except,
      json_load_file, counts, stored_counts.
    by destruct (json_files w !! emotion_path) as [[c|]|]. }
  split; [apply increment_same |].
  split; [intros other Hne; by apply increment_other |].
  intros Hok.
  exists (after_record emotion_path (increment emotion counts) w).
  split; [apply update_emotion_analytics_run |].
  assert (Hfile : json_files (after_record emotion_path (increment emotion counts) w)
                  !! emotion_path = Some (JCounts (increment emotion counts))).
  { unfold after_record. rewrite Hok. simpl. apply lookup_insert_eq. }
  split; [exact Hfile |].
  split; [unfold _read_json_safe, try_except, json_load_file; by rewrite Hfile |].
  intros Hempty record.
  assert (Hstep : forall label v,
             write_failures v !! emotion_path = None ->
             stored_counts emotion_path (record label v)
             = increment label (stored_counts emotion_path v)
             /\ write_failures (record label v) !! emotion_path = None).
  { intros label v Hv. unfold record. rewrite update_emotion_analytics_run. simpl.
    destruct (after_record_stored (increment label (stored_counts emotion_path v)) v Hv)
      as [Hstored Hfail].
    split; [exact Hstored | by rewrite Hfail]. }
  destruct (Hstep "happy" w Hok) as [H1 Hok1].
  destruct (Hstep "happy" _ Hok1) as [H2 Hok2].
  destruct (Hstep "happy" _ Hok2) as [H3 Hok3].
  destruct (Hstep "sad" _ Hok3) as [H4 _].
  rewrite H4, H3, H2, H1. fold counts. rewrite Hempty.
  by vm_compute.
Qed.

(** C7. A failing write of the analytics store does not fail the analysis:
    when feature extraction and classification succeed, [analyze_saved_file]
    returns the label although the write raises; the exception stays inside
    [_write_json_safe], which answers [False], and the store does not get
    the incremented counter. *)
Theorem analytics_write_failure_is_silent (p : string) (w w1 : world) (mfcc : matrix)
    (emotion : string) (failure : write_failure) :
  extract_features p SR N_MFCC MAX_PAD_LEN w = (Ok mfcc, w1) ->
  predict model mfcc = Ok emotion ->
  write_failures w !! emotion_path = Some failure ->
  exists w2,
    analyze_saved_file p w = (Ok emotion, w2)
    /\ (forall data, exists e,
          json_dump_file emotion_path data w1 = (Raise e, w2)
          /\ _write_json_safe emotion_path data w1 = (Ok false, w2))
    /\ (failure = OpenFails -> w2 = w1)
    /\ (failure = DumpFails -> w2 = set_json_files (insert emotion_path JGarbage) w1)
    /\ json_files w2 !! emotion_path
       <> Some (JCounts (increment emotion (stored_counts emotion_path w1))).
Proof.
  intros Hextract Hpredict Hfail.
  pose proof (extract_features_frame p SR N_MFCC MAX_PAD_LEN w) as (_ & _ & _ & Hwf).
  rewrite Hextract in Hwf. simpl in Hwf.
  rewrite analyze_saved_file_run, Hextract, Hpredict.
  eexists. split; [reflexivity |].
  unfold after_record, _write_json_safe, try_except, bind, json_dump_file, ret.
  rewrite Hwf, Hfail.
  destruct failure; (split; [intros data; eexists; by split |]);
    (split; [done |]); (split; [done |]).
  - unfold stored_counts.
    destruct (json_files w1 !! emotion_path) as [[counts|]|]; try discriminate.
    intros [= Heq]. symmetry in Heq. by apply increment_changes in Heq.
  - simpl. rewrite lookup_insert_eq. discriminate.
Qed.

Lemma choose_source_converted (p wav : string) (w w1 : world) :
  split_last (lower p) ∈ ["webm"; "mp4"; "ogg"] ->
  convert_audio_to_wav p w = (Ok (Some wav), w1) ->
  choose_source p w = (Ok wav, w1)
  /\ wav = wav_path_of p
  /\ is_Some (uploads w1 !! wav)
  /\ same_but_uploads w w1.
Proof.
  intros Hext Hconv.
  destruct (convert_audio_to_wav_cases p w) as [Hnone|[_ [c Hsome]]];
    [congruence |].
  rewrite Hsome in Hconv. injection Hconv as <- <-.
  assert (Hpresent : is_Some (uploads (set_uploads (insert (wav_path_of p) c) w)
                              !! wav_path_of p)).
  { simpl. rewrite lookup_insert_eq. eauto. }
  split; [| split; [reflexivity | split; [exact Hpresent | apply same_but_uploads_set]]].
  unfold choose_source. rewrite bool_decide_eq_true_2 by exact Hext.
  unfold bind. rewrite Hsome. unfold os_path_exists, ret.
  rewrite bool_decide_eq_false_2 by apply wav_path_of_not_empty.
  by rewrite bool_decide_eq_true_2 by exact Hpresent.
Qed.

Lemma choose_source_unconverted (p : string) (w : world) :
  convert_audio_to_wav p w = (Ok None, w) -> choose_source p w = (Ok p, w).
Proof.
  intros Hconv. unfold choose_source. case_bool_decide; [| reflexivity].
  unfold bind. by rewrite Hconv.
Qed.

(** C6, as the code has it.  [convert_audio_to_wav] never raises.  When
    pydub is missing it returns [None], and whenever it returns [None]
    [extract_features] goes on with the file it was given: it returns or
    raises exactly what loading that file with librosa gives. *)
Theorem missing_converter_falls_back (p : string) (sr : Z) (n k : nat) (w : world) :
  (exists converted w', convert_audio_to_wav p w = (Ok converted, w'))
  /\ (pydub_installed w = false -> convert_audio_to_wav p w = (Ok None, w))
  /\ (convert_audio_to_wav p w = (Ok None, w) ->
      extract_features p sr n k w = load_and_fit p sr n k w
      /\ (forall audio,
            librosa_load p sr w = (Ok (audio, sr), w) -> audio <> [] ->
            extract_features p sr n k w
            = (Ok (fit_frames (librosa_feature_mfcc audio sr n) k), w))).
Proof.
  split; [| split].
  - destruct (convert_audio_to_wav_cases p w) as [->|[_ [c ->]]]; eauto.
  - apply convert_audio_to_wav_no_pydub.
  - intros Hnone.
    assert (Hrun : extract_features p sr n k w = load_and_fit p sr n k w).
    { rewrite (extract_features_run _ _ _ _ _ _ _ (choose_source_unconverted p w Hnone)).
      rewrite after_cleanup_same.
      pose proof (load_and_fit_world p sr n k w) as Hw.
      destruct (load_and_fit p sr n k w) as [r w']. simpl in *. by subst. }
    split; [exact Hrun |].
    intros audio Hload Hne. rewrite Hrun. by apply load_and_fit_nonempty.
Qed.

(** C8, as the code has it.  When [convert_audio_to_wav] has written a
    converted file, [extract_features] ends, with a matrix or with an
    exception, as loading the converted file ends, and in both cases it has
    tried to remove that file: the file is gone when [os.remove] succeeds;
    when [os.remove] fails the failure is passed over and the file stays. *)
Theorem converted_file_removed_unless_denied (p wav : string) (sr : Z) (n k : nat)
    (w w1 : world) :
  split_last (lower p) ∈ ["webm"; "mp4"; "ogg"] ->
  convert_audio_to_wav p w = (Ok (Some wav), w1) ->
  exists w2,
    extract_features p sr n k w = ((load_and_fit wav sr n k w1).1, w2)
    /\ (wav ∉ remove_denied w ->
        uploads w2 !! wav = None /\ w2 = set_uploads (delete wav) w1)
    /\ (wav ∈ remove_denied w ->
        is_Some (uploads w2 !! wav) /\ w2 = w1).
Proof.
  intros Hext Hconv.
  destruct (choose_source_converted p wav w w1 Hext Hconv)
    as (Hsrc & Hwav & Hpresent & _ & _ & Hdenied & _).
  rewrite (extract_features_run _ _ _ _ _ _ _ Hsrc).
  eexists. split; [reflexivity |].
  unfold after_cleanup. rewrite Hdenied.
  rewrite bool_decide_eq_false_2 by (subst wav; apply wav_path_of_fresh).
  rewrite (bool_decide_eq_true_2 _ Hpresent). simpl.
  split; intros Hin.
  - rewrite bool_decide_eq_false_2 by exact Hin. simpl.
    split; [apply lookup_delete_eq | reflexivity].
  - rewrite bool_decide_eq_true_2 by exact Hin. simpl. by split.
Qed.

End Facts.

(** ** The fallback classifier *)

(** C2. Without a model, the index chosen for a feature matrix is the floor
    of the absolute value of a hundred times the mean that [np.mean]
    returns, modulo 8, and the label is the entry of the label list at that
    index; that mean is the float32 that adding the entries and dividing by
    their number in float32 gives, not the exact mean.  For an all-zero
    matrix the index is 0 and the label is neutral.  The binary64
    evaluation of the same lines gives that very index for every mean that
    is a finite float32, the mean of the matrix among them. *)
Theorem fallback_index_is_spec_index (mfcc : matrix) :
  (forall mean, np_mean mfcc = PyFin mean ->
     fallback_index mfcc = Ok (spec_index mean)
     /\ exists label, predict None mfcc = Ok label
                      /\ EMOTION_LABELS !! Z.to_nat (spec_index mean) = Some label)
  /\ (np_size mfcc <> 0%nat -> all_zero mfcc = true ->
      fallback_index mfcc = Ok 0 /\ predict None mfcc = Ok "neutral")
  /\ (forall s m e, bounded 24 128 m e = true ->
      b64_fallback_index (float_of_float32 (S754_finite s m e))
      = Ok (spec_index (float_value s m e)))
  /\ (forall s, b64_fallback_index (float_of_float32 (S754_zero s)) = Ok 0)
  /\ (forall s m e, np_mean32 mfcc = S754_finite s m e -> bounded 24 128 m e = true ->
      b64_fallback_index (float_of_float32 (np_mean32 mfcc)) = fallback_index mfcc)
  /\ (forall s, np_mean32 mfcc = S754_zero s ->
      b64_fallback_index (float_of_float32 (np_mean32 mfcc)) = fallback_index mfcc).
Proof.
  split; [| split; [| split; [| split; [| split]]]].
  - intros mean Hmean.
    pose proof (fallback_index_finite mfcc mean Hmean) as Hidx.
    split; [exact Hidx |].
    destruct (py_getitem_labels _ (spec_index_range mean)) as (label & Hget & Hlookup & _).
    exists label. split; [| exact Hlookup].
    unfold predict, fallback_emotion. by rewrite Hidx.
  - intros Hsize Hzero.
    destruct (np_mean_all_zero mfcc Hsize Hzero) as (q & Hmean & Hq).
    pose proof (fallback_index_finite mfcc q Hmean) as Hidx.
    rewrite (spec_index_zero q Hq) in Hidx.
    split; [exact Hidx |].
    unfold predict, fallback_emotion. by rewrite Hidx.
  - apply b64_fallback_index_exact.
  - intros s. by destruct s.
  - intros s m e Hmean Hbounded.
    rewrite (fallback_index_finite mfcc (float_value s m e))
      by (unfold np_mean; by rewrite Hmean).
    rewrite Hmean. by apply b64_fallback_index_exact.
  - intros s Hmean.
    rewrite (fallback_index_finite mfcc 0) by (unfold np_mean; by rewrite Hmean).
    rewrite Hmean. by destruct s.
Qed.

(** C10. For a feature matrix whose mean is finite, the fallback index is
    computed without an exception and lies in [0, 8), so the lookup in the
    label list succeeds and yields one of the eight labels.  So does the
    binary64 evaluation on a finite float32 mean. *)
Theorem fallback_index_in_range (mfcc : matrix) :
  (is_finite (np_mean mfcc) = true ->
   exists idx label,
     fallback_index mfcc = Ok idx
     /\ 0 <= idx < Z.of_nat (length EMOTION_LABELS)
     /\ length EMOTION_LABELS = 8%nat
     /\ py_getitem EMOTION_LABELS idx = Ok label
     /\ fallback_emotion mfcc = Ok label
     /\ label ∈ EMOTION_LABELS)
  /\ (forall s m e, bounded 24 128 m e = true ->
      exists idx label,
        b64_fallback_index (float_of_float32 (S754_finite s m e)) = Ok idx
        /\ 0 <= idx < Z.of_nat (length EMOTION_LABELS)
        /\ py_getitem EMOTION_LABELS idx = Ok label
        /\ label ∈ EMOTION_LABELS).
Proof.
  split.
  - intros Hfinite. destruct (np_mean mfcc) as [mean| |] eqn:Hmean; try discriminate.
    pose proof (fallback_index_finite mfcc mean Hmean) as Hidx.
    destruct (py_getitem_labels _ (spec_index_range mean)) as (label & Hget & _ & Hin).
    exists (spec_index mean), label.
    split; [exact Hidx |].
    split; [rewrite length_EMOTION_LABELS; apply spec_index_range |].
    split; [reflexivity |].
    split; [exact Hget |].
    split; [| exact Hin].
    unfold fallback_emotion. by rewrite Hidx.
  - intros s m e Hb.
    destruct (py_getitem_labels _ (spec_index_range (float_value s m e)))
      as (label & Hget & _ & Hin).
    exists (spec_index (float_value s m e)), label.
    split; [by apply b64_fallback_index_exact |].
    split; [rewrite length_EMOTION_LABELS; apply spec_index_range |].
    split; [exact Hget | exact Hin].
Qed.

Section Determinism.

Context `{Libraries}.
Variable base_dir : string.

(** C9. Without a model the label is a function of the feature matrix
    alone: two analyses whose feature extraction yields the same matrix,
    from whatever files and in whatever worlds, the second possibly after
    the first, end with the same label or the same exception, namely the
    one [fallback_emotion] computes from the matrix. *)
Theorem fallback_deterministic (p1 p2 : string) (w1 w2 w1' w2' : world) (mfcc : matrix) :
  extract_features p1 SR N_MFCC MAX_PAD_LEN w1 = (Ok mfcc, w1') ->
  extract_features p2 SR N_MFCC MAX_PAD_LEN w2 = (Ok mfcc, w2') ->
  (analyze_saved_file None base_dir p1 w1).1 = (analyze_saved_file None base_dir p2 w2).1
  /\ (analyze_saved_file None base_dir p1 w1).1 = fallback_emotion mfcc.
Proof.
  intros Hfirst Hsecond.
  rewrite !analyze_saved_file_run, Hfirst, Hsecond.
  unfold predict. by destruct (fallback_emotion mfcc).
Qed.

End Determinism.

(** * The statements at work on concrete inputs *)

(** An .ogg upload of three samples, converted by pydub first, and a .wav
    upload of two hundred samples. *)
Lemma extract_features_shape_witness :
  (exists m w2,
     extract_features (H := toy_libraries) "uploads/clip.ogg" SR N_MFCC MAX_PAD_LEN w_ogg
     = (Ok m, w2)
     /\ shape0 m = 40%nat /\ shape1 m = 174%nat /\ rectangular 174 m)
  /\ (exists m w2,
       extract_features (H := toy_libraries) "uploads/long.wav" SR N_MFCC MAX_PAD_LEN w_long
       = (Ok m, w2)
       /\ shape0 m = 40%nat /\ shape1 m = 174%nat /\ rectangular 174 m).
Proof.
  split.
  - apply (extract_features_shape (H := toy_libraries)
             "uploads/clip.ogg" "uploads/clip_converted.wav" w_ogg
             (set_uploads (insert "uploads/clip_converted.wav" "abd") w_ogg)
             (sample_of_byte <$> list_ascii_of_string "abd") 3).
    + vm_compute. reflexivity.
    + vm_compute. reflexivity.
    + discriminate.
    + reflexivity.
    + apply Forall_replicate. reflexivity.
  - apply (extract_features_shape (H := toy_libraries)
             "uploads/long.wav" "uploads/long.wav" w_long w_long
             (sample_of_byte <$> list_ascii_of_string long_clip) 200).
    + vm_compute. reflexivity.
    + vm_compute. reflexivity.
    + discriminate.
    + reflexivity.
    + apply Forall_replicate. reflexivity.
Defined.

(** Three natural frames: the matrix is padded.  Two hundred natural
    frames: the first 174 are kept. *)
Lemma extract_features_pads_or_takes_prefix_witness :
  (exists m w2,
     extract_features (H := toy_libraries) "uploads/clip.wav" SR N_MFCC MAX_PAD_LEN w_wav
     = (Ok m, w2)
     /\ entry m 0 2 = Some (PyFin 100) /\ entry m 39 3 = Some fzero
     /\ entry m 39 173 = Some fzero /\ entry m 0 174 = None)
  /\ (exists m w2,
       extract_features (H := toy_libraries) "uploads/long.wav" SR N_MFCC MAX_PAD_LEN w_long
       = (Ok m, w2)
       /\ m = replicate 40 (replicate 174 (PyFin 97))
       /\ entry m 39 173 = Some (PyFin 97) /\ entry m 0 174 = None).
Proof.
  split.
  - destruct (extract_features_pads_or_takes_prefix (H := toy_libraries)
                "uploads/clip.wav" "uploads/clip.wav" w_wav w_wav
                (sample_of_byte <$> list_ascii_of_string "abd") 3)
      as (m & w2 & Hrun & Hpad & _).
    + vm_compute. reflexivity.
    + vm_compute. reflexivity.
    + discriminate.
    + apply Forall_replicate. reflexivity.
    + exists m, w2. split; [exact Hrun |].
      destruct Hpad as (Hm & Hold & Hnew); [lia |].
      split; [rewrite Hold by lia; reflexivity |].
      split; [apply Hnew; [vm_compute | ]; lia |].
      split; [apply Hnew; [vm_compute | ]; lia |].
      rewrite Hm. reflexivity.
  - destruct (extract_features_pads_or_takes_prefix (H := toy_libraries)
                "uploads/long.wav" "uploads/long.wav" w_long w_long
                (sample_of_byte <$> list_ascii_of_string long_clip) 200)
      as (m & w2 & Hrun & _ & Hcut).
    + vm_compute. reflexivity.
    + vm_compute. reflexivity.
    + discriminate.
    + apply Forall_replicate. reflexivity.
    + exists m, w2. split; [exact Hrun |].
      destruct Hcut as (Hm & Hkept & Hbeyond); [lia |].
      split; [rewrite Hm; vm_compute; reflexivity |].
      split; [rewrite Hkept by lia; reflexivity |].
      apply Hbeyond. lia.
Defined.

(** A file that decodes to no sample. *)
Lemma empty_audio_raises_witness :
  exists w2,
    extract_features (H := toy_libraries) "uploads/empty.wav" SR N_MFCC MAX_PAD_LEN w_empty
    = (Raise (ValueError "Audio file is empty or could not be loaded"), w2)
    /\ analyze_saved_file (H := toy_libraries) None "app" "uploads/empty.wav" w_empty
       = (Raise (ValueError "Audio file is empty or could not be loaded"), w2)
    /\ json_files w2 = json_files w_empty.
Proof.
  apply (empty_audio_raises (H := toy_libraries) None "app"
           "uploads/empty.wav" "uploads/empty.wav" w_empty w_empty).
  - vm_compute. reflexivity.
  - vm_compute. reflexivity.
Defined.

(** Recording in a world whose store does not exist yet. *)
Lemma record_increments_witness :
  exists w' counts',
    update_emotion_analytics "app" "happy" w_wav = (Ok tt, w')
    /\ json_files w' !! emotion_path "app" = Some (JCounts counts')
    /\ counts' !! "happy" = Some 1
    /\ stored_counts (emotion_path "app")
         (let record label v := (update_emotion_analytics "app" label v).2 in
          record "sad" (record "happy" (record "happy" (record "happy" w_wav))))
       = {[ "happy" := 3; "sad" := 1 ]}.
Proof.
  destruct (record_increments "app" "happy" w_wav)
    as (counts' & _ & _ & Hsame & _ & Hwritten).
  destruct Hwritten as (w' & Hrun & Hfile & _ & Hfour).
  - vm_compute. reflexivity.
  - exists w', counts'. split; [exact Hrun |]. split; [exact Hfile |].
    split; [exact Hsame |]. apply Hfour. vm_compute. reflexivity.
Defined.

(** The store cannot be opened for writing; the label still comes back. *)
Lemma analytics_write_failure_is_silent_witness :
  exists w2,
    analyze_saved_file (H := toy_libraries) None "app" "uploads/clip.wav" w_readonly
    = (Ok "calm", w2)
    /\ w2 = w_readonly.
Proof.
  destruct (analytics_write_failure_is_silent (H := toy_libraries) None "app"
              "uploads/clip.wav" w_readonly w_readonly
              (fit_frames (replicate 40 (sample_of_byte <$> list_ascii_of_string "abd")) 174)
              "calm" OpenFails)
    as (w2 & Hrun & _ & Hopen & _).
  - vm_compute. reflexivity.
  - vm_compute. reflexivity.
  - vm_compute. reflexivity.
  - exists w2. split; [exact Hrun | by apply Hopen].
Defined.

(** Without pydub an .ogg upload that librosa can read is analysed all the
    same, from the file as uploaded. *)
Lemma missing_converter_falls_back_witness :
  convert_audio_to_wav (H := toy_libraries) "uploads/clip.ogg" w_ogg_no_pydub
  = (Ok None, w_ogg_no_pydub)
  /\ extract_features (H := toy_libraries) "uploads/clip.ogg" SR N_MFCC MAX_PAD_LEN
       w_ogg_no_pydub
     = load_and_fit (H := toy_libraries) "uploads/clip.ogg" SR N_MFCC MAX_PAD_LEN
         w_ogg_no_pydub.
Proof.
  destruct (missing_converter_falls_back (H := toy_libraries)
              "uploads/clip.ogg" SR N_MFCC MAX_PAD_LEN w_ogg_no_pydub)
    as (_ & Hconv & Hrun).
  destruct (Hrun (Hconv eq_refl)) as [Hsame _].
  split; [exact (Hconv eq_refl) | exact Hsame].
Defined.

(** C6 fails on the code: pydub is missing, the upload is an .ogg file, and
    [extract_features] returns a matrix instead of raising. *)
Lemma missing_converter_counterexample :
  pydub_installed w_ogg_no_pydub = false
  /\ split_last (lower "uploads/clip.ogg") ∈ ["webm"; "mp4"; "ogg"]
  /\ convert_audio_to_wav (H := toy_libraries) "uploads/clip.ogg" w_ogg_no_pydub
     = (Ok None, w_ogg_no_pydub)
  /\ (exists m, extract_features (H := toy_libraries) "uploads/clip.ogg" SR N_MFCC
                  MAX_PAD_LEN w_ogg_no_pydub = (Ok m, w_ogg_no_pydub))
  /\ ~ (exists e w2, extract_features (H := toy_libraries) "uploads/clip.ogg" SR N_MFCC
                       MAX_PAD_LEN w_ogg_no_pydub = (Raise e, w2)).
Proof.
  split; [reflexivity |].
  split; [vm_compute; repeat constructor |].
  split; [vm_compute; reflexivity |].
  assert (Hrun : exists m, extract_features (H := toy_libraries) "uploads/clip.ogg" SR N_MFCC
                             MAX_PAD_LEN w_ogg_no_pydub = (Ok m, w_ogg_no_pydub)).
  { eexists. vm_compute. reflexivity. }
  split; [exact Hrun |].
  destruct Hrun as [m Hm]. intros (e & w2 & Hraise). congruence.
Qed.

(** The converted file of an .ogg upload is gone after the extraction. *)
Lemma converted_file_removed_unless_denied_witness :
  exists w2,
    extract_features (H := toy_libraries) "uploads/clip.ogg" SR N_MFCC MAX_PAD_LEN w_ogg
    = ((load_and_fit (H := toy_libraries) "uploads/clip_converted.wav" SR N_MFCC MAX_PAD_LEN
          (set_uploads (insert "uploads/clip_converted.wav" "abd") w_ogg)).1, w2)
    /\ uploads w2 !! "uploads/clip_converted.wav" = None.
Proof.
  destruct (converted_file_removed_unless_denied (H := toy_libraries)
              "uploads/clip.ogg" "uploads/clip_converted.wav" SR N_MFCC MAX_PAD_LEN w_ogg
              (set_uploads (insert "uploads/clip_converted.wav" "abd") w_ogg))
    as (w2 & Hrun & Hgone & _).
  - vm_compute. repeat constructor.
  - vm_compute. reflexivity.
  - exists w2. split; [exact Hrun |]. apply Hgone. vm_compute. set_solver.
Defined.

(** C8 fails on the code: the converted file did not exist before the call,
    pydub writes it, [os.remove] is refused, and the file is still there
    when [extract_features] has returned its matrix. *)
Lemma converted_file_left_counterexample :
  uploads w_ogg_locked !! "uploads/clip_converted.wav" = None
  /\ (exists c w1, convert_audio_to_wav (H := toy_libraries) "uploads/clip.ogg" w_ogg_locked
                   = (Ok (Some "uploads/clip_converted.wav"), w1)
                   /\ uploads w1 !! "uploads/clip_converted.wav" = Some c)
  /\ exists m w2,
       extract_features (H := toy_libraries) "uploads/clip.ogg" SR N_MFCC MAX_PAD_LEN
         w_ogg_locked = (Ok m, w2)
       /\ uploads w2 !! "uploads/clip_converted.wav" = Some "abd".
Proof.
  split; [vm_compute; reflexivity |].
  split.
  - eexists _, _. split; vm_compute; reflexivity.
  - eexists _, _. split; vm_compute; reflexivity.
Qed.

(** Two uploads with the same samples, in different worlds. *)
Lemma fallback_deterministic_witness :
  (analyze_saved_file (H := toy_libraries) None "app" "uploads/clip.wav" w_wav).1
  = (analyze_saved_file (H := toy_libraries) None "app" "uploads/copy.wav" w_wav_copy).1.
Proof.
  refine (proj1 (fallback_deterministic (H := toy_libraries) "app"
                   "uploads/clip.wav" "uploads/copy.wav" w_wav w_wav_copy w_wav w_wav_copy
                   (fit_frames (replicate 40 (sample_of_byte <$> list_ascii_of_string "abd")) 174)
                   _ _)).
  - vm_compute. reflexivity.
  - vm_compute. reflexivity.
Defined.

(** A one-entry matrix of mean 0.29, an all-zero matrix, and the float32
    nearest to 0.03, which is 16106127 * 2^-29. *)
Lemma fallback_index_is_spec_index_witness :
  fallback_index quarters = Ok 4
  /\ predict None quarters = Ok "angry"
  /\ fallback_index [[fzero; fzero]; [fzero; fzero]] = Ok 0
  /\ predict None [[fzero; fzero]; [fzero; fzero]] = Ok "neutral"
  /\ b64_fallback_index (float_of_float32 (S754_finite false 16106127 (-29))) = Ok 2
  /\ b64_fallback_index (float_of_float32 (np_mean32 quarters)) = Ok 4.
Proof.
  destruct (fallback_index_is_spec_index quarters) as (Hmean & _ & Hb64 & _ & Hlink & _).
  edestruct Hmean as (Hidx & label & Hlabel & Hlookup).
  - vm_compute. reflexivity.
  - destruct (fallback_index_is_spec_index [[fzero; fzero]; [fzero; fzero]]) as (_ & Hzero & _).
    destruct Hzero as [Hidx0 Hlabel0]; [discriminate | reflexivity |].
    split; [rewrite Hidx; vm_compute; reflexivity |].
    split; [| split; [exact Hidx0 | split; [exact Hlabel0 | split]]].
    + rewrite Hlabel. f_equal. vm_compute in Hlookup. congruence.
    + rewrite Hb64 by reflexivity. vm_compute. reflexivity.
    + rewrite (Hlink false 9437184%positive (-25)) by (vm_compute; reflexivity).
      rewrite Hidx. vm_compute. reflexivity.
Defined.

(** Where the rounding of the mean shows: a matrix of 40 rows and 174
    columns whose exact mean is below 0.07 and whose float32 mean is the
    float32 next to 0.07, which is above it; and the same for the three
    entries 0.21 (as a float32), 0 and 0. *)
Lemma exact_mean_counterexample :
  shape0 one_entry_matrix = 40%nat
  /\ rectangular 174 one_entry_matrix
  /\ (exists mean, exact_mean one_entry_matrix = PyFin mean
                   /\ (mean == 15964569 # 228065280)%Q
                   /\ spec_index mean = 6)
  /\ np_mean32 one_entry_matrix = S754_finite false 9395241 (-27)
  /\ fallback_index one_entry_matrix = Ok 7
  /\ b64_fallback_index (float_of_float32 (np_mean32 one_entry_matrix)) = Ok 7
  /\ predict None one_entry_matrix = Ok "surprise"
  /\ ~ (exists mean, exact_mean one_entry_matrix = PyFin mean
                     /\ fallback_index one_entry_matrix = Ok (spec_index mean))
  /\ (exists mean, exact_mean [[PyFin (14092861 # 67108864); fzero; fzero]] = PyFin mean
                   /\ spec_index mean = 6)
  /\ fallback_index [[PyFin (14092861 # 67108864); fzero; fzero]] = Ok 7.
Proof.
  assert (Hexact : exists mean, exact_mean one_entry_matrix = PyFin mean
                                /\ (mean == 15964569 # 228065280)%Q
                                /\ spec_index mean = 6).
  { eexists. split; [vm_compute; reflexivity |]. split; vm_compute; reflexivity. }
  assert (Hindex : fallback_index one_entry_matrix = Ok 7) by (vm_compute; reflexivity).
  split; [reflexivity |].
  split; [unfold one_entry_matrix; apply Forall_cons; split;
          [by rewrite length_cons, length_replicate
          | apply Forall_replicate; by rewrite length_replicate] |].
  split; [exact Hexact |].
  split; [vm_compute; reflexivity |].
  split; [exact Hindex |].
  split; [vm_compute; reflexivity |].
  split; [vm_compute; reflexivity |].
  split; [| split; [eexists; split; vm_compute; reflexivity | vm_compute; reflexivity]].
  destruct Hexact as (mean & Hmean & _ & Hspec).
  intros (mean' & Hmean' & Hsame). rewrite Hmean in Hmean'.
  injection Hmean' as <-. rewrite Hindex, Hspec in Hsame. discriminate.
Qed.

(** The mean of this matrix is -0.57; the float32 is the one nearest to
    -0.57, which is -9563013 * 2^-24. *)
Lemma fallback_index_in_range_witness :
  (exists idx label,
     fallback_index [[PyFin (-57 # 100)]] = Ok idx
     /\ 0 <= idx < 8
     /\ fallback_emotion [[PyFin (-57 # 100)]] = Ok label
     /\ label ∈ EMOTION_LABELS)
  /\ (exists idx label,
        b64_fallback_index (float_of_float32 (S754_finite true 9563013 (-24))) = Ok idx
        /\ 0 <= idx < 8
        /\ py_getitem EMOTION_LABELS idx = Ok label).
Proof.
  destruct (fallback_index_in_range [[PyFin (-57 # 100)]]) as [Hmodel Hb64].
  split.
  - destruct Hmodel as (idx & label & Hidx & Hrange & _ & _ & Hlabel & Hin);
      [reflexivity |].
    exists idx, label. split; [exact Hidx |]. split; [exact Hrange |].
    split; [exact Hlabel | exact Hin].
  - destruct (Hb64 true 9563013%positive (-24)) as (idx & label & Hidx & Hrange & Hget & _);
      [reflexivity |].
    exists idx, label. split; [exact Hidx |]. split; [exact Hrange | exact Hget].
Defined.

(** * More properties of [app.py] *)

(** ** Names of uploads *)

Lemma length_split_dot_cons (c : ascii) (s : string) :
  length (split_dot (String c s))
  = if is_dot c then S (length (split_dot s)) else length (split_dot s).
Proof.
  simpl. pose proof (split_dot_nonempty s) as Hne.
  destruct (is_dot c); [reflexivity |].
  by destruct (split_dot s).
Qed.

Lemma contains_dot_split (s : string) :
  contains_dot s = bool_decide (2 <= length (split_dot s))%nat.
Proof.
  induction s as [|c s IH]; [reflexivity |].
  rewrite length_split_dot_cons. unfold contains_dot in *. simpl.
  pose proof (split_dot_nonempty s) as Hne.
  destruct (is_dot c); simpl.
  - symmetry. apply bool_decide_eq_true_2.
    destruct (split_dot s); [congruence | simpl; lia].
  - exact IH.
Qed.

Lemma is_dot_lower (c : ascii) : is_dot (ascii_lower c) = is_dot c.
Proof.
  destruct c as [[] [] [] [] [] [] [] []]; reflexivity.
Qed.

Lemma split_dot_lower (s : string) : split_dot (lower s) = lower <$> split_dot s.
Proof.
  induction s as [|c s IH]; [reflexivity |].
  simpl. rewrite is_dot_lower, IH.
  destruct (is_dot c); [reflexivity |].
  by destruct (split_dot s).
Qed.

Lemma last_fmap_lower (parts : list string) :
  List.last (lower <$> parts) EmptyString = lower (List.last parts EmptyString).
Proof.
  induction parts as [|a parts IH]; [reflexivity |].
  destruct parts as [|b parts]; [reflexivity | exact IH].
Qed.

Lemma split_last_lower (s : string) : split_last (lower s) = lower (split_last s).
Proof. unfold split_last. by rewrite split_dot_lower, last_fmap_lower. Qed.

Lemma rsplit1_two (s : string) :
  contains_dot s = true ->
  py_getitem (rsplit1 s) 1 = Ok (split_last s).
Proof.
  rewrite contains_dot_split. intros Hlen%bool_decide_eq_true.
  unfold rsplit1, split_last.
  destruct (split_dot s) as [|a [|b parts]]; simpl in Hlen; [lia | lia |].
  reflexivity.
Qed.

Lemma allowed_file_value (filename : string) :
  allowed_file filename
  = Ok (contains_dot filename
        && bool_decide (split_last (lower filename) ∈ ALLOWED_EXTENSIONS)).
Proof.
  unfold allowed_file. destruct (contains_dot filename) eqn:Hdot; [| reflexivity].
  by rewrite rsplit1_two, split_last_lower.
Qed.

Lemma lower_append (a b : string) : lower (a ++ b) = lower a ++ lower b.
Proof.
  induction a as [|c a IH]; [reflexivity |].
  rewrite append_cons. simpl. by rewrite IH, append_cons.
Qed.

Lemma contains_dot_append (a b : string) :
  contains_dot (a ++ b) = contains_dot a || contains_dot b.
Proof.
  induction a as [|c a IH]; [reflexivity |].
  rewrite append_cons. unfold contains_dot in *. simpl. by rewrite IH, orb_assoc.
Qed.

Lemma contains_dot_lower (s : string) : contains_dot (lower s) = contains_dot s.
Proof.
  induction s as [|c s IH]; [reflexivity |].
  unfold contains_dot in *. simpl. by rewrite is_dot_lower, IH.
Qed.

Lemma split_last_append (a b : string) :
  contains_dot b = true -> split_last (a ++ b) = split_last b.
Proof.
  intros Hdot. induction a as [|c a IH]; [reflexivity |].
  rewrite append_cons. unfold split_last in *. simpl.
  assert (Hlen : (2 <= length (split_dot (a ++ b)))%nat).
  { apply (proj1 (bool_decide_eq_true _)).
    rewrite <- contains_dot_split, contains_dot_append, Hdot. apply orb_true_r. }
  destruct (split_dot (a ++ b)) as [|h [|h' t]]; simpl in Hlen; try lia.
  destruct (is_dot c); exact IH.
Qed.

(** X1. [allowed_file] raises nothing, and it accepts a name exactly when
    the name has a dot and the text after its last dot, in lower case, is
    an allowed extension: the same extension [extract_features] reads off
    the path to decide on a conversion. *)
Theorem allowed_file_checks_dispatch_extension (filename : string) :
  exists accepted,
    allowed_file filename = Ok accepted
    /\ (accepted = true <->
        contains_dot filename = true
        /\ split_last (lower filename) ∈ ALLOWED_EXTENSIONS).
Proof.
  eexists. split; [apply allowed_file_value |].
  rewrite andb_true_iff, bool_decide_eq_true. reflexivity.
Qed.

(** X2. [allowed_file] looks at nothing before the last dot: whatever is put
    in front of a name that has a dot, directories included, the answer is
    the same. *)
Theorem allowed_file_ignores_directories (prefix name : string) :
  contains_dot name = true ->
  allowed_file (prefix ++ name) = allowed_file name.
Proof.
  intros Hdot. rewrite !allowed_file_value, contains_dot_append, Hdot, orb_true_r.
  rewrite lower_append, split_last_append; [reflexivity |].
  by rewrite contains_dot_lower.
Qed.

(** ** The two counters *)

Lemma os_path_join_inj (a b c : string) :
  os_path_join a b = os_path_join a c -> b = c.
Proof.
  unfold os_path_join. destruct a as [|ch a]; [done |].
  case_bool_decide; intros Heq.
  - by apply append_cancel_l in Heq.
  - apply append_cancel_l in Heq. by injection Heq.
Qed.

Lemma emotion_story_paths_differ (base_dir : string) :
  emotion_path base_dir <> story_path base_dir.
Proof. intros Heq%os_path_join_inj. discriminate. Qed.

Lemma update_story_analytics_run (base_dir emotion : string) (w : world) :
  update_story_analytics base_dir emotion w
  = (Ok tt, after_record (story_path base_dir)
              (increment emotion (stored_counts (story_path base_dir) w)) w).
Proof.
  unfold update_story_analytics, after_record, bind, _read_json_safe,
    _write_json_safe, try_except, bind, json_load_file, json_dump_file,
    stored_counts, ret.
  destruct (json_files w !! story_path base_dir) as [[counts|]|];
    destruct (write_failures w !! story_path base_dir) as [[|]|]; reflexivity.
Qed.

Lemma after_record_other (p q : string) (counts : gmap string Z) (w : world) :
  p <> q ->
  json_files (after_record p counts w) !! q = json_files w !! q
  /\ stored_counts q (after_record p counts w) = stored_counts q w
  /\ write_failures (after_record p counts w) = write_failures w.
Proof.
  intros Hne. unfold after_record, stored_counts.
  destruct (write_failures w !! p) as [[|]|]; simpl;
    rewrite ?lookup_insert_ne by done; done.
Qed.

Lemma after_record_commute (p q : string) (c d : gmap string Z) (w : world) :
  p <> q ->
  after_record p c (after_record q d w) = after_record q d (after_record p c w).
Proof.
  intros Hne.
  destruct (after_record_other p q c w Hne) as (_ & _ & Hp).
  destruct (after_record_other q p d w (not_eq_sym Hne)) as (_ & _ & Hq).
  unfold after_record in *.
  destruct (write_failures w !! p) as [[|]|] eqn:Ep;
    destruct (write_failures w !! q) as [[|]|] eqn:Eq;
    simpl in *; rewrite ?Ep, ?Eq; try reflexivity;
    unfold set_json_files; simpl; f_equal; by apply insert_insert_ne.
Qed.

(** X3. The story counter and the emotion counter are separate stores:
    recording a story leaves the emotion store as it is, recording an
    emotion leaves the story store as it is, and the two recordings can be
    made in either order with the same final state. *)
Theorem story_and_emotion_counters_independent (base_dir e1 e2 : string) (w : world) :
  json_files (update_story_analytics base_dir e1 w).2 !! emotion_path base_dir
  = json_files w !! emotion_path base_dir
  /\ json_files (update_emotion_analytics base_dir e2 w).2 !! story_path base_dir
     = json_files w !! story_path base_dir
  /\ (update_emotion_analytics base_dir e2 (update_story_analytics base_dir e1 w).2).2
     = (update_story_analytics base_dir e1 (update_emotion_analytics base_dir e2 w).2).2.
Proof.
  pose proof (emotion_story_paths_differ base_dir) as Hne.
  rewrite !update_story_analytics_run, !update_emotion_analytics_run. simpl.
  destruct (after_record_other (story_path base_dir) (emotion_path base_dir)
              (increment e1 (stored_counts (story_path base_dir) w)) w (not_eq_sym Hne))
    as (Hfile1 & Hstored1 & _).
  destruct (after_record_other (emotion_path base_dir) (story_path base_dir)
              (increment e2 (stored_counts (emotion_path base_dir) w)) w Hne)
    as (Hfile2 & Hstored2 & _).
  split; [exact Hfile1 |]. split; [exact Hfile2 |].
  rewrite Hstored1, Hstored2. by apply after_record_commute.
Qed.

Lemma total_emotions_insert_fresh (e : string) (c : Z) (counts : gmap string Z) :
  counts !! e = None -> total_emotions (<[e := c]> counts) = c + total_emotions counts.
Proof.
  intros Hfresh. unfold total_emotions.
  apply (map_fold_insert_L (fun _ v acc => v + acc)); [| exact Hfresh].
  intros. lia.
Qed.

Lemma total_emotions_increment (e : string) (counts : gmap string Z) :
  total_emotions (increment e counts) = total_emotions counts + 1.
Proof.
  unfold increment. destruct (counts !! e) as [c|] eqn:He; simpl.
  - rewrite <- (insert_delete_id counts e c He) at 2.
    rewrite <- insert_delete_eq.
    rewrite !total_emotions_insert_fresh by apply lookup_delete_eq. lia.
  - rewrite total_emotions_insert_fresh by done. lia.
Qed.

Lemma py_getitem_elem_of {A : Type} (xs : list A) (i : Z) (x : A) :
  py_getitem xs i = Ok x -> x ∈ xs.
Proof.
  unfold py_getitem. case_match; [discriminate |].
  destruct (xs !! _) as [y|] eqn:Hy; [| discriminate].
  intros [= <-]. by eapply list_elem_of_lookup_2.
Qed.

Section Counting.

Context `{Libraries}.
Variable model : option (matrix -> Z).
Variable base_dir : string.

(** X4. Whichever classifier is in use, an analysis that returns does so
    with one of the eight labels, and when the store can be written it is
    counted exactly once: the label's counter goes up by one, no other
    counter moves, and the total the admin dashboard shows goes up by
    one. *)
Theorem successful_analysis_counted_once (p emotion : string) (w w2 : world) :
  analyze_saved_file model base_dir p w = (Ok emotion, w2) ->
  write_failures w !! emotion_path base_dir = None ->
  let before := stored_counts (emotion_path base_dir) w in
  let after := stored_counts (emotion_path base_dir) w2 in
  emotion ∈ EMOTION_LABELS
  /\ after !! emotion = Some (default 0 (before !! emotion) + 1)
  /\ (forall other, other <> emotion -> after !! other = before !! other)
  /\ total_emotions after = total_emotions before + 1.
Proof.
  intros Hrun Hok before after. subst before after.
  rewrite analyze_saved_file_run in Hrun.
  pose proof (extract_features_frame p SR N_MFCC MAX_PAD_LEN w) as (Hjson & _ & _ & Hwf).
  destruct (extract_features p SR N_MFCC MAX_PAD_LEN w) as [[mfcc|e] w1];
    [| discriminate].
  simpl in Hjson, Hwf.
  destruct (predict model mfcc) as [label|e] eqn:Hpredict; [| discriminate].
  injection Hrun as -> <-.
  assert (Hlabel : emotion ∈ EMOTION_LABELS).
  { unfold predict, fallback_emotion in Hpredict.
    destruct model as [net|]; [by eapply py_getitem_elem_of |].
    destruct (fallback_index mfcc); [by eapply py_getitem_elem_of | discriminate]. }
  assert (Hsame : stored_counts (emotion_path base_dir) w1
                  = stored_counts (emotion_path base_dir) w)
    by (unfold stored_counts; by rewrite Hjson).
  destruct (after_record_stored base_dir
              (increment emotion (stored_counts (emotion_path base_dir) w1)) w1)
    as [Hstored _]; [by rewrite Hwf |].
  rewrite Hstored, Hsame.
  split; [exact Hlabel |].
  split; [apply increment_same |].
  split; [intros other Hne; by apply increment_other |].
  apply total_emotions_increment.
Qed.

End Counting.

(** ** The dashboard figures *)

Lemma py_max_by_first_greatest {A : Type} (key : A -> Z) (best : A) (rest : list A) :
  exists pre post,
    best :: rest = (pre ++ py_max_by key best rest :: post)%list
    /\ Forall (fun x => key x < key (py_max_by key best rest)) pre
    /\ Forall (fun x => key x <= key (py_max_by key best rest)) post.
Proof.
  revert best. induction rest as [|x rest IH]; intros best.
  - exists [], []. by repeat split.
  - simpl. destruct (Z.ltb_spec (key best) (key x)) as [Hlt|Hge].
    + destruct (IH x) as (pre & post & Heq & Hpre & Hpost).
      set (r := py_max_by key x rest) in *.
      assert (Hall : Forall (fun y => key y <= key r) (x :: rest)).
      { rewrite Heq. apply Forall_app. split.
        - eapply Forall_impl; [exact Hpre |]. simpl. intros. lia.
        - constructor; [lia | exact Hpost]. }
      apply Forall_cons in Hall as [Hx _].
      exists (best :: pre), post. split; [by rewrite Heq |]. split; [| exact Hpost].
      constructor; [lia | exact Hpre].
    + destruct (IH best) as (pre & post & Heq & Hpre & Hpost).
      set (r := py_max_by key best rest) in *.
      destruct pre as [|y pre].
      * injection Heq as Hbest Hrest.
        exists [], (x :: post). rewrite <- Hbest, Hrest.
        split; [reflexivity |]. split; [constructor |].
        constructor; [lia |]. by rewrite Hbest.
      * injection Heq as Hbest Hrest. subst y.
        apply Forall_cons in Hpre as [Hb Hpre].
        exists (best :: x :: pre), post. rewrite Hrest.
        split; [reflexivity |]. split; [| exact Hpost].
        constructor; [exact Hb |]. constructor; [lia | exact Hpre].
Qed.

Lemma py_min_by_max_by {A : Type} (key : A -> Z) (best : A) (rest : list A) :
  py_min_by key best rest = py_max_by (fun x => - key x) best rest.
Proof.
  revert best. induction rest as [|x rest IH]; intros best; [reflexivity |].
  simpl. rewrite IH.
  by destruct (Z.ltb_spec (key x) (key best)), (Z.ltb_spec (- key best) (- key x)); try lia.
Qed.

(** X5. [most_detected] is the first entry of the counter with the greatest
    count and [least_detected] the first with the smallest: entries before
    it have a strictly smaller, respectively greater, count and entries
    after it none greater, respectively smaller.  For an empty counter both
    are the placeholder with count 0. *)
Theorem detected_extremes (item : string * Z) (rest : list (string * Z)) :
  let items := item :: rest in
  (exists pre post,
     items = (pre ++ most_detected items :: post)%list
     /\ Forall (fun x => x.2 < (most_detected items).2) pre
     /\ Forall (fun x => x.2 <= (most_detected items).2) post)
  /\ (exists pre post,
       items = (pre ++ least_detected items :: post)%list
       /\ Forall (fun x => (least_detected items).2 < x.2) pre
       /\ Forall (fun x => (least_detected items).2 <= x.2) post)
  /\ most_detected [] = ("—", 0) /\ least_detected [] = ("—", 0).
Proof.
  intros items. split; [| split; [| done]].
  - apply py_max_by_first_greatest.
  - unfold items, least_detected. rewrite py_min_by_max_by.
    destruct (py_max_by_first_greatest (fun x : string * Z => - x.2) item rest)
      as (pre & post & Heq & Hpre & Hpost).
    exists pre, post. split; [exact Heq |].
    split; (eapply Forall_impl; [eassumption |]); simpl; intros; lia.
Qed.

(** ** Password rules *)

Lemma string_length_append (a b : string) :
  String.length (a ++ b) = (String.length a + String.length b)%nat.
Proof.
  induction a as [|c a IH]; [reflexivity |].
  rewrite append_cons. simpl. by rewrite IH.
Qed.

Lemma re_search_append (class : ascii -> bool) (a b : string) :
  re_search class (a ++ b) = re_search class a || re_search class b.
Proof.
  induction a as [|c a IH]; [reflexivity |].
  rewrite append_cons. unfold re_search in *. simpl. by rewrite IH, orb_assoc.
Qed.

Lemma re_search_true (class : ascii -> bool) (s : string) :
  re_search class s = true <-> exists c, In c (list_ascii_of_string s) /\ class c = true.
Proof. unfold re_search. apply existsb_exists. Qed.

Lemma validate_password_strength_accepts (password : string) :
  validate_password_strength password = (true, None)
  <-> (8 <= String.length password)%nat
      /\ re_search is_upper password = true
      /\ re_search is_lower password = true
      /\ re_search is_digit password = true
      /\ re_search is_special password = true.
Proof.
  unfold validate_password_strength.
  destruct (Nat.ltb_spec (String.length password) 8);
    [split; [discriminate | lia] |].
  destruct (re_search is_upper password); simpl;
    [| split; [discriminate | intros (_ & ? & _); discriminate]].
  destruct (re_search is_lower password); simpl;
    [| split; [discriminate | intros (_ & _ & ? & _); discriminate]].
  destruct (re_search is_digit password); simpl;
    [| split; [discriminate | intros (_ & _ & _ & ? & _); discriminate]].
  destruct (re_search is_special password); simpl;
    [| split; [discriminate | intros (_ & _ & _ & _ & ?); discriminate]].
  split; [intros _; by repeat split | reflexivity].
Qed.

(** X6. Adding characters to an accepted password, in front of it or behind
    it, never makes it unacceptable: there is no upper bound on the length
    and no character is forbidden. *)
Theorem validate_password_strength_monotone (before password after : string) :
  validate_password_strength password = (true, None) ->
  validate_password_strength (before ++ password ++ after) = (true, None).
Proof.
  rewrite !validate_password_strength_accepts.
  intros (Hlen & Hupper & Hlower & Hdigit & Hspecial).
  rewrite !string_length_append, !re_search_append.
  rewrite Hupper, Hlower, Hdigit, Hspecial, !orb_true_r. simpl.
  repeat split; lia.
Qed.

Lemma char_classes_disjoint (c : ascii) :
  (is_upper c = true -> is_lower c = false /\ is_digit c = false /\ is_special c = false)
  /\ (is_lower c = true -> is_digit c = false /\ is_special c = false)
  /\ (is_digit c = true -> is_special c = false).
Proof.
  unfold is_special, is_upper, is_lower, is_digit.
  generalize (nat_of_ascii c). intros n.
  repeat match goal with
         | |- context [(?a <=? ?b)%nat] => destruct (Nat.leb_spec a b)
         end; simpl; repeat split; intros; try done; lia.
Qed.

(** X7. An accepted password has at least eight characters, and among them
    an upper-case letter from A to Z, a lower-case letter from a to z and a
    character that is neither such a letter nor one of the digits 0 to 9:
    three different characters; and it has a character that [\d] matches.
    The last two may be one and the same character where [\d] matches
    more than 0 to 9, so no fourth character is promised.  Every rejected
    password comes with a message. *)
Theorem validate_password_strength_sound (password : string) :
  (validate_password_strength password = (true, None) ->
   (8 <= String.length password)%nat
   /\ re_search is_digit password = true
   /\ exists u l x,
        Forall (fun c => In c (list_ascii_of_string password)) [u; l; x]
        /\ is_upper u = true /\ is_lower l = true /\ is_special x = true
        /\ NoDup [u; l; x])
  /\ (validate_password_strength password <> (true, None) ->
      exists message, validate_password_strength password = (false, Some message)).
Proof.
  split.
  - rewrite validate_password_strength_accepts.
    intros (Hlen & (u & Hu & Hup)%re_search_true & (l & Hl & Hlow)%re_search_true
            & Hdigit & (x & Hx & Hsp)%re_search_true).
    split; [exact Hlen |]. split; [exact Hdigit |]. exists u, l, x.
    split; [by repeat constructor |].
    repeat (split; [assumption |]).
    pose proof (char_classes_disjoint u) as (Hu1 & _ & _).
    pose proof (char_classes_disjoint l) as (_ & Hl1 & _).
    destruct (Hu1 Hup) as (? & ? & ?). destruct (Hl1 Hlow) as (? & ?).
    repeat constructor; rewrite ?elem_of_cons, ?elem_of_nil; intros Heq;
      repeat destruct Heq as [Heq|Heq]; try done; subst; congruence.
  - unfold validate_password_strength.
    repeat case_match; try done; eauto.
Qed.

(** ** The views *)

Lemma try_except_ret {A : Type} (body : M A) (recover : exn -> A) (w : world) :
  exists a w', try_except body (fun e => ret (recover e)) w = (Ok a, w').
Proof.
  unfold try_except, ret. destruct (body w) as [[a|e] w']; eauto.
Qed.

Section ViewFacts.

Context `{Libraries}.
Variable model : option (matrix -> Z).
Variable base_dir : string.
Variable FileStorage_save : FileStorage -> string -> M unit.
Variable allowed_listing : string.
Variable generate_story_with_groq : option (string -> string -> result string).
Variable GROQ_API_KEY : option string.

Local Abbreviation analyze := (analyze_saved_file model base_dir).
Local Abbreviation api := (api_analyze model base_dir FileStorage_save allowed_listing).
Local Abbreviation board := (dashboard model base_dir FileStorage_save).
Local Abbreviation tell := (story base_dir generate_story_with_groq GROQ_API_KEY).

Lemma analyze_saved_file_returns_label (p emotion : string) (w w2 : world) :
  analyze p w = (Ok emotion, w2) -> emotion ∈ EMOTION_LABELS.
Proof.
  rewrite analyze_saved_file_run.
  destruct (extract_features p SR N_MFCC MAX_PAD_LEN w) as [[mfcc|e] w1];
    [| discriminate].
  destruct (predict model mfcc) as [label|e] eqn:Hpredict; [| discriminate].
  intros [= <- _].
  unfold predict, fallback_emotion in Hpredict.
  destruct model as [net|]; [by eapply py_getitem_elem_of |].
  destruct (fallback_index mfcc); [by eapply py_getitem_elem_of | discriminate].
Qed.

Lemma after_record_uploads (path : string) (counts : gmap string Z) (w : world) :
  uploads (after_record path counts w) = uploads w.
Proof. unfold after_record. by destruct (write_failures w !! path) as [[|]|]. Qed.

Lemma extract_features_keeps_upload (p : string) (sr : Z) (n k : nat) (w : world) :
  uploads (extract_features p sr n k w).2 !! p = uploads w !! p.
Proof.
  pose proof (wav_path_of_fresh p) as Hfresh.
  destruct (choose_source_cases p w) as [Hsrc|[_ [c Hsrc]]];
    rewrite (extract_features_run _ _ _ _ _ _ _ Hsrc); simpl.
  - by rewrite after_cleanup_same.
  - unfold after_cleanup. case_match; simpl;
      rewrite ?lookup_delete_ne by done; by rewrite lookup_insert_ne.
Qed.

Lemma analyze_saved_file_keeps_upload (p : string) (w : world) :
  uploads (analyze p w).2 !! p = uploads w !! p.
Proof.
  rewrite analyze_saved_file_run.
  pose proof (extract_features_keeps_upload p SR N_MFCC MAX_PAD_LEN w) as Hkeep.
  destruct (extract_features p SR N_MFCC MAX_PAD_LEN w) as [[mfcc|e] w1];
    [| exact Hkeep].
  destruct (predict model mfcc) as [label|e]; [| exact Hkeep].
  simpl. by rewrite after_record_uploads.
Qed.

Lemma api_analyze_cases (request : Request) (session : gmap string string)
    (w : world) :
  exists response session' w',
    api request session w = (Ok (response, session'), w')
    /\ ((response = JsonResponse [("error", "Unauthorized")] 401
         /\ session !! "user" = None /\ session' = session /\ w' = w)
        \/ (exists message, response = JsonResponse [("error", message)] 400
                            /\ is_Some (session !! "user")
                            /\ session' = session /\ w' = w)
        \/ (exists message, response = JsonResponse [("error", message)] 500
                            /\ is_Some (session !! "user")
                            /\ session' = session)
        \/ (exists emotion, response = JsonResponse [("emotion", emotion)] 200
                            /\ is_Some (session !! "user")
                            /\ emotion ∈ EMOTION_LABELS
                            /\ session' = <["last_emotion" := emotion]> session)).
Proof.
  unfold api_analyze. case_bool_decide as Huser; simpl.
  - destruct (req_files request !! "file") as [file|].
    2: { do 3 eexists. split; [reflexivity |]. right. left. eauto. }
    unfold bind at 1. rewrite allowed_file_value. unfold lift.
    destruct (_ && _); simpl.
    2: { do 3 eexists. split; [reflexivity |]. right. left. eauto. }
    unfold try_except, bind.
    destruct (FileStorage_save file _ w) as [[[]|e] w1].
    2: { do 3 eexists. split; [reflexivity |]. do 2 right. left. eauto. }
    destruct (analyze _ w1) as [[emotion|e] w2] eqn:Hrun.
    2: { do 3 eexists. split; [reflexivity |]. do 2 right. left. eauto. }
    apply analyze_saved_file_returns_label in Hrun.
    do 3 eexists. split; [reflexivity |]. do 3 right. eauto.
  - do 3 eexists. split; [reflexivity |]. left.
    repeat split. by apply eq_None_not_Some.
Qed.

(** X8. [api_analyze] never raises, and its answer is fixed case by case.
    Without a user in the session: 401 "Unauthorized".  Without a file
    part: 400 "No file part".  With a name that [allowed_file] refuses (the
    name of the file, or recording.wav when it has none): 400 with the
    name and the listing of the extensions.  In these three cases the
    session and the world are untouched.  With a name that is accepted
    the file is saved under the upload folder and analysed: when the save
    raises, or else the analysis, the answer is 500 with the text of that
    exception, the session is untouched and the world is the one the
    failing call left; otherwise it is 200 with the label the analysis
    returned, one of the eight, which is also put into the session as the
    last emotion, and the world is the one the analysis left. *)
Theorem api_analyze_outcomes (request : Request) (session : gmap string string)
    (w : world) :
  exists response session' w',
    api request session w = (Ok (response, session'), w')
    /\ (session !! "user" = None ->
        response = JsonResponse [("error", "Unauthorized")] 401
        /\ session' = session /\ w' = w)
    /\ (is_Some (session !! "user") -> req_files request !! "file" = None ->
        response = JsonResponse [("error", "No file part")] 400
        /\ session' = session /\ w' = w)
    /\ (forall file,
          is_Some (session !! "user") -> req_files request !! "file" = Some file ->
          let filename :=
            if truthy (fs_filename file) then default EmptyString (fs_filename file)
            else "recording.wav" in
          let filepath := posix_join UPLOAD_FOLDER filename in
          (allowed_file filename = Ok false ->
           response
           = JsonResponse
               [("error", "Invalid file type: " ++ filename ++ ". Allowed: "
                          ++ allowed_listing)] 400
           /\ session' = session /\ w' = w)
          /\ (allowed_file filename = Ok true ->
              match FileStorage_save file filepath w with
              | (Raise e, w1) =>
                  response = JsonResponse [("error", exn_str e)] 500
                  /\ session' = session /\ w' = w1
              | (Ok _, w1) =>
                  match analyze filepath w1 with
                  | (Raise e, w2) =>
                      response = JsonResponse [("error", exn_str e)] 500
                      /\ session' = session /\ w' = w2
                  | (Ok emotion, w2) =>
                      response = JsonResponse [("emotion", emotion)] 200
                      /\ emotion ∈ EMOTION_LABELS
                      /\ session' = <["last_emotion" := emotion]> session
                      /\ w' = w2
                  end
              end)).
Proof.
  unfold api_analyze. destruct (session !! "user") as [user|] eqn:Huser.
  2: { rewrite (bool_decide_eq_false_2 _ is_Some_None). simpl.
       do 3 eexists. split; [reflexivity |].
       split; [done |]. split; intros; by destruct (is_Some_None (A := string)). }
  rewrite bool_decide_eq_true_2 by eauto. simpl.
  destruct (req_files request !! "file") as [file|] eqn:Hfile.
  2: { do 3 eexists. split; [reflexivity |]. split; [done |]. split; [done |]. done. }
  set (filename := if truthy (fs_filename file) then default EmptyString (fs_filename file)
                   else "recording.wav").
  unfold bind at 1, lift.
  pose proof (allowed_file_value filename) as Hvalue.
  destruct (allowed_file filename) as [[|]|e] eqn:Hallowed; [| | discriminate]; simpl.
  - unfold try_except, bind.
    destruct (FileStorage_save file (posix_join UPLOAD_FOLDER filename) w)
      as [[[]|e] w1] eqn:Hsave.
    + destruct (analyze (posix_join UPLOAD_FOLDER filename) w1)
        as [[emotion|e] w2] eqn:Hrun.
      * pose proof (analyze_saved_file_returns_label _ _ _ _ Hrun) as Hlabel.
        do 3 eexists. split; [reflexivity |]. split; [done |]. split; [done |].
        intros ? _ [= <-]. fold filename. rewrite Hallowed.
        split; [done |]. intros _. by rewrite Hsave, Hrun.
      * do 3 eexists. split; [reflexivity |]. split; [done |]. split; [done |].
        intros ? _ [= <-]. fold filename. rewrite Hallowed.
        split; [done |]. intros _. by rewrite Hsave, Hrun.
    + do 3 eexists. split; [reflexivity |]. split; [done |]. split; [done |].
      intros ? _ [= <-]. fold filename. rewrite Hallowed.
      split; [done |]. intros _. by rewrite Hsave.
  - do 3 eexists. split; [reflexivity |]. split; [done |]. split; [done |].
    intros ? _ [= <-]. fold filename. rewrite Hallowed. split; [done |]. done.
Qed.

Lemma api_analyze_success_inv (request : Request) (session session1 : gmap string string)
    (w w1 : world) (emotion : string) :
  api request session w = (Ok (JsonResponse [("emotion", emotion)] 200, session1), w1) ->
  is_Some (session !! "user") /\ session1 = <["last_emotion" := emotion]> session.
Proof.
  intros Hrun.
  destruct (api_analyze_cases request session w) as (r & s1 & w1' & Hcase & Hkind).
  rewrite Hrun in Hcase. injection Hcase as <- <- <-.
  destruct Hkind as [(Hr & _)|[(m & Hr & _)|[(m & Hr & _)|(e & Hr & Huser & _ & Hs)]]];
    try discriminate.
  injection Hr as ->. by split.
Qed.

(** X9. The label an upload got through [api_analyze] is shown by the next
    request for the dashboard that is not a POST, and by that one only: the
    dashboard takes it out of the session, and the request after it shows
    no emotion. *)
Theorem api_result_is_shown_once (request later : Request)
    (session session1 : gmap string string) (w w1 v : world) (emotion : string) :
  api request session w = (Ok (JsonResponse [("emotion", emotion)] 200, session1), w1) ->
  req_method later <> "POST" ->
  exists session2,
    board later session1 v
    = (Ok (Rendered "dashboard.html" [("emotion", Some emotion)], session2), v)
    /\ board later session2 v
       = (Ok (Rendered "dashboard.html" [("emotion", None)], session2), v).
Proof.
  intros [Huser ->]%api_analyze_success_inv Hget.
  exists (delete "last_emotion" (<["last_emotion" := emotion]> session)).
  unfold dashboard.
  rewrite !(bool_decide_eq_false_2 _ Hget).
  rewrite !bool_decide_eq_true_2; simpl.
  - rewrite lookup_insert_eq, lookup_delete_eq.
    by rewrite delete_delete_eq.
  - by rewrite lookup_delete_ne, lookup_insert_ne.
  - by rewrite lookup_insert_ne.
Qed.

Lemma allowed_file_not_empty (name : string) :
  allowed_file name = Ok true -> truthy (Some name) = true.
Proof.
  intros Hallowed. simpl. apply negb_true_iff, bool_decide_eq_false_2.
  intros ->. discriminate.
Qed.

(** X10. An upload that [api_analyze] or the dashboard accepts is stored
    under [os.path.join('uploads', filename)] and is still there when the
    view returns, whether the analysis gave a label or raised: the views
    never remove it.  The name comes from the client as it is, so for a
    name that starts with a slash that path is the name itself, outside the
    upload folder. *)
Theorem accepted_upload_is_kept (request : Request) (session : gmap string string)
    (w : world) (file : FileStorage) (name : string) :
  (forall f path v,
     FileStorage_save f path v = (Ok tt, set_uploads (insert path (fs_stream f)) v)) ->
  is_Some (session !! "user") ->
  req_files request !! "file" = Some file ->
  fs_filename file = Some name ->
  allowed_file name = Ok true ->
  (exists response session' w',
     api request session w = (Ok (response, session'), w')
     /\ uploads w' !! posix_join UPLOAD_FOLDER name = Some (fs_stream file))
  /\ (req_method request = "POST" ->
      exists response session' w',
        board request session w = (Ok (response, session'), w')
        /\ uploads w' !! posix_join UPLOAD_FOLDER name = Some (fs_stream file))
  /\ (forall rest, name = String "/" rest -> posix_join UPLOAD_FOLDER name = name).
Proof.
  intros Hsave Huser Hfile Hname Hallowed.
  pose proof (allowed_file_not_empty name Hallowed) as Htruthy.
  assert (Hkept : forall v,
             uploads (analyze (posix_join UPLOAD_FOLDER name)
                        (set_uploads (insert (posix_join UPLOAD_FOLDER name)
                                        (fs_stream file)) v)).2
             !! posix_join UPLOAD_FOLDER name = Some (fs_stream file)).
  { intros v. rewrite analyze_saved_file_keeps_upload. simpl. apply lookup_insert_eq. }
  split; [| split].
  - unfold api_analyze. rewrite (bool_decide_eq_true_2 _ Huser), Hfile, Hname, Htruthy.
    simpl. unfold bind at 1. rewrite Hallowed. unfold lift. simpl.
    unfold try_except, bind. rewrite Hsave.
    specialize (Hkept w).
    destruct (analyze _ _) as [[emotion|e] w2]; do 3 eexists; (split; [reflexivity |]);
      exact Hkept.
  - intros Hpost. unfold dashboard.
    rewrite (bool_decide_eq_true_2 _ Huser), (bool_decide_eq_true_2 _ Hpost), Hfile, Hname.
    rewrite Htruthy. simpl.
    rewrite bool_decide_eq_false_2.
    2: { intros [= ->]. discriminate. }
    unfold bind at 1. rewrite Hallowed. unfold lift.
    unfold bind. rewrite Hsave. unfold try_except, bind.
    specialize (Hkept w).
    destruct (analyze _ _) as [[emotion|e] w2]; do 3 eexists; (split; [reflexivity |]);
      exact Hkept.
  - by intros rest ->.
Qed.

(** X11. The dashboard raises only when saving the upload raises, and then it
    raises that very exception: [file.save] stands before the [try], so a
    failure of the analysis is rendered as an error message while a failure
    of the save is not. *)
Theorem dashboard_raises_only_from_save (request : Request)
    (session : gmap string string) (w w' : world) (e : exn) :
  board request session w = (Raise e, w')
  <-> is_Some (session !! "user")
      /\ req_method request = "POST"
      /\ exists file name,
           req_files request !! "file" = Some file
           /\ fs_filename file = Some name
           /\ allowed_file name = Ok true
           /\ FileStorage_save file (posix_join UPLOAD_FOLDER name) w = (Raise e, w').
Proof.
  unfold dashboard. split.
  - case_bool_decide as Huser; simpl; [| discriminate].
    case_bool_decide as Hpost; [| discriminate].
    destruct (req_files request !! "file") as [file|]; [| discriminate].
    case_bool_decide as Hempty; [discriminate |].
    destruct (fs_filename file) as [name|] eqn:Hname; simpl.
    2: { unfold bind, ret. discriminate. }
    case_bool_decide as Hnonempty; simpl.
    { unfold bind, ret. discriminate. }
    unfold bind at 1. rewrite allowed_file_value. unfold lift.
    destruct (_ && _) eqn:Hallowed; [| discriminate].
    unfold bind, try_except.
    destruct (FileStorage_save file _ w) as [[[]|e1] w1] eqn:Hsave.
    + unfold bind. by destruct (analyze _ w1) as [[emotion|e2] w2].
    + intros [= -> ->]. do 2 (split; [done |]). exists file, name.
      by rewrite allowed_file_value, Hallowed.
  - intros (Huser & Hpost & file & name & Hfile & Hname & Hallowed & Hsave).
    rewrite (bool_decide_eq_true_2 _ Huser), (bool_decide_eq_true_2 _ Hpost), Hfile, Hname.
    rewrite (allowed_file_not_empty name Hallowed). simpl.
    rewrite bool_decide_eq_false_2.
    2: { intros [= ->]. discriminate. }
    unfold bind at 1. rewrite Hallowed. unfold lift.
    unfold bind. by rewrite Hsave.
Qed.

(** X12. [story] never raises and leaves the session as it is.  Without a
    last emotion it tells nothing and records nothing.  With one, it tells
    the offline story unless the generator and its key are both there, and
    records the story in the story counter; when the generator raises, the
    page shows the text of the exception and nothing is recorded. *)
Theorem story_is_counted_when_told (request : Request) (session : gmap string string)
    (w : world) :
  is_Some (session !! "user") ->
  exists text w',
    tell request session w
    = (Ok (Rendered "story.html"
             [("emotion", session !! "last_emotion"); ("story", text)], session), w')
    /\ (truthy (session !! "last_emotion") = false -> text = None /\ w' = w)
    /\ (forall emotion,
          session !! "last_emotion" = Some emotion -> emotion <> EmptyString ->
          let told := (update_story_analytics base_dir emotion w).2 in
          match generate_story_with_groq with
          | Some generate =>
              if truthy GROQ_API_KEY then
                match generate emotion (default EmptyString GROQ_API_KEY) with
                | Ok generated => text = Some generated /\ w' = told
                | Raise e =>
                    text = Some ("Could not generate story: " ++ exn_str e) /\ w' = w
                end
              else text = Some (fallback_story emotion) /\ w' = told
          | None => text = Some (fallback_story emotion) /\ w' = told
          end).
Proof.
  intros Huser. unfold story. rewrite (bool_decide_eq_true_2 _ Huser). simpl.
  destruct (session !! "last_emotion") as [emotion|] eqn:Hlast; simpl.
  2: { do 2 eexists. split; [reflexivity |]. split; [done |]. intros ? [=]. }
  case_bool_decide as Hempty; simpl.
  { subst emotion. do 2 eexists. split; [reflexivity |]. split; [done |].
    intros ? [= <-] Hne. done. }
  assert (Hrecord : forall text : string,
             bind (update_story_analytics base_dir emotion) (fun _ => ret (Some text)) w
             = (Ok (Some text), (update_story_analytics base_dir emotion w).2)).
  { intros text. unfold bind. by rewrite update_story_analytics_run. }
  unfold bind at 1. unfold try_except. unfold bind at 1.
  destruct generate_story_with_groq as [generate|].
  - destruct (truthy GROQ_API_KEY).
    + unfold lift.
      destruct (generate emotion (default EmptyString GROQ_API_KEY))
        as [generated|e] eqn:Hgen.
      * rewrite Hrecord. do 2 eexists. split; [reflexivity |].
        split; [done |]. intros ? [= <-] _. by rewrite Hgen.
      * do 2 eexists. split; [reflexivity |].
        split; [done |]. intros ? [= <-] _. by rewrite Hgen.
    + unfold ret at 1. rewrite Hrecord. do 2 eexists. split; [reflexivity |].
      split; [done |]. by intros ? [= <-] _.
  - unfold ret at 1. rewrite Hrecord. do 2 eexists. split; [reflexivity |].
    split; [done |]. by intros ? [= <-] _.
Qed.

End ViewFacts.

(** ** User accounts *)

Lemma accepted_password_not_default (password : string) :
  validate_password_strength password = (true, None) ->
  password <> "admin123" /\ password <> EmptyString.
Proof. intros Hok. split; intros ->; discriminate. Qed.

Lemma new_user_not_empty (email password : string) : new_user email password <> ∅.
Proof.
  intros Heq. assert (Hl : new_user email password !! "email" = Some (JString email))
    by reflexivity.
  rewrite Heq in Hl. discriminate.
Qed.

Lemma read_users_written (users : gmap string (gmap string jvalue)) (a : accounts) :
  users_write a = None ->
  read_users (write_users users a).2 = users
  /\ users_write (write_users users a).2 = None
  /\ tokens_doc (write_users users a).2 = tokens_doc a
  /\ tokens_write (write_users users a).2 = tokens_write a.
Proof. intros Hok. unfold write_users. by rewrite Hok. Qed.

(** X13. A registration that is accepted can be used at once: with a store
    that can be written, registering a new name with an acceptable
    password redirects to the login page, and logging in with that name
    and password, from whatever session, redirects to the dashboard with
    the name as the session's user, no admin role, and the record marked
    online.  The admin shortcut cannot get in the way, as its password is
    not an acceptable one. *)
Theorem register_then_login (request later : Request) (a : accounts)
    (session : gmap string string) (username email password : string) :
  req_method request = "POST" ->
  req_form request !! "username" = Some username ->
  req_form request !! "email" = Some email ->
  req_form request !! "password" = Some password ->
  username <> EmptyString -> email <> EmptyString ->
  read_users a !! username = None ->
  validate_password_strength password = (true, None) ->
  users_write a = None ->
  req_method later = "POST" ->
  req_form later !! "username" = Some username ->
  req_form later !! "password" = Some password ->
  exists a1 a2 session2 record,
    register request a = (Redirect "login", a1)
    /\ read_users a1 !! username = Some (new_user email password)
    /\ login later session a1 = (Redirect "dashboard", session2, a2)
    /\ session2 !! "user" = Some username
    /\ session2 !! "admin" = None
    /\ read_users a2 !! username = Some record
    /\ record !! "status" = Some (JString "Online")
    /\ record !! "password" = Some (JString password)
    /\ record !! "email" = Some (JString email).
Proof.
  intros Hpost Hu He Hp Hune Hene Hfresh Hvalid Hwrite Hpost' Hu' Hp'.
  destruct (accepted_password_not_default password Hvalid) as [Hnot_admin Hpne].
  destruct (read_users_written (<[username := new_user email password]> (read_users a)) a Hwrite)
    as (Hread1 & Hwrite1 & _).
  set (a1 := (write_users (<[username := new_user email password]> (read_users a)) a).2) in *.
  set (logged := <["is_logged_in" := JBool true]>
                   (<["status" := JString "Online"]> (new_user email password))).
  destruct (read_users_written (<[username := logged]> (read_users a1)) a1 Hwrite1)
    as (Hread2 & _).
  exists a1, (write_users (<[username := logged]> (read_users a1)) a1).2,
    (<["user" := username]> (delete "admin" session)), logged.
  assert (Hreg : register request a = (Redirect "login", a1)).
  { unfold register. rewrite (bool_decide_eq_true_2 _ Hpost), Hu, He, Hp. simpl.
    rewrite !bool_decide_eq_false_2 by done. simpl.
    rewrite Hfresh, (bool_decide_eq_false_2 _ is_Some_None).
    rewrite Hvalid. simpl. unfold a1.
    by destruct (write_users _ a). }
  split; [exact Hreg |].
  split; [rewrite Hread1; apply lookup_insert_eq |].
  split.
  { unfold login. rewrite (bool_decide_eq_true_2 _ Hpost'), Hu', Hp'. simpl.
    rewrite !bool_decide_eq_false_2 by done. simpl.
    rewrite (bool_decide_eq_false_2 (password = "admin123")) by done.
    rewrite andb_false_r.
    rewrite Hread1, lookup_insert_eq.
    rewrite bool_decide_eq_false_2 by apply new_user_not_empty.
    change (new_user email password !! "password") with (Some (JString password)).
    cbv iota beta.
    rewrite bool_decide_eq_true_2 by done. cbn [negb].
    fold logged. rewrite <- Hread1.
    by destruct (write_users _ a1). }
  split; [apply lookup_insert_eq |].
  split; [by rewrite lookup_insert_ne, lookup_delete_eq |].
  split; [rewrite Hread2; apply lookup_insert_eq |].
  by repeat split.
Qed.

(** X14. [register] never touches an existing account.  A registration that
    is turned down, with whatever message, changes nothing, and one that
    goes through leaves the record of every user already there as it was,
    unless the write itself breaks off after truncating the file.  The
    tokens are never touched. *)
Theorem register_keeps_existing_users (request : Request) (a : accounts) :
  exists response a1,
    register request a = (response, a1)
    /\ (forall template context, response = Rendered template context -> a1 = a)
    /\ (users_write a <> Some DumpFails ->
        forall u record, read_users a !! u = Some record ->
                         read_users a1 !! u = Some record)
    /\ tokens_doc a1 = tokens_doc a.
Proof.
  unfold register. case_bool_decide as Hpost; [| by eauto 10].
  destruct (_ || _ || _); [by eauto 10 |].
  case_bool_decide as Htaken; [by eauto 10 |].
  destruct (validate_password_strength _) as [[|] err]; simpl; [| by eauto 10].
  unfold write_users.
  destruct (users_write a) as [[|]|] eqn:Hwrite; do 2 eexists;
    (split; [reflexivity |]); (split; [discriminate |]); (split; [| reflexivity]);
    try done.
  intros _ u record Hu. unfold read_users at 1. simpl.
  rewrite lookup_insert_ne; [exact Hu |].
  intros <-. apply Htaken. by rewrite Hu.
Qed.

(** X15. [register] does not look at what [_write_json_safe] answers: when
    the user file cannot be opened for writing, a registration that passes
    every check still redirects to the login page, nothing is stored, and
    the login that follows finds no such user. *)
Theorem register_reports_success_without_storing (request later : Request)
    (a : accounts) (session : gmap string string) (username email password : string) :
  req_method request = "POST" ->
  req_form request !! "username" = Some username ->
  req_form request !! "email" = Some email ->
  req_form request !! "password" = Some password ->
  username <> EmptyString -> email <> EmptyString ->
  read_users a !! username = None ->
  validate_password_strength password = (true, None) ->
  users_write a = Some OpenFails ->
  req_method later = "POST" ->
  req_form later !! "username" = Some username ->
  req_form later !! "password" = Some password ->
  register request a = (Redirect "login", a)
  /\ login later session a
     = (Rendered "login.html" [("error", Some "User not found. Please register first.")],
        session, a).
Proof.
  intros Hpost Hu He Hp Hune Hene Hfresh Hvalid Hwrite Hpost' Hu' Hp'.
  destruct (accepted_password_not_default password Hvalid) as [Hnot_admin Hpne].
  split.
  - unfold register. rewrite (bool_decide_eq_true_2 _ Hpost), Hu, He, Hp. simpl.
    rewrite !bool_decide_eq_false_2 by done. simpl.
    rewrite Hfresh, (bool_decide_eq_false_2 _ is_Some_None).
    rewrite Hvalid. simpl. unfold write_users. by rewrite Hwrite.
  - unfold login. rewrite (bool_decide_eq_true_2 _ Hpost'), Hu', Hp'. simpl.
    rewrite !bool_decide_eq_false_2 by done. simpl.
    rewrite (bool_decide_eq_false_2 (password = "admin123")) by done.
    by rewrite andb_false_r, Hfresh.
Qed.

(** X16. [login] gives a session one role or changes nothing.  Every answer
    that is the login page again leaves the session and the user file as
    they were.  The admin shortcut makes the session an admin session with
    no user in it and leaves the user file alone.  A redirect to the
    dashboard means the name is a stored user, the password given is the
    stored one, and the session has this user and no admin role. *)
Theorem login_sets_one_role (request : Request) (session : gmap string string)
    (a : accounts) :
  exists response session' a',
    login request session a = (response, session', a')
    /\ ((exists context, response = Rendered "login.html" context
                         /\ session' = session /\ a' = a)
        \/ (response = Redirect "admin_dashboard"
            /\ session' !! "admin" = Some "admin" /\ session' !! "user" = None
            /\ a' = a)
        \/ (exists username password record,
              response = Redirect "dashboard"
              /\ req_form request !! "username" = Some username
              /\ req_form request !! "password" = Some password
              /\ read_users a !! username = Some record
              /\ record !! "password" = Some (JString password)
              /\ session' !! "user" = Some username
              /\ session' !! "admin" = None)).
Proof.
  unfold login. case_bool_decide as Hpost.
  2: { do 3 eexists. split; [reflexivity |]. left. eauto. }
  destruct (req_form request !! "username") as [username|] eqn:Hu.
  2: { do 3 eexists. split; [reflexivity |]. left. eauto. }
  destruct (req_form request !! "password") as [password|] eqn:Hp.
  2: { simpl. rewrite orb_true_r. do 3 eexists. split; [reflexivity |]. left. eauto. }
  destruct (_ || _).
  { do 3 eexists. split; [reflexivity |]. left. eauto. }
  simpl. destruct (_ && _).
  { do 3 eexists. split; [reflexivity |]. right. left.
    split; [reflexivity |]. split; [apply lookup_insert_eq |].
    split; [by rewrite lookup_insert_ne, lookup_delete_eq | reflexivity]. }
  destruct (read_users a !! username) as [record|] eqn:Hrecord.
  2: { do 3 eexists. split; [reflexivity |]. left. eauto. }
  case_bool_decide as Hempty.
  { do 3 eexists. split; [reflexivity |]. left. eauto. }
  destruct (record !! "password") as [stored|] eqn:Hstored.
  2: { do 3 eexists. split; [reflexivity |]. left. eauto. }
  destruct (decide (stored = JString password)) as [->|Hne].
  - rewrite bool_decide_eq_true_2 by done. simpl.
    destruct (write_users _ a) as [written a']. do 3 eexists.
    split; [reflexivity |]. right. right. exists username, password, record.
    split; [reflexivity |]. do 4 (split; [done |]).
    split; [apply lookup_insert_eq |].
    by rewrite lookup_insert_ne, lookup_delete_eq.
  - rewrite (bool_decide_eq_false_2 _ Hne).
    destruct stored; do 3 eexists; (split; [reflexivity |]); left; eauto.
Qed.

(** X17. [logout] always redirects to the index and takes the user, and
    nothing else, out of the session.  Without a user in the session the
    user file is left alone; with one, and a file that can be written, the
    user's record is marked offline with every other field as it was, and
    no other record changes. *)
Theorem logout_clears_user (session : gmap string string) (a : accounts) :
  exists a',
    logout session a = (Redirect "index", delete "user" session, a')
    /\ (session !! "user" = None -> a' = a)
    /\ (forall username record,
          session !! "user" = Some username ->
          read_users a !! username = Some record ->
          users_write a = None ->
          exists record',
            read_users a' !! username = Some record'
            /\ record' !! "status" = Some (JString "Offline")
            /\ record' !! "is_logged_in" = Some (JBool false)
            /\ (forall field, field <> "status" -> field <> "is_logged_in" ->
                              record' !! field = record !! field)
            /\ (forall other, other <> username ->
                              read_users a' !! other = read_users a !! other)).
Proof.
  unfold logout. destruct (session !! "user") as [username|] eqn:Huser.
  - eexists. split; [reflexivity |]. split; [discriminate |].
    intros ? record [= <-] Hrecord Hwrite. rewrite Hrecord.
    destruct (read_users_written
                (<[username := <["is_logged_in" := JBool false]>
                                 (<["status" := JString "Offline"]> record)]>
                   (read_users a)) a Hwrite) as (-> & _).
    eexists. split; [apply lookup_insert_eq |].
    split; [by rewrite lookup_insert_ne, lookup_insert_eq |].
    split; [apply lookup_insert_eq |].
    split; [intros field H1 H2; by rewrite !lookup_insert_ne |].
    intros other Hother. by rewrite lookup_insert_ne.
  - exists a. rewrite delete_id by done. split; [reflexivity |].
    split; [done |]. intros ? ? [=].
Qed.

(** X18. A reset token works once.  With stores that can be written, a POST
    with an acceptable password for a token issued to a stored user
    replaces that user's password, leaving the rest of the record, removes
    the token and no other, and redirects to the login page; from then on
    the same token is answered with status 400, whatever the request. *)
Theorem reset_password_consumes_token (token : string) (request : Request)
    (a : accounts) (info record : gmap string jvalue) (username password : string) :
  read_tokens a !! token = Some info ->
  info !! "username" = Some (JString username) ->
  read_users a !! username = Some record ->
  req_method request = "POST" ->
  req_form request !! "password" = Some password ->
  validate_password_strength password = (true, None) ->
  users_write a = None ->
  tokens_write a = None ->
  exists a1,
    reset_password token request a = Ok (Redirect "login", a1)
    /\ read_users a1 !! username = Some (<["password" := JString password]> record)
    /\ (forall other, other <> username -> read_users a1 !! other = read_users a !! other)
    /\ read_tokens a1 !! token = None
    /\ (forall other, other <> token -> read_tokens a1 !! other = read_tokens a !! other)
    /\ (forall again, reset_password token again a1
                      = Ok (Text "Invalid or expired token." 400, a1)).
Proof.
  intros Htoken Hname Hrecord Hpost Hp Hvalid Husers Htokens.
  destruct (accepted_password_not_default password Hvalid) as [_ Hpne].
  assert (Hinfo : info <> ∅) by (intros ->; by rewrite lookup_empty in Hname).
  set (users' := <[username := <["password" := JString password]> record]> (read_users a)).
  set (a1 := mkAccounts (Some users') (users_write a)
               (Some (delete token (read_tokens a))) (tokens_write a)).
  exists a1.
  assert (Hrun : reset_password token request a = Ok (Redirect "login", a1)).
  { unfold reset_password. rewrite Htoken, (bool_decide_eq_false_2 _ Hinfo).
    rewrite (bool_decide_eq_true_2 _ Hpost), Hp. simpl.
    rewrite (bool_decide_eq_false_2 _ Hpne). simpl. rewrite Hvalid. simpl.
    rewrite Hname, Hrecord. unfold write_users. rewrite Husers.
    unfold write_tokens. simpl. rewrite Htokens.
    unfold a1, users'. by rewrite Husers, Htokens. }
  split; [exact Hrun |].
  split; [apply lookup_insert_eq |].
  split; [intros other Hne; unfold read_users at 1; simpl; by apply lookup_insert_ne |].
  split; [apply lookup_delete_eq |].
  split; [intros other Hne; unfold read_tokens at 1; simpl; by apply lookup_delete_ne |].
  intros again. unfold reset_password.
  assert (Hgone : read_tokens a1 !! token = None) by apply lookup_delete_eq.
  by rewrite Hgone.
Qed.

(** ** The JSON stores *)

(** X19. [_write_json_safe] and [_read_json_safe] never raise, and what was
    written is what is read back: after a write that answers [True], every
    read of the path gives the data written, whatever the default.  A
    write that answers [False] either left everything as it was or left a
    file from which a read gives the default.  Reads of other paths are
    not affected either way. *)
Theorem json_store_round_trip (path : string) (data : gmap string Z) (w : world) :
  exists ok w1,
    _write_json_safe path data w = (Ok ok, w1)
    /\ (ok = true -> forall d, _read_json_safe path d w1 = (Ok data, w1))
    /\ (ok = false ->
        w1 = w \/ forall d, _read_json_safe path d w1 = (Ok d, w1))
    /\ (forall other d, other <> path ->
          exists v, _read_json_safe other d w = (Ok v, w)
                    /\ _read_json_safe other d w1 = (Ok v, w1)).
Proof.
  assert (Hother : forall (doc : json_doc) other d, other <> path ->
            exists v, _read_json_safe other d w = (Ok v, w)
                      /\ _read_json_safe other d (set_json_files (insert path doc) w)
                         = (Ok v, set_json_files (insert path doc) w)).
  { intros doc other d Hne. unfold _read_json_safe, try_except, json_load_file. simpl.
    rewrite lookup_insert_ne by done.
    destruct (json_files w !! other) as [[counts|]|]; eauto. }
  unfold _write_json_safe, try_except, bind, json_dump_file.
  destruct (write_failures w !! path) as [[|]|] eqn:Hfail; simpl.
  - exists false, w. split; [reflexivity |]. split; [discriminate |].
    split; [by left |]. intros other d _.
    unfold _read_json_safe, try_except, json_load_file.
    destruct (json_files w !! other) as [[counts|]|]; eauto.
  - do 2 eexists. split; [reflexivity |]. split; [discriminate |].
    split; [| by apply Hother]. intros _. right. intros d.
    unfold _read_json_safe, try_except, json_load_file. simpl.
    by rewrite lookup_insert_eq.
  - do 2 eexists. split; [reflexivity |]. split; [| split; [discriminate | by apply Hother]].
    intros _ d. unfold _read_json_safe, try_except, json_load_file. simpl.
    by rewrite lookup_insert_eq.
Qed.

(** ** The admin's side of the accounts *)

Lemma admin_update_user_run (username : string) (request : Request)
    (session : gmap string string) (a : accounts) :
  is_Some (session !! "admin") ->
  exists record,
    admin_update_user username request session a
    = (RedirectUser "admin_edit_user" username,
       (write_users (<[username := record]> (read_users a)) a).2)
    /\ is_Some (record !! "status")
    /\ forall field, field <> "bio" -> field <> "status" ->
          record !! field
          = default {[ "emotions" := JStrings []; "profile_pic" := JNull ]}
              (read_users a !! username) !! field.
Proof.
  intros Hadmin. unfold admin_update_user, _require_admin.
  rewrite (bool_decide_eq_true_2 _ Hadmin).
  set (user_info := default _ (read_users a !! username)).
  cbv zeta. set (bio := match req_form request !! "bio" with Some _ => _ | None => _ end).
  set (status := match req_form request !! "status" with Some _ => _ | None => _ end).
  exists (<["status" := status]> (<["bio" := bio]> user_info)).
  split; [by destruct (write_users _ a) |].
  split; [rewrite lookup_insert_eq; eauto |].
  intros field Hbio Hstatus. by rewrite !lookup_insert_ne.
Qed.

(** X20. [admin_update_user] on a name that is not in the user file makes
    an account of it: a record with no password.  From then on [login]
    under that name answers that the account has no password set, whatever
    password is given, and [register] refuses the name as taken. *)
Theorem admin_update_creates_passwordless_account (username : string)
    (request attempt signup : Request) (session visitor : gmap string string)
    (a : accounts) (password email password' : string) :
  is_Some (session !! "admin") ->
  read_users a !! username = None ->
  users_write a = None ->
  req_method attempt = "POST" ->
  req_form attempt !! "username" = Some username ->
  req_form attempt !! "password" = Some password ->
  username <> EmptyString -> password <> EmptyString -> password <> "admin123" ->
  req_method signup = "POST" ->
  req_form signup !! "username" = Some username ->
  req_form signup !! "email" = Some email ->
  req_form signup !! "password" = Some password' ->
  email <> EmptyString -> password' <> EmptyString ->
  exists a1 record,
    admin_update_user username request session a
    = (RedirectUser "admin_edit_user" username, a1)
    /\ read_users a1 !! username = Some record
    /\ record !! "password" = None
    /\ login attempt visitor a1
       = (Rendered "login.html"
            [("error", Some "This account has no password set. Please register again.")],
          visitor, a1)
    /\ register signup a1
       = (Rendered "register.html"
            [("error", Some "Username already exists. Please choose another.")], a1).
Proof.
  intros Hadmin Hnew Hwrite Hpost Hu Hp Hune Hpne Hnot_default
    Hpost' Hu' He' Hp' Hene Hpne'.
  destruct (admin_update_user_run username request session a Hadmin)
    as (record & Hrun & Hstatus & Hfields).
  destruct (read_users_written (<[username := record]> (read_users a)) a Hwrite)
    as (Hread & _).
  set (a1 := (write_users _ a).2) in *.
  assert (Hrecord : read_users a1 !! username = Some record)
    by (rewrite Hread; apply lookup_insert_eq).
  assert (Hnonempty : record <> ∅).
  { intros Hempty. rewrite Hempty, lookup_empty in Hstatus. by destruct Hstatus. }
  assert (Hpassword : record !! "password" = None).
  { rewrite Hfields by done. by rewrite Hnew. }
  exists a1, record. split; [exact Hrun |]. split; [exact Hrecord |].
  split; [exact Hpassword |]. split.
  - unfold login. rewrite (bool_decide_eq_true_2 _ Hpost), Hu, Hp. simpl.
    rewrite !bool_decide_eq_false_2 by done. simpl.
    rewrite (bool_decide_eq_false_2 (password = "admin123")) by done.
    rewrite andb_false_r, Hrecord, (bool_decide_eq_false_2 _ Hnonempty).
    by rewrite Hpassword.
  - unfold register. rewrite (bool_decide_eq_true_2 _ Hpost'), Hu', He', Hp'. simpl.
    rewrite !bool_decide_eq_false_2 by done. simpl.
    rewrite Hrecord. by rewrite bool_decide_eq_true_2 by done.
Qed.

(** X21. [admin_update_user] touches the bio and the status and nothing
    else.  Whoever calls it and whatever the form holds, every user that
    was stored is still stored with every other field, the password and
    the e-mail address among them, as it was, unless the write breaks off
    after truncating the file; without the admin role in the session
    nothing at all changes and the answer is a redirect to the login. *)
Theorem admin_update_keeps_credentials (username : string) (request : Request)
    (session : gmap string string) (a : accounts) :
  exists response a1,
    admin_update_user username request session a = (response, a1)
    /\ (session !! "admin" = None -> response = Redirect "login" /\ a1 = a)
    /\ (users_write a <> Some DumpFails ->
        forall u record, read_users a !! u = Some record ->
          exists record',
            read_users a1 !! u = Some record'
            /\ forall field, field <> "bio" -> field <> "status" ->
                  record' !! field = record !! field).
Proof.
  destruct (session !! "admin") as [role|] eqn:Hrole.
  - destruct (admin_update_user_run username request session a) as
      (record' & Hrun & _ & Hfields); [by rewrite Hrole |].
    do 2 eexists. split; [exact Hrun |]. split; [discriminate |].
    intros Hwrite u record Hu. unfold write_users.
    destruct (users_write a) as [[|]|]; [by eauto | done |].
    unfold read_users at 1. simpl.
    destruct (decide (u = username)) as [->|Hne].
    + exists record'. rewrite lookup_insert_eq. split; [done |].
      intros field Hbio Hstatus. rewrite Hfields by done. by rewrite Hu.
    + exists record. by rewrite lookup_insert_ne.
  - exists (Redirect "login"), a. unfold admin_update_user, _require_admin.
    rewrite Hrole, (bool_decide_eq_false_2 _ is_Some_None).
    split; [reflexivity |]. split; [done |]. eauto.
Qed.

(** X22. The two ways in for the admin accept the same credentials:
    [login] redirects to the admin dashboard exactly when [admin_login]
    does, the session they leave is the same, it passes [_require_admin]
    and has no user in it, and the password that did it is none that
    [validate_password_strength] accepts. *)
Theorem admin_entrances_agree (request : Request) (session : gmap string string)
    (a : accounts) :
  ((login request session a).1.1 = Redirect "admin_dashboard"
   <-> (admin_login request session).1 = Redirect "admin_dashboard")
  /\ ((admin_login request session).1 = Redirect "admin_dashboard" ->
      (login request session a).1.2 = (admin_login request session).2
      /\ _require_admin (admin_login request session).2 = None
      /\ (admin_login request session).2 !! "user" = None
      /\ exists password,
           req_form request !! "password" = Some password
           /\ validate_password_strength password <> (true, None)).
Proof.
  assert (Hno : forall (r1 r2 : Response) (s1 s2 : gmap string string),
            r1 <> Redirect "admin_dashboard" -> r2 <> Redirect "admin_dashboard" ->
            (r1 = Redirect "admin_dashboard" <-> r2 = Redirect "admin_dashboard")
            /\ (r2 = Redirect "admin_dashboard" ->
                s1 = s2 /\ _require_admin s2 = None /\ s2 !! "user" = None
                /\ exists password,
                     req_form request !! "password" = Some password
                     /\ validate_password_strength password <> (true, None)))
    by (intros; split; [split |]; intros; done).
  assert (Hlogin : forall username password,
            (let users := read_users a in
             match users !! username with
             | None =>
                 (Rendered "login.html"
                    [("error", Some "User not found. Please register first.")], session, a)
             | Some user_info =>
                 if bool_decide (user_info = ∅) then
                   (Rendered "login.html"
                      [("error", Some "User not found. Please register first.")], session, a)
                 else
                   match user_info !! "password" with
                   | None | Some JNull =>
                       (Rendered "login.html"
                          [("error",
                            Some "This account has no password set. Please register again.")],
                        session, a)
                   | Some stored_pw =>
                       if negb (bool_decide (stored_pw = JString password)) then
                         (Rendered "login.html" [("error", Some "Incorrect password.")],
                          session, a)
                       else
                         let user_info := <["status" := JString "Online"]> user_info in
                         let user_info := <["is_logged_in" := JBool true]> user_info in
                         let users := <[username := user_info]> users in
                         let '(_, a) := write_users users a in
                         let session := delete "admin" session in
                         let session := <["user" := username]> session in
                         (Redirect "dashboard", session, a)
                   end
             end).1.1 <> Redirect "admin_dashboard").
  { intros username password. cbv zeta.
    destruct (read_users a !! username) as [record|]; [| done].
    destruct (bool_decide (record = ∅)); [done |].
    destruct (record !! "password") as [[]|]; try done;
      by destruct (negb _); [| destruct (write_users _ a)]. }
  unfold login, admin_login. case_bool_decide as Hpost; [| by apply Hno].
  destruct (req_form request !! "username") as [username|]; [| simpl; by apply Hno].
  destruct (req_form request !! "password") as [password|];
    [| simpl; rewrite orb_true_r, andb_false_r; simpl; by apply Hno].
  simpl. destruct (bool_decide (username = "")); [simpl; by apply Hno |].
  destruct (bool_decide (password = "")); [simpl; by apply Hno |]. simpl.
  destruct (bool_decide (lower (strip username) = "admin")); simpl;
    [| apply Hno; [apply Hlogin | done]].
  case_bool_decide as Hdefault; [| apply Hno; [apply Hlogin | done]].
  split; [done |]. intros _. cbn [fst snd]. split; [done |].
  split; [unfold _require_admin; by rewrite lookup_insert_eq |].
  split; [by rewrite lookup_insert_ne, lookup_delete_eq |].
  exists password. split; [done |]. by subst password.
Qed.

(** ** Feedback *)

Lemma string_compare_lt_trans (a b c : string) :
  String.compare a b = Lt -> String.compare b c = Lt -> String.compare a c = Lt.
Proof.
  revert b c. induction a as [|x a IH]; intros [|y b] [|z c]; simpl; try done.
  unfold Ascii.compare.
  destruct (N.compare_spec (N_of_ascii x) (N_of_ascii y)) as [Hxy|Hxy|Hxy];
    destruct (N.compare_spec (N_of_ascii y) (N_of_ascii z)) as [Hyz|Hyz|Hyz];
    try done; intros H1 H2.
  - rewrite Hxy, Hyz, N.compare_refl. eauto.
  - rewrite Hxy. by apply N.compare_lt_iff in Hyz as ->.
  - rewrite <- Hyz. by apply N.compare_lt_iff in Hxy as ->.
  - assert (Hxz : (N_of_ascii x < N_of_ascii z)%N) by lia.
    by apply N.compare_lt_iff in Hxz as ->.
Qed.

Lemma string_ltb_trans (a b c : string) :
  String.ltb a b = true -> String.ltb b c = true -> String.ltb a c = true.
Proof.
  unfold String.ltb. intros H1 H2.
  destruct (String.compare a b) eqn:Hab; try done.
  destruct (String.compare b c) eqn:Hbc; try done.
  by rewrite (string_compare_lt_trans a b c).
Qed.

Lemma insert_by_timestamp_perm (x : FeedbackItem) (l : list FeedbackItem) :
  insert_by_timestamp x l ≡ₚ x :: l.
Proof.
  induction l as [|y l IH]; simpl; [done |].
  destruct (String.ltb _ _); [done |]. rewrite IH. apply Permutation_swap.
Qed.

Lemma insert_by_timestamp_sorted (x : FeedbackItem) (l : list FeedbackItem) :
  StronglySorted not_older l -> StronglySorted not_older (insert_by_timestamp x l).
Proof.
  induction 1 as [|y l Hsorted IH Hall]; simpl.
  - repeat constructor.
  - destruct (String.ltb (item_timestamp y) (item_timestamp x)) eqn:Hyx.
    + constructor; [by constructor |]. constructor.
      * unfold not_older. destruct (String.ltb (item_timestamp x) (item_timestamp y)) eqn:Hxy;
          [| done].
        pose proof (string_ltb_trans _ _ _ Hyx Hxy) as Hyy.
        unfold String.ltb in Hyy.
        assert (Hrefl : String.compare (item_timestamp y) (item_timestamp y) = Eq).
        { pose proof (String.compare_antisym (item_timestamp y) (item_timestamp y)) as Ha.
          destruct (String.compare (item_timestamp y) (item_timestamp y)); done. }
        by rewrite Hrefl in Hyy.
      * eapply Forall_impl; [exact Hall |]. intros z Hyz. unfold not_older in *.
        destruct (String.ltb (item_timestamp x) (item_timestamp z)) eqn:Hxz; [| done].
        by rewrite (string_ltb_trans _ _ _ Hyx Hxz) in Hyz.
    + constructor; [exact IH |].
      rewrite insert_by_timestamp_perm. by constructor.
Qed.

Lemma sorted_newest_first_spec (items : list FeedbackItem) :
  sorted_newest_first items ≡ₚ items
  /\ StronglySorted not_older (sorted_newest_first items).
Proof.
  unfold sorted_newest_first.
  assert (Hgen : forall acc, StronglySorted not_older acc ->
            fold_left (fun sorted x => insert_by_timestamp x sorted) items acc
            ≡ₚ (acc ++ items)%list
            /\ StronglySorted not_older
                 (fold_left (fun sorted x => insert_by_timestamp x sorted) items acc)).
  { induction items as [|x items IH]; intros acc Hacc; simpl.
    - by rewrite app_nil_r.
    - destruct (IH (insert_by_timestamp x acc)) as [Hperm Hsorted];
        [by apply insert_by_timestamp_sorted |].
      split; [| done]. rewrite Hperm, insert_by_timestamp_perm.
      apply Permutation_middle. }
  apply (Hgen []). constructor.
Qed.

Lemma reply_to_first_at (feedback_id : Z) (reply : Reply) (items : list FeedbackItem)
    (i : nat) (item : FeedbackItem) :
  NoDup (item_id <$> items) ->
  items !! i = Some item -> item_id item = feedback_id ->
  reply_to_first feedback_id reply items
  = <[i := mkItem (item_id item) (item_user item) (item_rating item)
             (item_feedback item) (item_timestamp item) (Some reply)]> items.
Proof.
  revert i. induction items as [|x items IH]; intros i Hnodup Hi Hid; [done |].
  rewrite fmap_cons in Hnodup. apply NoDup_cons in Hnodup as [Hfresh Hnodup]. simpl.
  destruct i as [|i]; simpl in Hi.
  - injection Hi as ->. by rewrite bool_decide_eq_true_2.
  - rewrite bool_decide_eq_false_2.
    + simpl. f_equal. by apply IH.
    + intros Hx. apply Hfresh. rewrite Hx, <- Hid.
      apply list_elem_of_fmap. exists item. split; [done |].
      by eapply list_elem_of_lookup_2.
Qed.

Lemma reply_to_first_absent (feedback_id : Z) (reply : Reply) (items : list FeedbackItem) :
  Forall (fun item => item_id item <> feedback_id) items ->
  reply_to_first feedback_id reply items = items.
Proof.
  induction 1 as [|x items Hx _ IH]; simpl; [done |].
  by rewrite bool_decide_eq_false_2, IH.
Qed.

(** X23. A piece of feedback that is taken gets an id of its own.  With a
    user in the session, a rating that [int] reads as a number from 1 to
    5, a text and a file that can be written, [feedback] appends one item
    with the user, the rating, the text and the time, no reply, and an id
    greater than every id in the file, so that ids that were distinct stay
    distinct.  The page shows every item, the new one included, none
    before an item with a greater timestamp. *)
Theorem feedback_gets_fresh_id (now : string) (request : Request)
    (session : gmap string string) (s : feedback_store) (user rating text : string)
    (n : Z) :
  session !! "user" = Some user ->
  req_method request = "POST" ->
  req_form request !! "rating" = Some rating ->
  py_int_of_str rating = Some n -> (1 <= n <= 5)%Z ->
  req_form request !! "feedback" = Some text -> text <> EmptyString ->
  feedback_write s = None ->
  exists new_id s1 shown,
    feedback now request session s = (FeedbackPage None true shown (Some user), s1)
    /\ read_feedback s1
       = (read_feedback s ++ [mkItem new_id user n text now None])%list
    /\ Forall (fun old => (item_id old < new_id)%Z) (read_feedback s)
    /\ (NoDup (item_id <$> read_feedback s) -> NoDup (item_id <$> read_feedback s1))
    /\ shown ≡ₚ read_feedback s1
    /\ StronglySorted not_older shown.
Proof.
  intros Huser Hpost Hrating Hint Hrange Htext Hne Hwrite.
  set (new_id := match read_feedback s with
                 | first :: rest => (item_id (py_max_by item_id first rest) + 1)%Z
                 | [] => 1%Z
                 end).
  set (items := (read_feedback s ++ [mkItem new_id user n text now None])%list).
  assert (Hfresh : Forall (fun old => (item_id old < new_id)%Z) (read_feedback s)).
  { subst new_id. destruct (read_feedback s) as [|first rest]; [constructor |].
    destruct (py_max_by_first_greatest item_id first rest)
      as (pre & post & -> & Hpre & Hrest).
    apply Forall_app. split; [| constructor].
    - eapply Forall_impl; [exact Hpre |]. simpl. lia.
    - lia.
    - eapply Forall_impl; [exact Hrest |]. simpl. lia. }
  exists new_id, (mkFeedback (Some items) (feedback_write s)), (sorted_newest_first items).
  split.
  - unfold feedback. rewrite Huser, (bool_decide_eq_true_2 _ Hpost), Hrating, Hint, Htext.
    simpl. rewrite (bool_decide_eq_false_2 _ Hne).
    replace (n <? 1)%Z with false by lia. replace (5 <? n)%Z with false by lia. simpl.
    fold new_id. fold items. unfold write_feedback. by rewrite Hwrite.
  - split; [reflexivity |]. split; [exact Hfresh |].
    split; [| apply sorted_newest_first_spec].
    intros Hnodup. unfold read_feedback at 1. simpl. subst items.
    rewrite fmap_app. apply NoDup_app. split; [exact Hnodup |].
    split; [| apply NoDup_singleton].
    intros i Hi Hnew. simpl in Hnew. apply list_elem_of_singleton in Hnew as ->.
    apply list_elem_of_fmap in Hi as (old & Hid & Hold).
    rewrite Forall_forall in Hfresh. specialize (Hfresh old Hold). lia.
Qed.

(** X24. The admin's reply reaches the item it is for and no other.  With
    distinct ids in the file, the admin role in the session and a file
    that can be written, [admin_reply_feedback] replaces the reply of the
    item with this id, keeping its other fields and its place, and leaves
    every other item as it was; for an id that no item has, the file keeps
    its content. *)
Theorem admin_reply_reaches_one_item (now : string) (feedback_id : Z)
    (request : Request) (session : gmap string string) (s : feedback_store) :
  is_Some (session !! "admin") ->
  feedback_write s = None ->
  NoDup (item_id <$> read_feedback s) ->
  exists s1,
    admin_reply_feedback now feedback_id request session s
    = (Redirect "admin_feedback", s1)
    /\ (forall i item,
          read_feedback s !! i = Some item -> item_id item = feedback_id ->
          read_feedback s1
          = <[i := mkItem (item_id item) (item_user item) (item_rating item)
                     (item_feedback item) (item_timestamp item)
                     (Some (mkReply "admin" (req_form request !! "reply") now))]>
              (read_feedback s))
    /\ (Forall (fun item => item_id item <> feedback_id) (read_feedback s) ->
        read_feedback s1 = read_feedback s).
Proof.
  intros Hadmin Hwrite Hnodup. unfold admin_reply_feedback, _require_admin.
  rewrite (bool_decide_eq_true_2 _ Hadmin). unfold write_feedback. rewrite Hwrite.
  eexists. split; [reflexivity |]. unfold read_feedback at 2 4. simpl. split.
  - intros i item Hi Hid. by apply reply_to_first_at.
  - apply reply_to_first_absent.
Qed.

(** X25. [feedback] only ever adds to the file: whatever the request and
    the session, and unless the write breaks off after truncating the
    file, the items that were stored are still there afterwards, unchanged
    and in the same places, followed by at most one new item. *)
Theorem feedback_only_appends (now : string) (request : Request)
    (session : gmap string string) (s : feedback_store) :
  feedback_write s <> Some DumpFails ->
  exists response s1 added,
    feedback now request session s = (response, s1)
    /\ read_feedback s1 = (read_feedback s ++ added)%list
    /\ (length added <= 1)%nat
    /\ (added <> [] -> exists user, session !! "user" = Some user
                                   /\ Forall (fun item => item_user item = user) added).
Proof.
  intros Hwrite. unfold feedback.
  assert (Hsame : forall response : FeedbackResponse, exists response' s1 added,
            (response, s) = (response', s1)
            /\ read_feedback s1 = (read_feedback s ++ added)%list
            /\ (length added <= 1)%nat
            /\ (added <> [] -> exists user, session !! "user" = Some user
                                   /\ Forall (fun item => item_user item = user) added)).
  { intros response. exists response, s, []. rewrite app_nil_r.
    split; [reflexivity |]. split; [reflexivity |]. split; [simpl; lia |].
    intros Hadded. by destruct Hadded. }
  destruct (session !! "user") as [user|]; [| apply Hsame].
  case_bool_decide; [| apply Hsame].
  destruct (_ || _); [apply Hsame |].
  unfold write_feedback. destruct (feedback_write s) as [[|]|]; [apply Hsame | done |].
  do 2 eexists. eexists [_]. split; [reflexivity |]. split; [reflexivity |].
  split; [simpl; lia |]. intros _. exists user. split; [done |]. by repeat constructor.
Qed.

(** ** The further properties on concrete inputs *)

Lemma allowed_file_ignores_directories_witness :
  allowed_file ("uploads/v1.2/" ++ "clip.WAV") = allowed_file "clip.WAV"
  /\ allowed_file "clip.WAV" = Ok true.
Proof.
  split; [| vm_compute; reflexivity].
  apply (allowed_file_ignores_directories "uploads/v1.2/" "clip.WAV").
  vm_compute. reflexivity.
Defined.

Lemma successful_analysis_counted_once_witness :
  let w2 := (analyze_saved_file (H := toy_libraries) None "app" "uploads/clip.wav" w_wav).2 in
  stored_counts (emotion_path "app") w2 !! "calm" = Some 1%Z
  /\ total_emotions (stored_counts (emotion_path "app") w2) = 1%Z.
Proof.
  intros w2.
  destruct (successful_analysis_counted_once (H := toy_libraries) None "app"
              "uploads/clip.wav" "calm" w_wav w2)
    as (_ & Hcalm & _ & Htotal).
  - vm_compute. reflexivity.
  - vm_compute. reflexivity.
  - split; [rewrite Hcalm | rewrite Htotal]; vm_compute; reflexivity.
Defined.

Lemma validate_password_strength_monotone_witness :
  validate_password_strength ("my " ++ "Secret#2024" ++ " again") = (true, None).
Proof.
  apply (validate_password_strength_monotone "my " "Secret#2024" " again").
  vm_compute. reflexivity.
Defined.

Lemma api_result_is_shown_once_witness :
  exists session2,
    dashboard (H := toy_libraries) None "app" save_to_disk get_request
      (<["last_emotion" := "calm"]> ann_session) w_no_uploads
    = (Ok (Rendered "dashboard.html" [("emotion", Some "calm")], session2), w_no_uploads)
    /\ dashboard (H := toy_libraries) None "app" save_to_disk get_request session2
         w_no_uploads
       = (Ok (Rendered "dashboard.html" [("emotion", None)], session2), w_no_uploads).
Proof.
  apply (api_result_is_shown_once (H := toy_libraries) None "app" save_to_disk
           "wav, mp3" upload_request get_request ann_session
           (<["last_emotion" := "calm"]> ann_session) w_no_uploads
           (api_analyze (H := toy_libraries) None "app" save_to_disk "wav, mp3"
              upload_request ann_session w_no_uploads).2
           w_no_uploads "calm").
  - vm_compute. reflexivity.
  - vm_compute. discriminate.
Defined.

Lemma accepted_upload_is_kept_witness :
  exists response session' w',
    api_analyze (H := toy_libraries) None "app" save_to_disk "wav, mp3"
      upload_request ann_session w_no_uploads
    = (Ok (response, session'), w')
    /\ uploads w' !! posix_join UPLOAD_FOLDER "clip.wav" = Some "abd".
Proof.
  refine (proj1 (accepted_upload_is_kept (H := toy_libraries) None "app" save_to_disk
                   "wav, mp3" upload_request ann_session w_no_uploads
                   (mkFile (Some "clip.wav") "abd") "clip.wav" _ _ _ _ _)).
  - intros f path v. reflexivity.
  - vm_compute. eauto.
  - vm_compute. reflexivity.
  - reflexivity.
  - vm_compute. reflexivity.
Defined.

Lemma story_is_counted_when_told_witness :
  exists w',
    story "app" None None get_request
      (<["last_emotion" := "happy"]> ann_session) w_no_uploads
    = (Ok (Rendered "story.html"
             [("emotion", Some "happy"); ("story", Some (fallback_story "happy"))],
           <["last_emotion" := "happy"]> ann_session), w')
    /\ stored_counts (story_path "app") w' = {[ "happy" := 1%Z ]}.
Proof.
  destruct (story_is_counted_when_told "app" None None get_request
              (<["last_emotion" := "happy"]> ann_session) w_no_uploads)
    as (text & w' & Hrun & _ & Htold).
  - vm_compute. eauto.
  - destruct (Htold "happy") as [-> ->]; [vm_compute; reflexivity | discriminate |].
    eexists. split; [exact Hrun |]. vm_compute. reflexivity.
Defined.

Lemma register_then_login_witness :
  exists a1 a2 session2,
    register signup_request no_accounts = (Redirect "login", a1)
    /\ login login_request ∅ a1 = (Redirect "dashboard", session2, a2)
    /\ session2 !! "user" = Some "ann".
Proof.
  destruct (register_then_login signup_request login_request no_accounts ∅
              "ann" "ann@example.org" "Secret#2024")
    as (a1 & a2 & session2 & record & Hregister & _ & Hlogin & Huser & _);
    try (vm_compute; reflexivity); try discriminate.
  exists a1, a2, session2. by repeat split.
Defined.

Lemma register_reports_success_without_storing_witness :
  register signup_request readonly_accounts = (Redirect "login", readonly_accounts)
  /\ login login_request ∅ readonly_accounts
     = (Rendered "login.html" [("error", Some "User not found. Please register first.")],
        ∅, readonly_accounts).
Proof.
  apply (register_reports_success_without_storing signup_request login_request
           readonly_accounts ∅ "ann" "ann@example.org" "Secret#2024");
    try (vm_compute; reflexivity); discriminate.
Defined.

Lemma reset_password_consumes_token_witness :
  exists a1,
    reset_password "t0" new_password_request ann_accounts = Ok (Redirect "login", a1)
    /\ reset_password "t0" new_password_request a1
       = Ok (Text "Invalid or expired token." 400, a1).
Proof.
  destruct (reset_password_consumes_token "t0" new_password_request ann_accounts
              {[ "username" := JString "ann"; "email" := JString "ann@example.org";
                 "created_at" := JString "2024-01-01T10:00:00" ]}
              (new_user "ann@example.org" "Secret#2024") "ann" "Better#2025")
    as (a1 & Hrun & _ & _ & _ & _ & Hagain);
    try (vm_compute; reflexivity).
  exists a1. split; [exact Hrun | apply Hagain].
Defined.

Lemma admin_update_creates_passwordless_account_witness :
  exists a1,
    admin_update_user "bob" bob_status_request admin_session ann_accounts
    = (RedirectUser "admin_edit_user" "bob", a1)
    /\ login bob_login_request ∅ a1
       = (Rendered "login.html"
            [("error", Some "This account has no password set. Please register again.")],
          ∅, a1)
    /\ register bob_signup_request a1
       = (Rendered "register.html"
            [("error", Some "Username already exists. Please choose another.")], a1).
Proof.
  destruct (admin_update_creates_passwordless_account "bob" bob_status_request
              bob_login_request bob_signup_request admin_session ∅ ann_accounts
              "Secret#2024" "bob@example.org" "Secret#2024")
    as (a1 & record & Hrun & _ & _ & Hlogin & Hregister);
    try (vm_compute; reflexivity); try discriminate.
  - vm_compute. eauto.
  - exists a1. by repeat split.
Defined.

Lemma feedback_gets_fresh_id_witness :
  exists s1 shown,
    feedback "2024-01-02 08:00:00" feedback_request ann_session two_feedback
    = (FeedbackPage None true shown (Some "ann"), s1)
    /\ read_feedback s1
       = (read_feedback two_feedback
          ++ [mkItem 5 "ann" 5 "Better now" "2024-01-02 08:00:00" None])%list.
Proof.
  destruct (feedback_gets_fresh_id "2024-01-02 08:00:00" feedback_request ann_session
              two_feedback "ann" " 5" "Better now" 5)
    as (new_id & s1 & shown & Hrun & Hread & _);
    try (vm_compute; reflexivity); try discriminate; try lia.
  exists s1, shown. split; [exact Hrun |].
  assert (Hid : new_id = 5%Z).
  { pose proof Hrun as Hstore. vm_compute in Hstore.
    injection Hstore as _ <-. vm_compute in Hread.
    by injection Hread as ->. }
  by rewrite Hread, Hid.
Defined.

Lemma admin_reply_reaches_one_item_witness :
  exists s1,
    admin_reply_feedback "2024-01-04 12:00:00" 4 reply_request admin_session two_feedback
    = (Redirect "admin_feedback", s1)
    /\ read_feedback s1
       = [mkItem 1 "bob" 4 "Nice stories" "2024-01-01 10:00:00" None;
          mkItem 4 "ann" 2 "Too slow" "2024-01-03 09:30:00"
            (Some (mkReply "admin" (Some "Thank you") "2024-01-04 12:00:00"))].
Proof.
  destruct (admin_reply_reaches_one_item "2024-01-04 12:00:00" 4 reply_request
              admin_session two_feedback)
    as (s1 & Hrun & Hreply & _).
  - vm_compute. eauto.
  - reflexivity.
  - apply (bool_decide_unpack (NoDup (item_id <$> read_feedback two_feedback))).
    vm_compute. exact I.
  - exists s1. split; [exact Hrun |].
    rewrite (Hreply 1%nat (mkItem 4 "ann" 2 "Too slow" "2024-01-03 09:30:00" None));
      reflexivity.
Defined.

Lemma feedback_only_appends_witness :
  exists response s1 added,
    feedback "2024-01-02 08:00:00" feedback_request ann_session two_feedback
    = (response, s1)
    /\ read_feedback s1 = (read_feedback two_feedback ++ added)%list
    /\ (length added <= 1)%nat.
Proof.
  destruct (feedback_only_appends "2024-01-02 08:00:00" feedback_request ann_session
              two_feedback)
    as (response & s1 & added & Hrun & Hread & Hlength & _).
  - discriminate.
  - exists response, s1, added. by repeat split.
Defined.
